(** * CyberFileSystemApp: the session, storage and audit core of
    [backend/server.js]

  The development embeds the request handlers of [backend/server.js]
  (login, the bearer-token middleware, the audit recorder and the five
  file operations) as executable functions over an explicit world: a
  file system, a wall clock and a trace of the observable events.

  The handlers lean on Node and npm libraries.  Their behaviour is
  written out in the first modules, following the libraries' documented
  semantics on a POSIX host:
  - [Str]   the JavaScript string primitives the handlers use;
  - [Path]  [path.join], [path.normalize] and [path.basename];
  - [Utf8]  [Buffer.toString("utf8")] and the encoder beside it;
  - [Fs]    the [fs] and [mkdirp] calls;
  - [Jwt]   [jsonwebtoken]'s [sign] and [verify] for HS256 tokens.
  [Server] is the translation of [server.js] itself. *)

From Stdlib Require Import ZArith Ascii String List Lia Bool.
From stdpp Require Import base option gmap strings pretty list.

Local Open Scope Z_scope.

(* ===================================================================== *)
(** * JavaScript strings *)
(* ===================================================================== *)

Module Str.

(** [s.split(sep)] for a one-character separator.  The result is never
    empty: the empty string splits into one empty piece. *)
Fixpoint split (sep : ascii) (s : string) : list string :=
  match s with
  | EmptyString => [EmptyString]
  | String c rest =>
      if Ascii.eqb c sep then EmptyString :: split sep rest
      else match split sep rest with
           | piece :: pieces => String c piece :: pieces
           | [] => [String c EmptyString]
           end
  end.

(** [pieces.join(sep)]. *)
Fixpoint join (sep : string) (pieces : list string) : string :=
  match pieces with
  | [] => EmptyString
  | [piece] => piece
  | piece :: more => piece +:+ sep +:+ join sep more
  end.

(** [s.includes(c)] for one character. *)
Fixpoint contains (c : ascii) (s : string) : bool :=
  match s with
  | EmptyString => false
  | String a rest => Ascii.eqb a c || contains c rest
  end.

(** [s.charCodeAt(0) === c]. *)
Definition starts_with (c : ascii) (s : string) : bool :=
  match s with
  | String a _ => Ascii.eqb a c
  | EmptyString => false
  end.

(** [s.charCodeAt(s.length - 1) === c]. *)
Fixpoint ends_with (c : ascii) (s : string) : bool :=
  match s with
  | EmptyString => false
  | String a EmptyString => Ascii.eqb a c
  | String _ rest => ends_with c rest
  end.

(** JavaScript truthiness of a string: every string but the empty one. *)
Definition truthy (s : string) : bool :=
  match s with
  | EmptyString => false
  | String _ _ => true
  end.

(** An optional string as a condition: [undefined] and the empty string
    are false, any other string is true and is handed on. *)
Definition provided (v : option string) : option string :=
  match v with
  | Some (String a rest) => Some (String a rest)
  | _ => None
  end.

(** The bytes of a string, one per character. *)
Fixpoint bytes (s : string) : list Z :=
  match s with
  | EmptyString => []
  | String a rest => Z.of_N (N_of_ascii a) :: bytes rest
  end.

End Str.

(* ===================================================================== *)
(** * Node's [path] module (POSIX flavour) *)
(* ===================================================================== *)

Module Path.

Definition sep : ascii := "/"%char.

(** One round of the loop of [normalizeString]: [res] holds the segments
    kept so far, the last one first.  Empty and ["."] segments are
    dropped; [".."] removes the last kept segment, unless there is none
    or it is itself [".."], in which case it is kept only when the path
    may climb above its start. *)
Definition step (allowAboveRoot : bool) (res : list string) (seg : string)
  : list string :=
  if String.eqb seg "" || String.eqb seg "." then res
  else if String.eqb seg ".." then
    match res with
    | top :: below =>
        if String.eqb top ".."
        then (if allowAboveRoot then ".."%string :: res else res)
        else below
    | [] => if allowAboveRoot then [".."%string] else []
    end
  else seg :: res.

Definition segments (allowAboveRoot : bool) (path : string) : list string :=
  fold_left (step allowAboveRoot) (Str.split sep path) [].

Definition normalizeString (path : string) (allowAboveRoot : bool) : string :=
  Str.join "/" (rev (segments allowAboveRoot path)).

Definition isAbsolute (path : string) : bool := Str.starts_with sep path.

(** A segment that names an entry: not empty, not ["."], not [".."], and
    without a separator. *)
Definition plain (seg : string) : bool :=
  negb (String.eqb seg "") && negb (String.eqb seg ".")
  && negb (String.eqb seg "..") && negb (Str.contains sep seg).

(** [path.normalize(path)]. *)
Definition normalize (path : string) : string :=
  if String.eqb path "" then "."%string
  else
    let absolute := isAbsolute path in
    let trailingSeparator := Str.ends_with sep path in
    let p := normalizeString path (negb absolute) in
    if String.eqb p "" then
      (if absolute then "/" else if trailingSeparator then "./" else ".")%string
    else
      let p := if trailingSeparator then p +:+ "/" else p in
      if absolute then "/" +:+ p else p.

(** [path.join(...args)]: the non-empty arguments, glued with ["/"] and
    normalised; ["."] when nothing is left. *)
Definition join (args : list string) : string :=
  match List.filter Str.truthy args with
  | [] => "."%string
  | parts => normalize (Str.join "/" parts)
  end.

(** ** Notions used to state what [normalize] returns *)

(** What [normalizeString] can keep: a non-empty segment other than
    ["."], free of separators. *)
Definition kept (seg : string) : Prop :=
  seg <> EmptyString /\ seg <> "."%string /\ Str.contains sep seg = false.

(** A name: a kept segment that is not [".."], pushed as it is. *)
Definition name (seg : string) : Prop := kept seg /\ seg <> ".."%string.

(** The shape of the kept segments, last first: names above, and below
    them the [".."] that climbed out, which only a relative path has. *)
Definition settled (allowAboveRoot : bool) (res : list string) : Prop :=
  exists names dots,
    res = names ++ dots
    /\ Forall name names
    /\ Forall (fun seg => seg = ".."%string) dots
    /\ (allowAboveRoot = false -> dots = []).

(** The path [normalize] writes for the kept segments [res], last
    first. *)
Definition render (absolute trailingSeparator : bool) (res : list string)
  : string :=
  let p := Str.join "/" (rev res) in
  if String.eqb p "" then
    (if absolute then "/" else if trailingSeparator then "./" else ".")%string
  else
    let p := if trailingSeparator then p +:+ "/" else p in
    if absolute then "/" +:+ p else p.

(** [path.basename(path)]: the last segment, separators at the end left
    aside. *)
Definition basename (path : string) : string :=
  List.last (List.filter Str.truthy (Str.split sep path)) EmptyString.

(** [p] is the directory [root] or lies below it. *)
Definition inside (root p : string) : bool :=
  String.eqb p root || String.prefix (root +:+ "/") p.

End Path.

(* ===================================================================== *)
(** * UTF-8, as [Buffer] decodes and encodes it *)
(* ===================================================================== *)

Module Utf8.

(** U+FFFD, emitted for every ill-formed subsequence. *)
Definition replacement : Z := 0xFFFD.

(** A code point that an encoder accepts: any but the surrogates. *)
Definition scalar (cp : Z) : Prop :=
  0 <= cp <= 0x10FFFF /\ ~ (0xD800 <= cp <= 0xDFFF).

(** A multi-byte sequence under way: the bits gathered so far, the
    number of continuation bytes still expected, and the range allowed
    for the next byte. *)
Record pending := {
  acc : Z;
  needed : nat;
  lower : Z;
  upper : Z
}.

Inductive lead :=
| Emit (cp : Z)
| Begin (p : pending).

(** A byte met outside a sequence. *)
Definition start (b : Z) : lead :=
  if (0 <=? b) && (b <=? 0x7F) then Emit b
  else if (0xC2 <=? b) && (b <=? 0xDF) then
    Begin {| acc := Z.land b 0x1F; needed := 1; lower := 0x80; upper := 0xBF |}
  else if (0xE0 <=? b) && (b <=? 0xEF) then
    Begin {| acc := Z.land b 0xF; needed := 2;
             lower := if b =? 0xE0 then 0xA0 else 0x80;
             upper := if b =? 0xED then 0x9F else 0xBF |}
  else if (0xF0 <=? b) && (b <=? 0xF4) then
    Begin {| acc := Z.land b 0x7; needed := 3;
             lower := if b =? 0xF0 then 0x90 else 0x80;
             upper := if b =? 0xF4 then 0x8F else 0xBF |}
  else Emit replacement.

(** The decoder, byte by byte.  A byte that cannot continue the sequence
    under way ends it with U+FFFD and is then read afresh. *)
Fixpoint decode_from (st : option pending) (bytes : list Z) : list Z :=
  match bytes with
  | [] => match st with None => [] | Some _ => [replacement] end
  | b :: rest =>
      match st with
      | None =>
          match start b with
          | Emit cp => cp :: decode_from None rest
          | Begin p => decode_from (Some p) rest
          end
      | Some p =>
          if (lower p <=? b) && (b <=? upper p) then
            let acc' := Z.lor (Z.shiftl (acc p) 6) (Z.land b 0x3F) in
            match needed p with
            | S (S n) =>
                decode_from
                  (Some {| acc := acc'; needed := S n;
                           lower := 0x80; upper := 0xBF |}) rest
            | _ => acc' :: decode_from None rest
            end
          else
            replacement ::
            match start b with
            | Emit cp => cp :: decode_from None rest
            | Begin p' => decode_from (Some p') rest
            end
      end
  end.

(** [buffer.toString("utf8")]: the code points of the decoded text. *)
Definition decode (bytes : list Z) : list Z := decode_from None bytes.

Definition continuation (bits : Z) : Z := Z.lor 0x80 (Z.land bits 0x3F).

Definition encode_one (cp : Z) : list Z :=
  if cp <=? 0x7F then [cp]
  else if cp <=? 0x7FF then
    [Z.lor 0xC0 (Z.shiftr cp 6); continuation cp]
  else if cp <=? 0xFFFF then
    [Z.lor 0xE0 (Z.shiftr cp 12); continuation (Z.shiftr cp 6);
     continuation cp]
  else
    [Z.lor 0xF0 (Z.shiftr cp 18); continuation (Z.shiftr cp 12);
     continuation (Z.shiftr cp 6); continuation cp].

(** [Buffer.from(text, "utf8")] on a text given by its code points. *)
Definition encode (text : list Z) : list Z := flat_map encode_one text.

(** ** Notions used to state what [decode] returns *)

(** A sequence under way, with [n] bytes to come, [a] gathered so far
    and the next byte allowed in [lo..hi], can only end in a scalar
    value. *)
Fixpoint completes (n : nat) (a lo hi : Z) : Prop :=
  match n with
  | S (S _ as m) =>
      forall b : Z, lo <= b <= hi -> completes m (a * 64 + b mod 64) 0x80 0xBF
  | _ => forall b : Z, lo <= b <= hi -> scalar (a * 64 + b mod 64)
  end.

(** Bytes that are the UTF-8 form of some text. *)
Definition well_formed (bytes : list Z) : Prop :=
  exists text : list Z, Forall scalar text /\ bytes = encode text.

End Utf8.

(* ===================================================================== *)
(** * The file system behind [fs] and [mkdirp] *)
(* ===================================================================== *)

Module Fs.

Inductive node :=
| File (data : list Z)
| Dir.

(** The store maps a path, as the handlers compute it, to what lives
    there.  The root directory always exists and has no entry. *)
Abbreviation store := (gmap string node).

Inductive error :=
| ENOENT
| ENOTDIR
| EISDIR
| EEXIST.

Inductive result (A : Type) :=
| Ok (a : A)
| Err (e : error).
Arguments Ok {A} a.
Arguments Err {A} e.

(** The directory part of a path: everything before the last
    separator. *)
Definition dirname (p : string) : string :=
  match removelast (Str.split Path.sep p) with
  | [] => "."%string
  | [EmptyString] => "/"%string
  | init => Str.join "/" init
  end.

(** The last segment of a path. *)
Definition basename (p : string) : string :=
  List.last (Str.split Path.sep p) EmptyString.

Definition is_dir (m : store) (p : string) : bool :=
  String.eqb p "/" ||
  match m !! p with Some Dir => true | _ => false end.

(** [fs.existsSync(p)]. *)
Definition existsSync (m : store) (p : string) : bool :=
  String.eqb p "/" ||
  match m !! p with Some _ => true | None => false end.

Fixpoint inits {A : Type} (l : list A) : list (list A) :=
  match l with
  | [] => []
  | x :: rest => [x] :: List.map (cons x) (inits rest)
  end.

(** The path itself preceded by all its ancestors below the root,
    outermost first. *)
Definition lineage (p : string) : list string :=
  List.filter Str.truthy
    (List.map (Str.join "/") (inits (Str.split Path.sep p))).

Definition mkdir_step (acc : result store) (q : string) : result store :=
  match acc with
  | Err e => Err e
  | Ok m =>
      match m !! q with
      | Some (File _) => Err EEXIST
      | _ => Ok (<[q := Dir]> m)
      end
  end.

(** [mkdirp(p)]: create [p] and every missing ancestor; fails when one
    of them is a regular file. *)
Definition mkdirp (m : store) (p : string) : result store :=
  fold_left mkdir_step (lineage p) (Ok m).

(** [fs.writeFileSync(p, data, { flag })] and the write stream multer
    opens: [exclusive] is the ["wx"] flag. *)
Definition writeFile (m : store) (p : string) (data : list Z)
    (exclusive : bool) : result store :=
  match m !! p with
  | Some Dir => Err EISDIR
  | Some (File _) =>
      if exclusive then Err EEXIST else Ok (<[p := File data]> m)
  | None =>
      if is_dir m (dirname p) then Ok (<[p := File data]> m)
      else Err ENOENT
  end.

(** [fs.appendFileSync(p, data)]. *)
Definition appendFile (m : store) (p : string) (data : list Z)
  : result store :=
  match m !! p with
  | Some Dir => Err EISDIR
  | Some (File old) => Ok (<[p := File (old ++ data)]> m)
  | None =>
      if is_dir m (dirname p) then Ok (<[p := File data]> m)
      else Err ENOENT
  end.

(** [m'] holds the same regular files as [m], with the same bytes. *)
Definition same_files (m m' : gmap string node) : Prop :=
  forall (q : string) (data : list Z),
    m !! q = Some (File data) <-> m' !! q = Some (File data).

(** [fs.readFileSync(p)]. *)
Definition readFile (m : store) (p : string) : result (list Z) :=
  match m !! p with
  | Some (File data) => Ok data
  | Some Dir => Err EISDIR
  | None => Err ENOENT
  end.

(** [fs.unlink(p)]. *)
Definition unlink (m : store) (p : string) : result store :=
  match m !! p with
  | Some (File _) => Ok (delete p m)
  | Some Dir => Err EISDIR
  | None => Err ENOENT
  end.

(** [fs.promises.readdir(d)]: the names of the entries of [d]. *)
Definition readdir (m : store) (d : string) : result (list string) :=
  if is_dir m d then
    Ok (List.map basename
          (List.filter (fun k => String.eqb (dirname k) d)
             (List.map fst (map_to_list m))))
  else
    match m !! d with
    | Some _ => Err ENOTDIR
    | None => Err ENOENT
    end.

End Fs.

(* ===================================================================== *)
(** * [jsonwebtoken]: HS256 session tokens *)
(* ===================================================================== *)

Module Jwt.

(** The claims [server.js] signs, with the two registered claims
    [jwt.sign] adds: issue and expiry time, in seconds. *)
Record payload := {
  dn : string;
  homeDirectory : string;
  uid : string;
  iat : Z;
  exp : Z
}.

(** What the library computes outside this development: the base64url
    form of a JSON payload, its inverse, and the base64url HMAC-SHA256 of
    a signing input under a key. *)
Record codec := {
  encode : payload -> string;
  decode : string -> option payload;
  hs256 : string -> string -> string
}.

(** A string free of the two characters that delimit a token: the dot
    between its parts and the space after the scheme. *)
Definition compact (s : string) : Prop :=
  Str.contains "."%char s = false /\ Str.contains " "%char s = false.

(** What base64url guarantees: parts over an alphabet without dots and
    spaces, a payload read back as it was written, and a signature that is
    never empty. *)
Record lawful (c : codec) : Prop := {
  decode_encode : forall p, decode c (encode c p) = Some p;
  encode_compact : forall p, compact (encode c p);
  hs256_compact : forall key input, compact (hs256 c key input);
  hs256_truthy : forall key input, Str.truthy (hs256 c key input) = true
}.

Inductive error :=
| JsonWebTokenError (message : string)
| TokenExpiredError (expiredAt : Z)
| SecretError (message : string).

(** base64url of [{"alg":"HS256","typ":"JWT"}]. *)
Definition header : string := "eyJhbGciOiJIUzI1NiIsInR5cCI6IkpXVCJ9".

(** The lifetime [{ expiresIn: "1h" }] stands for, in seconds. *)
Definition one_hour : Z := 3600.

Definition signing_input (c : codec) (p : payload) : string :=
  header +:+ "." +:+ encode c p.

(** The payload [jwt.sign] signs at clock reading [now]
    (milliseconds). *)
Definition issue (dn homeDirectory uid : string) (now : Z) : payload :=
  let issued := now / 1000 in
  {| dn := dn; homeDirectory := homeDirectory; uid := uid;
     iat := issued; exp := issued + one_hour |}.

(** [jwt.sign(claims, secret, { expiresIn: "1h" })] at clock reading
    [now]. *)
Definition sign (c : codec) (dn homeDirectory uid : string)
    (secret : option string) (now : Z) : error + string :=
  match Str.provided secret with
  | None => inl (SecretError "secretOrPrivateKey must have a value")
  | Some key =>
      let p := issue dn homeDirectory uid now in
      inr (signing_input c p +:+ "." +:+ hs256 c key (signing_input c p))
  end.

(** [s'] is [s] with exactly one byte changed. *)
Definition flipped (s s' : string) : Prop :=
  exists (before : string) (b b' : ascii) (after : string),
    b <> b' /\ s = before +:+ String b after /\ s' = before +:+ String b' after.

(** [jwt.verify(token, secret)] at clock reading [now] (milliseconds);
    [token] is [None] for [undefined]. *)
Definition verify (c : codec) (token : option string)
    (secret : option string) (now : Z) : error + payload :=
  match Str.provided token with
  | None => inl (JsonWebTokenError "jwt must be provided")
  | Some jwtString =>
      match Str.split "."%char jwtString with
      | [h; body; signature] =>
          match decode c body with
          | None => inl (JsonWebTokenError "invalid token")
          | Some p =>
              if negb (String.eqb h header) then
                inl (JsonWebTokenError "invalid token")
              else
                match Str.provided secret with
                | None =>
                    if String.eqb signature EmptyString then
                      inl (JsonWebTokenError "invalid algorithm")
                    else
                      inl (JsonWebTokenError
                             "secret or public key must be provided")
                | Some key =>
                    if String.eqb signature EmptyString then
                      inl (JsonWebTokenError "jwt signature is required")
                    else if negb (String.eqb signature
                                    (hs256 c key (h +:+ "." +:+ body))) then
                      inl (JsonWebTokenError "invalid signature")
                    else if now / 1000 >=? exp p then
                      inl (TokenExpiredError (exp p))
                    else inr p
                end
          end
      | _ => inl (JsonWebTokenError "jwt malformed")
      end
  end.

End Jwt.

(* ===================================================================== *)
(** * HTTP values *)
(* ===================================================================== *)

Module Http.

#[warnings="-register-all"]
Inductive json :=
| JString (s : string)
| JText (codepoints : list Z)
| JBool (b : bool)
| JObject (fields : list (string * json))
| JArray (items : list json).

(** What a handler can throw. *)
Inductive exception :=
| FsException (e : Fs.error) (path : string)
| JwtException (e : Jwt.error)
| LdapException (error : string)
| TypeError (message : string)
| SendError (status : Z).

Inductive body :=
| Json (j : json)
| Attachment (filename : string) (data : list Z)
| ErrorPage (e : exception).

Record response := {
  status : Z;
  content : body
}.

(** The entry the directory service returns for a user, as the object
    [ldap-authentication] makes of it: [dn], then the attributes in the
    order of the directory.  [uid] is the attribute the handlers read,
    [None] when the entry has none; the attributes listed before and
    after it are carried as they came. *)
Record ldapUser := {
  ldap_dn : string;
  ldap_uid : option string;
  ldap_before : list (string * json);
  ldap_after : list (string * json)
}.

(** The members of the user object, in order. *)
Definition ldap_object (u : ldapUser) : list (string * json) :=
  ("dn"%string, JString (ldap_dn u))
  :: ldap_before u
  ++ match ldap_uid u with
     | Some uid => [("uid"%string, JString uid)]
     | None => []
     end
  ++ ldap_after u.

(** [{ ...o, [key]: v }]: the members of [o] in their order, [key] taking
    its new value where it stands, or coming last when [o] has none. *)
Fixpoint assign (o : list (string * json)) (key : string) (v : json)
  : list (string * json) :=
  match o with
  | [] => [(key, v)]
  | (k, x) :: rest =>
      if String.eqb k key then (k, v) :: rest
      else (k, x) :: assign rest key v
  end.

Inductive ldapResult :=
| LdapUser (user : ldapUser)
| LdapError (error : string).

(** The multipart part multer hands to the storage engine. *)
Record part := {
  originalname : string;
  bytes : list Z
}.

Record request := {
  authorization : option string;     (* req.headers.authorization *)
  params_filename : option string;   (* req.params.filename *)
  body_username : option string;     (* req.body.username *)
  body_password : option string;     (* req.body.password *)
  multipart_file : option part;      (* the "file" field of the form *)
  user : option Jwt.payload;         (* req.user *)
  file_filename : option string      (* req.file.filename *)
}.

Definition with_user (req : request) (decoded : Jwt.payload) : request :=
  {| authorization := authorization req;
     params_filename := params_filename req;
     body_username := body_username req;
     body_password := body_password req;
     multipart_file := multipart_file req;
     user := Some decoded;
     file_filename := file_filename req |}.

Definition with_file (req : request) (filename : string) : request :=
  {| authorization := authorization req;
     params_filename := params_filename req;
     body_username := body_username req;
     body_password := body_password req;
     multipart_file := multipart_file req;
     user := user req;
     file_filename := Some filename |}.

(** [j[name]] for an object [j]. *)
Definition field (name : string) (j : json) : option json :=
  match j with
  | JObject fields =>
      snd <$> List.find (fun kv => String.eqb (fst kv) name) fields
  | _ => None
  end.

(** The [token] a JSON answer carries, if it carries one. *)
Definition token_in (r : response) : option string :=
  match content r with
  | Json j =>
      match field "token" j with
      | Some (JString token) => Some token
      | _ => None
      end
  | _ => None
  end.

(** What an observer of one request can see, in order. *)
Inductive event :=
| ConsoleError (label : string) (e : exception)
| AuditCall (action : string) (filename : option string) (uid : option string)
| Sent (r : response)
| Unhandled (e : exception).

End Http.

(* ===================================================================== *)
(** * [backend/server.js] *)
(* ===================================================================== *)

Module Server.

Import Http.

(** What the process is started with: its directory, its environment, the
    directory service behind [ldap-authentication] as configured, the
    rendering of a clock reading by [Date.prototype.toISOString], and the
    token codec. *)
Record env := {
  dirname : string;                               (* __dirname *)
  JWT_SECRET : option string;                     (* process.env.JWT_SECRET *)
  authenticate : string -> string -> ldapResult;
  toISOString : Z -> string;
  jwt : Jwt.codec
}.

(** The state one request runs against: the disk, the clock reading
    (milliseconds, as [Date.now()]), and the events observed so far,
    oldest first. *)
Record world := {
  fs : gmap string Fs.node;
  now : Z;
  trace : list event
}.

(** ** Computations: state, with exceptions *)

Definition M (A : Type) : Type := world -> (exception + A) * world.

Definition ret {A : Type} (a : A) : M A := fun w => (inr a, w).

Definition bind {A B : Type} (m : M A) (k : A -> M B) : M B :=
  fun w =>
    match m w with
    | (inr a, w') => k a w'
    | (inl e, w') => (inl e, w')
    end.

Definition throw {A : Type} (e : exception) : M A := fun w => (inl e, w).

(** [try { m } catch (e) { handler(e) }]: what [m] did before it threw
    stays done. *)
Definition try_catch {A : Type} (m : M A) (handler : exception -> M A) : M A :=
  fun w =>
    match m w with
    | (inr a, w') => (inr a, w')
    | (inl e, w') => handler e w'
    end.

Declare Scope js_scope.
Delimit Scope js_scope with js.
Notation "x <- m ;; k" := (bind m (fun x => k))
  (at level 100, m at next level, right associativity) : js_scope.
Notation "m ;; k" := (bind m (fun _ => k))
  (at level 100, right associativity) : js_scope.
Local Open Scope js_scope.

Definition emit (e : event) : M unit :=
  fun w => (inr tt, {| fs := fs w; now := now w; trace := trace w ++ [e] |}).

Definition clock : M Z := fun w => (inr (now w), w).

Definition disk : M (gmap string Fs.node) := fun w => (inr (fs w), w).

Definition set_disk (m : gmap string Fs.node) : M unit :=
  fun w => (inr tt, {| fs := m; now := now w; trace := trace w |}).

(** An [fs] call that changes the disk; its error is thrown. *)
Definition fs_update (op : gmap string Fs.node -> Fs.result (gmap string Fs.node))
    (path : string) : M unit :=
  m <- disk ;;
  match op m with
  | Fs.Ok m' => set_disk m'
  | Fs.Err e => throw (FsException e path)
  end.

(** An [fs] call that only reads. *)
Definition fs_read {A : Type} (op : gmap string Fs.node -> Fs.result A)
    (path : string) : M A :=
  m <- disk ;;
  match op m with
  | Fs.Ok a => ret a
  | Fs.Err e => throw (FsException e path)
  end.

Definition existsSync (path : string) : M bool :=
  m <- disk ;; ret (Fs.existsSync m path).

(** [console.error(label, e)]. *)
Definition console_error (label : string) (e : exception) : M unit :=
  emit (ConsoleError label e).

(** [res.status(code).json(j)]. *)
Definition send_json (code : Z) (j : json) : M unit :=
  emit (Sent {| status := code; content := Json j |}).

Definition newline : string := String "010"%char EmptyString.

(** ** Express: layers of one route *)

(** A middleware either hands the request on ([Some]) or has answered
    ([None]).  Express wraps every layer: what a layer throws while it runs
    goes to the default error handler, which answers 500. *)
Definition layer (m : M (option request)) : M (option request) :=
  try_catch m
    (fun e => emit (Sent {| status := 500; content := ErrorPage e |}) ;;
              ret None).

Definition next (req : request) : M (option request) := ret (Some req).

(** The last layer of a route, a plain function. *)
Definition handler (m : M unit) : M unit :=
  try_catch m
    (fun e => emit (Sent {| status := 500; content := ErrorPage e |})).

(** The last layer of a route, an [async] function: what it throws
    rejects a promise nobody awaits, and no answer is sent. *)
Definition async_handler (m : M unit) : M unit :=
  try_catch m (fun e => emit (Unhandled e)).

Definition chain (m : M (option request)) (rest : request -> M unit) : M unit :=
  r <- m ;;
  match r with
  | Some req => rest req
  | None => ret tt
  end.

Notation "req <~ m ;; rest" := (chain (layer m) (fun req => rest))
  (at level 100, m at next level, right associativity) : js_scope.

Section Handlers.

Context (E : env).

(** ** [ldapAuth] *)
Definition ldapAuth (username password : string) : M ldapResult :=
  match authenticate E username password with
  | LdapUser u => ret (LdapUser u)
  | LdapError error =>
      console_error "LDAP authentication error:" (LdapException error) ;;
      ret (LdapError error)
  end.

Definition jwt_verify (token : option string) : M Jwt.payload :=
  t <- clock ;;
  match Jwt.verify (jwt E) token (JWT_SECRET E) t with
  | inr decoded => ret decoded
  | inl e => throw (JwtException e)
  end.

Definition jwt_sign (dn homeDirectory uid : string) : M string :=
  t <- clock ;;
  match Jwt.sign (jwt E) dn homeDirectory uid (JWT_SECRET E) t with
  | inr token => ret token
  | inl e => throw (JwtException e)
  end.

(** The second word of the [Authorization] header:
    [authHeader.split(" ")[1]]. *)
Definition bearer (authHeader : string) : option string :=
  nth_error (Str.split " "%char authHeader) 1.

(** ** [jwtMiddleware] *)
Definition jwtMiddleware (req : request) : M (option request) :=
  try_catch
    (match Str.provided (authorization req) with
     | None =>
         send_json 401
           (JObject [("message"%string,
                      JString "Authorization header is missing")]) ;;
         ret None
     | Some authHeader =>
         let token := bearer authHeader in
         decoded <- jwt_verify token ;;
         next (with_user req decoded)
     end)
    (fun error =>
       console_error "Error in token verification:" error ;;
       send_json 401
         (JObject [("message"%string, JString "Invalid or missing token")]) ;;
       ret None).

(** ** [audit] *)
Definition auditDir : string := Path.join [dirname E; "audit"%string].

Definition auditFilePath : string := Path.join [auditDir; "record.txt"%string].

Definition auditMessage (timestamp action : string) (filename : option string)
    (uid : string) : string :=
  match filename with
  | None => timestamp +:+ " - " +:+ action +:+ " by " +:+ uid +:+ newline
  | Some f =>
      timestamp +:+ " - " +:+ action +:+ " by " +:+ uid
        +:+ " on file " +:+ f +:+ newline
  end.

(** [user] is the [uid] of the object passed as [user], [None] when that
    object is [undefined]. *)
Definition audit (action : string) (filename : option string)
    (user : option string) : M unit :=
  emit (AuditCall action filename user) ;;
  t <- clock ;;
  let timestamp := toISOString E t in
  present <- existsSync auditDir ;;
  (if negb present
   then fs_update (fun m => Fs.mkdirp m auditDir) auditDir
   else ret tt) ;;
  match user with
  | None =>
      throw (TypeError "Cannot read properties of undefined (reading 'uid')")
  | Some uid =>
      fs_update
        (fun m => Fs.appendFile m auditFilePath
                    (Str.bytes (auditMessage timestamp action filename uid)))
        auditFilePath
  end.

(** The bytes of the audit log, none when there is no log yet. *)
Definition audit_log (m : gmap string Fs.node) : list Z :=
  match m !! auditFilePath with
  | Some (Fs.File data) => data
  | _ => []
  end.

(** [fs.appendFileSync(p, ...)] would succeed on [m]. *)
Definition appendable (m : gmap string Fs.node) (p : string) : bool :=
  match m !! p with
  | Some (Fs.File _) => true
  | Some Fs.Dir => false
  | None => Fs.is_dir m (Fs.dirname p)
  end.

(** The disk lets [audit] write: the audit directory is there or can be
    made, and the log can be appended to. *)
Definition audit_ready (m : gmap string Fs.node) : bool :=
  if Fs.existsSync m auditDir then appendable m auditFilePath
  else
    match Fs.mkdirp m auditDir with
    | Fs.Ok m1 => appendable m1 auditFilePath
    | Fs.Err _ => false
    end.

(** The regular files other than the audit log are the same in [m] and
    [m']. *)
Definition elsewhere (m m' : gmap string Fs.node) : Prop :=
  forall (q : string) (data : list Z),
    q <> auditFilePath ->
    (m !! q = Some (Fs.File data) <-> m' !! q = Some (Fs.File data)).

(** ** [auditMiddleware] *)
(** [req.params.filename || (req.file && req.file.filename)]. *)
Definition filename_of (req : request) : option string :=
  match Str.provided (params_filename req) with
  | Some f => Some f
  | None => file_filename req
  end.

Definition auditMiddleware (action : string) (req : request)
  : M (option request) :=
  let filename := filename_of req in
  audit action filename (Jwt.uid <$> user req) ;;
  next req.

(** ** [POST /api/login] *)

(** The storage root of a user: [path.join(__dirname, "/home/", uid)]. *)
Definition userHomeDir (uid : string) : string :=
  Path.join [dirname E; "/home/"; uid]%string.

Definition instructionsContent : string :=
  "General information about this project:" +:+ newline +:+ newline +:+ "...".

(** The [try] block of the success branch, first half: the directory of
    a user seen for the first time is made, with its seed file. *)
Definition provision (userHomeDir : string) : M unit :=
  let instructionsFilePath :=
    Path.join [userHomeDir; "/uploads/"; "instructions.txt"]%string in
  present <- existsSync userHomeDir ;;
  if negb present then
    fs_update (fun m => Fs.mkdirp m userHomeDir) userHomeDir ;;
    (let uploads := Path.join [userHomeDir; "uploads"%string] in
     fs_update (fun m => Fs.mkdirp m uploads) uploads) ;;
    fs_update
      (fun m => Fs.writeFile m instructionsFilePath
                  (Str.bytes instructionsContent) true)
      instructionsFilePath
  else ret tt.

(** Second half: the token is signed, the login audited, and the answer
    sent. *)
Definition issue_token (u : ldapUser) (uid userHomeDir : string) : M unit :=
  token <- jwt_sign (ldap_dn u) userHomeDir uid ;;
  audit "login" None (Some uid) ;;
  send_json 200
    (JObject [("success", JBool true);
              ("message", JString "Authenticated successfully");
              ("user", JObject (assign (ldap_object u) "homeDirectory"
                                  (JString userHomeDir)));
              ("token", JString token)]%string).

Definition provision_and_issue (u : ldapUser) (uid userHomeDir : string)
  : M unit :=
  provision userHomeDir ;;
  issue_token u uid userHomeDir.

Definition login (req : request) : M unit :=
  match Str.provided (body_username req), Str.provided (body_password req) with
  | Some username, Some password =>
      authResult <- ldapAuth username password ;;
      match authResult with
      | LdapUser u =>
          match Str.provided (ldap_uid u) with
          | None =>
              send_json 500
                (JObject [("error"%string, JString "User UID is undefined")])
          | Some uid =>
              try_catch (provision_and_issue u uid (userHomeDir uid))
                (fun err =>
                   console_error "Error in creating directory or file:" err ;;
                   send_json 500
                     (JObject [("error"%string,
                                JString "Internal Server Error")]))
          end
      | LdapError error =>
          audit "failed login" None (Some username) ;;
          send_json 500
            (JObject [("success", JBool false);
                      ("message", JString "Authentication failed");
                      ("error", JString error)]%string)
      end
  | _, _ =>
      send_json 400
        (JObject [("success", JBool false);
                  ("message", JString "Username and password are required.")]%string)
  end.

Definition post_login (req : request) : M unit := async_handler (login req).

(** ** [POST /upload] *)

(** [upload.single("file")] over [multer.diskStorage]: the destination
    and the stored name are the two callbacks of [server.js]; a part
    without a file name is passed over, and a failed write goes to the
    error handler. *)
Definition upload_single (req : request) : M (option request) :=
  match multipart_file req with
  | None => next req
  | Some part =>
      match Str.provided (Some (originalname part)) with
      | None => next req
      | Some original =>
          match user req with
          | None =>
              throw (TypeError
                "Cannot read properties of undefined (reading 'homeDirectory')")
          | Some u =>
              let destination :=
                Path.join [Jwt.homeDirectory u; "uploads"%string] in
              t <- clock ;;
              let filename := pretty t +:+ "-" +:+ original in
              let finalPath := Path.join [destination; filename] in
              fs_update (fun m => Fs.writeFile m finalPath (bytes part) false)
                finalPath ;;
              next (with_file req filename)
          end
      end
  end.

Definition upload_done (req : request) : M unit :=
  match file_filename req with
  | Some filename =>
      send_json 200
        (JObject [("message", JString "File uploaded successfully");
                  ("filename", JString filename)]%string)
  | None =>
      throw (TypeError
        "Cannot read properties of undefined (reading 'filename')")
  end.

Definition post_upload (req : request) : M unit :=
  req <~ jwtMiddleware req ;;
  req <~ upload_single req ;;
  req <~ auditMiddleware "upload" req ;;
  handler (upload_done req).

(** ** [GET /files] *)

Definition list_files (req : request) : M unit :=
  try_catch
    (match authorization req with
     | None =>
         throw (TypeError
           "Cannot read properties of undefined (reading 'split')")
     | Some authHeader =>
         let token := bearer authHeader in
         user <- jwt_verify token ;;
         let userHomeDir :=
           Path.join [dirname E; "/home/"; Jwt.uid user; "uploads"]%string in
         files <- fs_read (fun m => Fs.readdir m userHomeDir) userHomeDir ;;
         let fileDetails :=
           List.map (fun filename => JObject [("name"%string, JString filename)])
             files in
         send_json 200 (JObject [("files"%string, JArray fileDetails)])
     end)
    (fun error =>
       console_error "Error listing files:" error ;;
       send_json 500 (JObject [("error"%string, JString "Error listing files")])).

Definition get_files (req : request) : M unit :=
  req <~ jwtMiddleware req ;;
  async_handler (list_files req).

(** ** The path of a stored file, as delete, download and view compute it *)
Definition filePath (homeDir filename : string) : string :=
  Path.join [homeDir; "uploads"%string; filename].

(** The route parameter is always there on a route that names it; the
    identity is there once [jwtMiddleware] has run. *)
Definition with_target (req : request) (k : string -> M unit) : M unit :=
  match user req, params_filename req with
  | Some u, Some filename => k (filePath (Jwt.homeDirectory u) filename)
  | None, _ =>
      throw (TypeError
        "Cannot read properties of undefined (reading 'homeDirectory')")
  | _, None =>
      throw (TypeError "The path argument must be of type string")
  end.

(** ** [DELETE /delete/:filename] *)

Definition delete_file (req : request) : M unit :=
  with_target req (fun filePath =>
    try_catch
      (fs_update (fun m => Fs.unlink m filePath) filePath ;;
       send_json 200
         (JObject [("message"%string, JString "File deleted successfully")]))
      (fun err =>
         console_error "Error deleting file: " err ;;
         send_json 500
           (JObject [("error"%string, JString "Internal Server Error")]))).

Definition delete_delete (req : request) : M unit :=
  req <~ jwtMiddleware req ;;
  req <~ auditMiddleware "delete" req ;;
  handler (delete_file req).

(** ** [GET /download/:filename] *)

(** [res.download(filePath, cb)] goes through [send]: a path whose last
    segment starts with a dot is not served (the [dotfiles] default, a
    404 error for the callback), a file is sent as an attachment named
    after the last segment, and whatever else fails is given to the
    callback as well.  [send] resolves the path before it looks the file
    up; for a path made by [path.join] this only matters when the path
    ends with a separator.  The file is looked up here under the path as
    the handler computed it, as in delete and view, and what is stated
    below of the file a download sends or misses is stated for paths
    without a separator at their end. *)
Definition download_file (req : request) : M unit :=
  with_target req (fun filePath =>
    try_catch
      (let name := Path.basename filePath in
       (if Str.starts_with "." name then throw (SendError 404) else ret tt) ;;
       data <- fs_read (fun m => Fs.readFile m filePath) filePath ;;
       emit (Sent {| status := 200; content := Attachment name data |}))
      (fun err =>
         console_error "Error downloading file:" err ;;
         send_json 500
           (JObject [("error"%string, JString "Internal Server Error")]))).

Definition get_download (req : request) : M unit :=
  req <~ jwtMiddleware req ;;
  req <~ auditMiddleware "download" req ;;
  handler (download_file req).

(** ** [GET /view/:filename] *)

Definition view_file (req : request) : M unit :=
  with_target req (fun filePath =>
    try_catch
      (data <- fs_read (fun m => Fs.readFile m filePath) filePath ;;
       send_json 200 (JObject [("content"%string, JText (Utf8.decode data))]))
      (fun error =>
         console_error "Error reading file:" error ;;
         send_json 500
           (JObject [("error"%string, JString "Error reading file")]))).

Definition get_view (req : request) : M unit :=
  req <~ jwtMiddleware req ;;
  req <~ auditMiddleware "view" req ;;
  async_handler (view_file req).

End Handlers.

(** ** Observing one request *)

(** The world after a route has run. *)
Definition run (route : M unit) (w : world) : world := snd (route w).

(** The answers sent, in order. *)
Definition responses (t : list event) : list response :=
  omap (fun e => match e with Sent r => Some r | _ => None end) t.

(** The audit calls made, in order. *)
Definition audits (t : list event)
  : list (string * option string * option string) :=
  omap (fun e => match e with
                 | AuditCall action filename uid => Some (action, filename, uid)
                 | _ => None
                 end) t.

(** The two answers of [jwtMiddleware]. *)
Definition missing_header : response :=
  {| status := 401;
     content := Json (JObject [("message"%string,
                                JString "Authorization header is missing")]) |}.

Definition invalid_token : response :=
  {| status := 401;
     content := Json (JObject [("message"%string,
                                JString "Invalid or missing token")]) |}.

(** The answer of delete and download when the disk refuses. *)
Definition internal_error : response :=
  {| status := 500;
     content := Json (JObject [("error"%string,
                                JString "Internal Server Error")]) |}.

(** The answer to a login that succeeded: the user object is the entry
    of the directory with [homeDirectory] set. *)
Definition authenticated (u : ldapUser) (userHomeDir token : string)
  : response :=
  {| status := 200;
     content := Json (JObject
       [("success", JBool true);
        ("message", JString "Authenticated successfully");
        ("user", JObject (assign (ldap_object u) "homeDirectory"
                            (JString userHomeDir)));
        ("token", JString token)]%string) |}.

(** The answer to a login the directory service turned down. *)
Definition authentication_failed (error : string) : response :=
  {| status := 500;
     content := Json (JObject [("success", JBool false);
                               ("message", JString "Authentication failed");
                               ("error", JString error)]%string) |}.

(** Between [w] and [w'] the only answer is Express's error page, and no
    regular file but the audit log has changed. *)
Definition refused_by_audit (E : env) (w w' : world) : Prop :=
  exists e : exception,
    responses (trace w')
    = responses (trace w) ++ [{| status := 500; content := ErrorPage e |}]
    /\ elsewhere E (fs w) (fs w').

(** The world [w] with the disk [m]. *)
Definition on_disk (w : world) (m : gmap string Fs.node) : world :=
  {| fs := m; now := now w; trace := trace w |}.

(** The world [w] after [events] have been observed. *)
Definition logged (w : world) (events : list event) : world :=
  {| fs := fs w; now := now w; trace := trace w ++ events |}.

(** The world in which [jwtMiddleware] has turned a token down for [e]. *)
Definition rejected (w : world) (e : Jwt.error) : world :=
  logged w [ConsoleError "Error in token verification:" (JwtException e);
            Sent invalid_token].

(** Between [w] and [w'] the first thing observed is the call of [audit]
    for [action], [filename] and [uid], and exactly one answer follows
    it. *)
Definition audited_first (action : string) (filename : option string)
    (uid : string) (w w' : world) : Prop :=
  exists after : list event,
    trace w' = trace w ++ AuditCall action filename (Some uid) :: after
    /\ length (responses after) = 1%nat.

(** ** More answers and observations *)

(** The answer to a login without a user name or a password. *)
Definition missing_credentials : response :=
  {| status := 400;
     content := Json (JObject
       [("success", JBool false);
        ("message", JString "Username and password are required.")]%string) |}.

(** The answer to a login whose directory entry has no [uid]. *)
Definition uid_undefined : response :=
  {| status := 500;
     content := Json (JObject [("error"%string,
                                JString "User UID is undefined")]) |}.

(** The answers of delete, of upload, of a view that could not read, and
    of listing. *)
Definition deleted : response :=
  {| status := 200;
     content := Json (JObject [("message"%string,
                                JString "File deleted successfully")]) |}.

Definition uploaded (filename : string) : response :=
  {| status := 200;
     content := Json (JObject
       [("message", JString "File uploaded successfully");
        ("filename", JString filename)]%string) |}.

Definition unreadable : response :=
  {| status := 500;
     content := Json (JObject [("error"%string,
                                JString "Error reading file")]) |}.

Definition listed (names : list string) : response :=
  {| status := 200;
     content := Json (JObject [("files"%string,
       JArray (List.map
                 (fun filename => JObject [("name"%string, JString filename)])
                 names))]) |}.

Definition listing_failed : response :=
  {| status := 500;
     content := Json (JObject [("error"%string,
                                JString "Error listing files")]) |}.

(** The line [audit] writes for an action on a file. *)
Definition audit_line (E : env) (t : Z) (action uid filename : string)
  : list Z :=
  Str.bytes (toISOString E t +:+ " - " +:+ action +:+ " by " +:+ uid
               +:+ " on file " +:+ filename +:+ newline).

(** Between [w] and [w'] exactly one answer was sent. *)
Definition answered_once (w w' : world) : Prop :=
  exists r : response, responses (trace w') = responses (trace w) ++ [r].

(** Every regular file other than the audit log and every directory of
    [m] is in [m'] as it was, and the audit log of [m'] is the one of
    [m], possibly with more at its end. *)
Definition preserved (E : env) (m m' : gmap string Fs.node) : Prop :=
  (forall (q : string) (data : list Z),
     q <> auditFilePath E ->
     m !! q = Some (Fs.File data) -> m' !! q = Some (Fs.File data))
  /\ (forall q : string, m !! q = Some Fs.Dir -> m' !! q = Some Fs.Dir)
  /\ exists suffix : list Z, audit_log E m' = audit_log E m ++ suffix.

(** The four ends of a login the directory accepted: the directory could
    not be made, the token could not be signed, the login could not be
    audited, or the token is sent. *)
Inductive ending :=
| NotProvisioned (err : exception)
| NotSigned (e : Jwt.error)
| NotAudited (err : exception)
| Issued (token : string).


End Server.

(* ===================================================================== *)
(** * A concrete deployment *)
(* ===================================================================== *)

(** One instance of everything [Server.env] leaves open, small enough to
    run: a token codec over a three-letter alphabet, a directory service
    that knows two users, and a clock rendering. *)
Module Scenario.

Import Http.

(** ** A codec: every character as its eight bits, fields joined by [_] *)

Definition bit (b : bool) : ascii := if b then "1"%char else "0"%char.

Fixpoint bits (s : string) : string :=
  match s with
  | EmptyString => EmptyString
  | String (Ascii b0 b1 b2 b3 b4 b5 b6 b7) rest =>
      String (bit b0) (String (bit b1) (String (bit b2) (String (bit b3)
      (String (bit b4) (String (bit b5) (String (bit b6) (String (bit b7)
      (bits rest))))))))
  end.

Definition unbit (c : ascii) : bool := Ascii.eqb c "1"%char.

Fixpoint unbits (fuel : nat) (s : string) : option string :=
  match fuel, s with
  | _, EmptyString => Some EmptyString
  | S fuel', String c0 (String c1 (String c2 (String c3
      (String c4 (String c5 (String c6 (String c7 rest))))))) =>
      match unbits fuel' rest with
      | Some text =>
          Some (String (Ascii (unbit c0) (unbit c1) (unbit c2) (unbit c3)
                          (unbit c4) (unbit c5) (unbit c6) (unbit c7)) text)
      | None => None
      end
  | _, _ => None
  end.

Fixpoint digits (p : positive) : string :=
  match p with
  | xH => EmptyString
  | xO q => String "0"%char (digits q)
  | xI q => String "1"%char (digits q)
  end.

Fixpoint undigits (s : string) : positive :=
  match s with
  | EmptyString => xH
  | String c rest => if unbit c then xI (undigits rest) else xO (undigits rest)
  end.

(** A sign bit, then the binary digits, lowest first. *)
Definition number (z : Z) : string :=
  match z with
  | Z0 => "0"%string
  | Zpos p => String "1"%char (String "0"%char (digits p))
  | Zneg p => String "1"%char (String "1"%char (digits p))
  end.

Definition unnumber (s : string) : option Z :=
  match s with
  | String c EmptyString => if unbit c then None else Some 0
  | String _ (String sign rest) =>
      Some (if unbit sign then Zneg (undigits rest) else Zpos (undigits rest))
  | EmptyString => None
  end.

Definition encode (p : Jwt.payload) : string :=
  Str.join "_"
    [bits (Jwt.dn p); bits (Jwt.homeDirectory p); bits (Jwt.uid p);
     number (Jwt.iat p); number (Jwt.exp p)].

Definition decode (s : string) : option Jwt.payload :=
  match Str.split "_"%char s with
  | [d; h; u; i; e] =>
      match unbits (String.length d) d, unbits (String.length h) h,
            unbits (String.length u) u, unnumber i, unnumber e with
      | Some d', Some h', Some u', Some i', Some e' =>
          Some {| Jwt.dn := d'; Jwt.homeDirectory := h'; Jwt.uid := u';
                  Jwt.iat := i'; Jwt.exp := e' |}
      | _, _, _, _, _ => None
      end
  | _ => None
  end.

(** A keyed tag standing in for the HMAC: the key in bits, then the
    input with its delimiters written as [_]. *)
Fixpoint scrub (s : string) : string :=
  match s with
  | EmptyString => EmptyString
  | String c rest =>
      String (if Ascii.eqb c "."%char || Ascii.eqb c " "%char
              then "_"%char else c) (scrub rest)
  end.

Definition tag (key input : string) : string :=
  bits key +:+ "_" +:+ scrub input.

Definition codec : Jwt.codec :=
  {| Jwt.encode := encode; Jwt.decode := decode; Jwt.hs256 := tag |}.

(** ** A directory service with two entries *)

Definition alice : ldapUser :=
  {| ldap_dn := "uid=alice,ou=people,dc=example,dc=org";
     ldap_uid := Some "alice"%string;
     ldap_before := [("cn", JString "Alice Example")]%string;
     ldap_after := [("mail", JString "alice@example.org");
                    ("objectClass",
                     JArray [JString "inetOrgPerson";
                             JString "posixAccount"])]%string |}.

Definition bob : ldapUser :=
  {| ldap_dn := "uid=bob,ou=people,dc=example,dc=org";
     ldap_uid := Some "bob"%string;
     ldap_before := [];
     ldap_after := [("mail", JString "bob@example.org")]%string |}.

Definition authenticate (username password : string) : ldapResult :=
  if String.eqb username "alice" then
    if String.eqb password "correct-pw" then LdapUser alice
    else LdapError "InvalidCredentialsError: Invalid Credentials"
  else if String.eqb username "bob" then
    if String.eqb password "hunter2" then LdapUser bob
    else LdapError "InvalidCredentialsError: Invalid Credentials"
  else LdapError "Error: user not found or usensame attribute is wrong".

(** ** The clock rendering: seconds since the epoch, as a stand-in for the
    calendar form *)
Definition toISOString (t : Z) : string := pretty (t / 1000) +:+ "Z".

Definition env : Server.env :=
  {| Server.dirname := "/srv/app/backend";
     Server.JWT_SECRET := Some "s3cret"%string;
     Server.authenticate := authenticate;
     Server.toISOString := toISOString;
     Server.jwt := codec |}.

(** The token [jwt.sign] gives alice at [t0]. *)
Definition t0 : Z := 1700000000000.

Definition alice_claims : Jwt.payload :=
  Jwt.issue (ldap_dn alice) "/srv/app/backend/home/alice" "alice" t0.

Definition alice_token : string :=
  Jwt.signing_input codec alice_claims
    +:+ "." +:+ tag "s3cret" (Jwt.signing_input codec alice_claims).

(** ** Requests *)

Definition blank : request :=
  {| authorization := None; params_filename := None;
     body_username := None; body_password := None;
     multipart_file := None; user := None; file_filename := None |}.

Definition credentials (username password : string) : request :=
  {| authorization := None; params_filename := None;
     body_username := Some username; body_password := Some password;
     multipart_file := None; user := None; file_filename := None |}.

Definition authorized (authHeader : string) : request :=
  {| authorization := Some authHeader; params_filename := None;
     body_username := None; body_password := None;
     multipart_file := None; user := None; file_filename := None |}.

Definition on_file (authHeader filename : string) : request :=
  {| authorization := Some authHeader; params_filename := Some filename;
     body_username := None; body_password := None;
     multipart_file := None; user := None; file_filename := None |}.

Definition sending (authHeader original : string) (data : list Z) : request :=
  {| authorization := Some authHeader; params_filename := None;
     body_username := None; body_password := None;
     multipart_file := Some {| originalname := original; bytes := data |};
     user := None; file_filename := None |}.

(** ** Worlds *)

(** A disk holding only the directories the server is installed in. *)
Definition installed : gmap string Fs.node :=
  <["/srv/app/backend"%string := Fs.Dir]>
    (<["/srv/app"%string := Fs.Dir]> (<["/srv"%string := Fs.Dir]> ∅)).

(** A fresh request at clock reading [t] on disk [m]. *)
Definition at_time (t : Z) (m : gmap string Fs.node) : Server.world :=
  {| Server.fs := m; Server.now := t; Server.trace := [] |}.

(** The token found in the answers of a login, if any. *)
Definition token_of (t : list event) : option string :=
  match Server.responses t with
  | [ {| content := Json (JObject [_; _; _; (_, JString token)]) |} ] => Some token
  | _ => None
  end.

(** Both users have logged in once. *)
Definition after_alice : Server.world :=
  Server.run (Server.post_login env (credentials "alice" "correct-pw"))
    (at_time t0 installed).

Definition after_bob : Server.world :=
  Server.run (Server.post_login env (credentials "bob" "hunter2"))
    (at_time (t0 + 1000) (Server.fs after_alice)).

Definition bearer_of (w : Server.world) : string :=
  match token_of (Server.trace w) with
  | Some token => "Bearer " +:+ token
  | None => EmptyString
  end.

Definition alice_bearer : string := bearer_of after_alice.
Definition bob_bearer : string := bearer_of after_bob.

(** The disk both logins leave, and the same disk with a directory where
    the audit log should be. *)
Definition disk : gmap string Fs.node := Server.fs after_bob.

Definition broken : gmap string Fs.node :=
  <["/srv/app/backend/audit/record.txt"%string := Fs.Dir]> disk.

(** Alice uploads one byte that is not UTF-8. *)
Definition after_upload : Server.world :=
  Server.run (Server.post_upload env (sending alice_bearer "x.bin" [255]))
    (at_time (t0 + 5000) disk).

(** Alice uploads four bytes of text. *)
Definition pdf : list Z := [37; 80; 68; 70].

Definition stored_pdf : gmap string Fs.node :=
  match Fs.writeFile disk
          "/srv/app/backend/home/alice/uploads/1700000005000-report.pdf"
          pdf false with
  | Fs.Ok m => m
  | Fs.Err _ => disk
  end.

(** The same process started without a signing secret. *)
Definition env_without_secret : Server.env :=
  {| Server.dirname := "/srv/app/backend";
     Server.JWT_SECRET := None;
     Server.authenticate := authenticate;
     Server.toISOString := toISOString;
     Server.jwt := codec |}.

(** A file name that climbs from an [uploads] directory to the audit
    log. *)
Definition to_the_log : string := "../../../audit/record.txt".

(** Alice's requests: one with her token and nothing else, one naming
    her seed file. *)
Definition alice_plain : request := authorized ("Bearer " +:+ alice_token).

Definition alice_seed : request :=
  on_file ("Bearer " +:+ alice_token) "instructions.txt".

(** Alice uploads her report. *)
Definition alice_report : request :=
  sending ("Bearer " +:+ alice_token) "report.pdf" pdf.

Definition report_part : part :=
  {| originalname := "report.pdf"; bytes := pdf |}.

(** The world five seconds after [t0], on the disk both logins left. *)
Definition later : Server.world := at_time (t0 + 5000) disk.

End Scenario.

(* ===================================================================== *)
(** * Facts about strings *)
(* ===================================================================== *)

Module StrFacts.

Lemma app_nil_l (s : string) : EmptyString +:+ s = s.
Proof. reflexivity. Qed.

Lemma app_cons (a : ascii) (s t : string) :
  String a s +:+ t = String a (s +:+ t).
Proof. reflexivity. Qed.

Lemma app_nil_r (s : string) : s +:+ EmptyString = s.
Proof. induction s as [|a s IH]; [reflexivity|]. rewrite app_cons, IH. reflexivity. Qed.

Lemma app_assoc (s t u : string) : (s +:+ t) +:+ u = s +:+ (t +:+ u).
Proof.
  induction s as [|a s IH]; [reflexivity|].
  rewrite !app_cons, IH. reflexivity.
Qed.

Lemma app_length (s t : string) :
  String.length (s +:+ t) = (String.length s + String.length t)%nat.
Proof.
  induction s as [|a s IH]; [reflexivity|].
  rewrite app_cons. simpl. rewrite IH. reflexivity.
Qed.

Lemma app_inv_head (s t u : string) : s +:+ t = s +:+ u -> t = u.
Proof.
  induction s as [|a s IH]; [trivial|].
  rewrite !app_cons. intros H. injection H as H. auto.
Qed.

Lemma truthy_app_r (s t : string) :
  Str.truthy t = true -> Str.truthy (s +:+ t) = true.
Proof. destruct s; [trivial|reflexivity]. Qed.

Lemma truthy_nonempty (s : string) : Str.truthy s = true <-> s <> EmptyString.
Proof. destruct s; simpl; split; congruence. Qed.

Lemma provided_Some (v : option string) (s : string) :
  Str.provided v = Some s <-> v = Some s /\ Str.truthy s = true.
Proof.
  destruct v as [[|a r]|]; simpl; split.
  - discriminate.
  - intros [H1 H2]. injection H1 as H1. subst s. discriminate.
  - intros H. injection H as H. subst s. split; reflexivity.
  - intros [H _]. exact H.
  - discriminate.
  - intros [H _]. discriminate.
Qed.

Lemma provided_truthy (s : string) :
  Str.truthy s = true -> Str.provided (Some s) = Some s.
Proof. destruct s; [discriminate|reflexivity]. Qed.

(** ** [contains] *)

Lemma contains_app (c : ascii) (s t : string) :
  Str.contains c (s +:+ t) = Str.contains c s || Str.contains c t.
Proof.
  induction s as [|a s IH]; [reflexivity|].
  rewrite app_cons. simpl. rewrite IH. apply orb_assoc.
Qed.

Lemma contains_join (c : ascii) (sep : string) (l : list string) :
  Str.contains c sep = false ->
  Forall (fun s => Str.contains c s = false) l ->
  Str.contains c (Str.join sep l) = false.
Proof.
  intros Hsep Hl. induction Hl as [|x l Hx Hl IH]; [reflexivity|].
  destruct l as [|y l]; [exact Hx|].
  change (Str.join sep (x :: y :: l)) with (x +:+ sep +:+ Str.join sep (y :: l)).
  rewrite !contains_app, Hx, Hsep, IH. reflexivity.
Qed.

(** ** [split] *)

Lemma split_nonempty (c : ascii) (s : string) : Str.split c s <> [].
Proof.
  induction s as [|a s IH]; simpl; [discriminate|].
  destruct (Ascii.eqb a c); [discriminate|].
  destruct (Str.split c s); [contradiction|discriminate].
Qed.

Lemma split_cons_sep (c : ascii) (s : string) :
  Str.split c (String c s) = EmptyString :: Str.split c s.
Proof. simpl. rewrite Ascii.eqb_refl. reflexivity. Qed.

(** The pieces of [a ++ c ++ b] are the pieces of [a], then those of [b]. *)
Lemma split_app (c : ascii) (a b : string) :
  Str.split c (a +:+ String c b) = Str.split c a ++ Str.split c b.
Proof.
  induction a as [|x a IH].
  - rewrite app_nil_l, split_cons_sep. reflexivity.
  - rewrite app_cons. simpl. rewrite IH.
    destruct (Ascii.eqb x c); [reflexivity|].
    pose proof (split_nonempty c a) as Hne.
    destruct (Str.split c a) as [|p ps]; [contradiction|reflexivity].
Qed.

Lemma split_free (c : ascii) (s : string) :
  Str.contains c s = false -> Str.split c s = [s].
Proof.
  induction s as [|a s IH]; [reflexivity|].
  simpl. intros H. apply orb_false_iff in H as [Ha Hs].
  rewrite Ha, (IH Hs). reflexivity.
Qed.

Lemma split_pieces_free (c : ascii) (s : string) :
  Forall (fun piece => Str.contains c piece = false) (Str.split c s).
Proof.
  induction s as [|a s IH]; simpl; [repeat constructor|].
  destruct (Ascii.eqb a c) eqn:Ha; [constructor; [reflexivity|exact IH]|].
  destruct (Str.split c s) as [|p ps]; [repeat constructor; simpl; rewrite Ha; reflexivity|].
  inversion IH; subst. constructor; [simpl; rewrite Ha; assumption|assumption].
Qed.

Lemma join_cons (sep x : string) (l : list string) :
  l <> [] -> Str.join sep (x :: l) = x +:+ sep +:+ Str.join sep l.
Proof. destruct l; [contradiction|reflexivity]. Qed.

Lemma join_app (sep : string) (l m : list string) :
  l <> [] -> m <> [] ->
  Str.join sep (l ++ m) = Str.join sep l +:+ sep +:+ Str.join sep m.
Proof.
  intros Hl Hm. induction l as [|x l IH]; [contradiction|].
  destruct l as [|y l].
  - simpl app. rewrite join_cons by assumption. reflexivity.
  - change ((x :: y :: l) ++ m) with (x :: ((y :: l) ++ m)).
    rewrite join_cons by discriminate.
    rewrite IH by discriminate.
    rewrite (join_cons sep x (y :: l)) by discriminate.
    rewrite !app_assoc. reflexivity.
Qed.

(** Splitting what was joined gives the pieces back, when no piece holds
    the separator. *)
Lemma split_join (c : ascii) (l : list string) :
  l <> [] ->
  Forall (fun piece => Str.contains c piece = false) l ->
  Str.split c (Str.join (String c EmptyString) l) = l.
Proof.
  intros Hne Hl. induction Hl as [|x l Hx Hl IH]; [contradiction|].
  destruct l as [|y l]; [apply split_free, Hx|].
  rewrite join_cons by discriminate.
  rewrite app_cons, app_nil_l, split_app, (split_free _ _ Hx), IH by discriminate.
  reflexivity.
Qed.

(** ** First and last characters *)

Lemma starts_with_app (c : ascii) (s t : string) :
  s <> EmptyString -> Str.starts_with c (s +:+ t) = Str.starts_with c s.
Proof. destruct s; [contradiction|reflexivity]. Qed.

Lemma ends_with_cons (c a : ascii) (s : string) :
  s <> EmptyString -> Str.ends_with c (String a s) = Str.ends_with c s.
Proof. destruct s; [contradiction|reflexivity]. Qed.

Lemma ends_with_app (c : ascii) (s t : string) :
  t <> EmptyString -> Str.ends_with c (s +:+ t) = Str.ends_with c t.
Proof.
  intros Ht. induction s as [|a s IH]; [reflexivity|].
  rewrite app_cons, ends_with_cons; [exact IH|].
  destruct s; [exact Ht|discriminate].
Qed.

Lemma ends_with_contains (c : ascii) (s : string) :
  Str.contains c s = false -> Str.ends_with c s = false.
Proof.
  induction s as [|a s IH]; [reflexivity|].
  simpl. intros H. apply orb_false_iff in H as [Ha Hs].
  destruct s; [exact Ha|exact (IH Hs)].
Qed.

End StrFacts.

(* ===================================================================== *)
(** * Facts about [path.join] *)
(* ===================================================================== *)

Module PathFacts.
Import Path.

Lemma settled_nil (allow : bool) : settled allow [].
Proof. exists [], []. repeat split; auto. Qed.

Lemma eqb_false_of_ne (s t : string) : s <> t -> String.eqb s t = false.
Proof. intros H. apply String.eqb_neq. exact H. Qed.

Lemma step_skip (allow : bool) (res : list string) (seg : string) :
  seg = EmptyString \/ seg = "."%string -> step allow res seg = res.
Proof. intros [-> | ->]; reflexivity. Qed.

Lemma step_push (allow : bool) (res : list string) (seg : string) :
  seg <> EmptyString -> seg <> "."%string -> seg <> ".."%string ->
  step allow res seg = seg :: res.
Proof.
  intros H1 H2 H3. unfold step.
  rewrite (eqb_false_of_ne _ _ H1), (eqb_false_of_ne _ _ H2), (eqb_false_of_ne _ _ H3).
  reflexivity.
Qed.

Lemma step_up_nil (allow : bool) :
  step allow [] ".." = if allow then [".."%string] else [].
Proof. reflexivity. Qed.

Lemma step_up_cons (allow : bool) (top : string) (below : list string) :
  step allow (top :: below) ".." =
  if String.eqb top ".."
  then (if allow then ".."%string :: top :: below else top :: below)
  else below.
Proof. reflexivity. Qed.

Lemma settled_intro (allow : bool) (names dots : list string) :
  Forall name names ->
  Forall (fun seg => seg = ".."%string) dots ->
  (allow = false -> dots = []) ->
  settled allow (names ++ dots).
Proof. intros H1 H2 H3. exists names, dots. auto. Qed.

Local Ltac shape names dots :=
  apply (settled_intro _ names dots);
  [repeat constructor; auto | repeat constructor; auto | auto; congruence].

Lemma step_settled (allow : bool) (res : list string) (seg : string) :
  Str.contains sep seg = false ->
  settled allow res -> settled allow (step allow res seg).
Proof.
  intros Hfree (names & dots & -> & Hnames & Hdots & Hallow).
  destruct (String.eqb_spec seg EmptyString) as [->|H1];
    [apply settled_intro; assumption|].
  destruct (String.eqb_spec seg ".") as [->|H2];
    [apply settled_intro; assumption|].
  destruct (String.eqb_spec seg "..") as [->|H3].
  - destruct names as [|top names'].
    + simpl app. destruct dots as [|d dots'].
      * rewrite step_up_nil. destruct allow.
        -- shape (@nil string) [".."%string].
        -- shape (@nil string) (@nil string).
      * inversion Hdots; subst. rewrite step_up_cons. simpl String.eqb.
        destruct allow.
        -- shape (@nil string) (".."%string :: ".."%string :: dots').
        -- shape (@nil string) (".."%string :: dots').
    + inversion Hnames as [|? ? [_ Htop] Hrest]; subst.
      simpl app. rewrite step_up_cons, (eqb_false_of_ne _ _ Htop).
      apply settled_intro; assumption.
  - rewrite step_push by assumption.
    apply (settled_intro allow (seg :: names) dots); auto.
    constructor; [|assumption]. repeat split; assumption.
Qed.

Lemma fold_settled (allow : bool) (segs res : list string) :
  Forall (fun seg => Str.contains sep seg = false) segs ->
  settled allow res -> settled allow (fold_left (step allow) segs res).
Proof.
  intros Hsegs. revert res.
  induction Hsegs as [|seg segs Hseg _ IH]; intros res Hres; [exact Hres|].
  simpl. apply IH, step_settled; assumption.
Qed.

Lemma segments_settled (allow : bool) (p : string) :
  settled allow (segments allow p).
Proof.
  apply fold_settled; [apply StrFacts.split_pieces_free|apply settled_nil].
Qed.

Lemma fold_dots (dots base : list string) :
  Forall (fun seg => seg = ".."%string) dots ->
  Forall (fun seg => seg = ".."%string) base ->
  fold_left (step true) dots base = rev dots ++ base.
Proof.
  intros Hdots. revert base.
  induction Hdots as [|d dots -> _ IH]; intros base Hbase; [reflexivity|].
  simpl fold_left.
  assert (step true base ".." = ".."%string :: base) as ->.
  { destruct Hbase as [|b base -> _]; reflexivity. }
  rewrite IH by (constructor; auto).
  simpl rev. rewrite <- app_assoc. reflexivity.
Qed.

Lemma fold_names (allow : bool) (names base : list string) :
  Forall name names ->
  fold_left (step allow) names base = rev names ++ base.
Proof.
  intros Hnames. revert base.
  induction Hnames as [|x names [(H1 & H2 & _) H3] _ IH]; intros base;
    [reflexivity|].
  simpl fold_left. rewrite step_push by assumption.
  rewrite IH. simpl rev. rewrite <- app_assoc. reflexivity.
Qed.

(** Reading the kept segments again, first to last, keeps them all. *)
Lemma refold (allow : bool) (res : list string) :
  settled allow res -> fold_left (step allow) (rev res) [] = res.
Proof.
  intros (names & dots & -> & Hnames & Hdots & Hallow).
  rewrite rev_app_distr, fold_left_app.
  assert (fold_left (step allow) (rev dots) [] = dots) as ->.
  { destruct allow.
    - rewrite fold_dots; [|apply Forall_rev; exact Hdots|constructor].
      rewrite rev_involutive. apply app_nil_r.
    - rewrite Hallow by reflexivity. reflexivity. }
  rewrite fold_names by (apply Forall_rev; exact Hnames).
  rewrite rev_involutive. reflexivity.
Qed.


Lemma normalize_render (p : string) :
  p <> EmptyString ->
  normalize p =
  render (isAbsolute p) (Str.ends_with sep p) (segments (negb (isAbsolute p)) p).
Proof.
  intros Hp. unfold normalize, render, normalizeString.
  rewrite (eqb_false_of_ne _ _ Hp). reflexivity.
Qed.

Lemma settled_free (allow : bool) (res : list string) :
  settled allow res ->
  Forall (fun seg => Str.contains sep seg = false) res.
Proof.
  intros (names & dots & -> & Hnames & Hdots & _).
  apply Forall_app. split.
  - eapply List.Forall_impl; [|exact Hnames]. intros seg [(_ & _ & H) _]. exact H.
  - eapply List.Forall_impl; [|exact Hdots]. intros seg ->. reflexivity.
Qed.

Lemma settled_truthy (allow : bool) (res : list string) :
  settled allow res -> Forall (fun seg => seg <> EmptyString) res.
Proof.
  intros (names & dots & -> & Hnames & Hdots & _).
  apply Forall_app. split.
  - eapply List.Forall_impl; [|exact Hnames]. intros seg [(H & _) _]. exact H.
  - eapply List.Forall_impl; [|exact Hdots]. intros seg ->. discriminate.
Qed.

Lemma join_truthy (sep0 : string) (l : list string) :
  l <> [] -> Forall (fun seg => seg <> EmptyString) l ->
  Str.join sep0 l <> EmptyString.
Proof.
  intros Hne Hl. destruct Hl as [|x l Hx Hl]; [contradiction|].
  destruct l as [|y l]; [exact Hx|].
  rewrite StrFacts.join_cons by discriminate.
  destruct x; [contradiction|discriminate].
Qed.

Lemma body_truthy (allow : bool) (res : list string) :
  settled allow res -> res <> [] -> Str.join "/" (rev res) <> EmptyString.
Proof.
  intros Hs Hne. apply join_truthy.
  - intros H. apply Hne. apply (f_equal (@rev string)) in H.
    rewrite rev_involutive in H. exact H.
  - apply List.Forall_rev, (settled_truthy allow), Hs.
Qed.

Lemma render_nil (absolute trailing : bool) :
  render absolute trailing [] =
  (if absolute then "/" else if trailing then "./" else ".")%string.
Proof. reflexivity. Qed.

Lemma render_cons (allow absolute trailing : bool) (res : list string) :
  settled allow res -> res <> [] ->
  render absolute trailing res =
  (if absolute then "/" else EmptyString) +:+ Str.join "/" (rev res)
    +:+ (if trailing then "/" else EmptyString).
Proof.
  intros Hs Hne. unfold render.
  rewrite (eqb_false_of_ne _ _ (body_truthy allow res Hs Hne)).
  destruct absolute, trailing; rewrite ?StrFacts.app_nil_r; reflexivity.
Qed.

Lemma render_truthy (allow absolute trailing : bool) (res : list string) :
  settled allow res -> render absolute trailing res <> EmptyString.
Proof.
  intros Hs. destruct res as [|x res].
  - rewrite render_nil. destruct absolute, trailing; discriminate.
  - rewrite (render_cons allow) by (auto; discriminate).
    pose proof (body_truthy allow (x :: res) Hs ltac:(discriminate)) as Hb.
    destruct absolute; [discriminate|].
    rewrite StrFacts.app_nil_l.
    destruct (Str.join "/" (rev (x :: res))); [contradiction|discriminate].
Qed.

Lemma fold_skip_last (allow : bool) (segs res : list string) :
  fold_left (step allow) (segs ++ [EmptyString]) res
  = fold_left (step allow) segs res.
Proof. rewrite fold_left_app. reflexivity. Qed.

(** Splitting the rendered path and folding again gives the segments
    back. *)
Lemma resplit (allow absolute trailing : bool) (res : list string) :
  settled allow res ->
  fold_left (step allow) (Str.split sep (render absolute trailing res)) [] = res.
Proof.
  intros Hs. destruct res as [|x res].
  - rewrite render_nil. destruct absolute, trailing; reflexivity.
  - assert (x :: res <> []) as Hne by discriminate.
    revert Hs Hne. generalize (x :: res). clear x res. intros res Hs Hne.
    rewrite (render_cons allow) by assumption.
    assert (Str.split sep (Str.join "/" (rev res)) = rev res)
      as Hsplit.
    { apply (StrFacts.split_join sep).
      - intros H. apply (f_equal (@rev string)) in H.
        rewrite rev_involutive in H. contradiction.
      - apply List.Forall_rev, (settled_free allow), Hs. }
    assert (forall body : string,
              Str.split sep (body +:+ (if trailing then "/" else EmptyString)%string)
              = Str.split sep body ++ (if trailing then [EmptyString] else []))
      as Htrail.
    { intros body. destruct trailing.
      - apply (StrFacts.split_app sep body EmptyString).
      - rewrite StrFacts.app_nil_r, app_nil_r. reflexivity. }
    destruct absolute.
    + rewrite StrFacts.app_cons, StrFacts.app_nil_l.
      rewrite (StrFacts.split_cons_sep sep).
      rewrite Htrail, Hsplit. simpl fold_left at 1.
      change (step allow [] EmptyString) with (@nil string).
      destruct trailing; rewrite ?fold_skip_last, ?app_nil_r;
        apply refold, Hs.
    + rewrite StrFacts.app_nil_l, Htrail, Hsplit.
      destruct trailing; rewrite ?fold_skip_last, ?app_nil_r;
        apply refold, Hs.
Qed.


Lemma starts_free (c : ascii) (s : string) :
  Str.contains c s = false -> Str.starts_with c s = false.
Proof.
  destruct s as [|a s]; [reflexivity|]. simpl.
  intros H. apply orb_false_iff in H as [H _]. exact H.
Qed.

Lemma body_starts (allow : bool) (res : list string) :
  settled allow res ->
  Str.starts_with sep (Str.join "/" (rev res)) = false.
Proof.
  intros Hs.
  pose proof (List.Forall_rev (settled_free allow res Hs)) as Hfree.
  pose proof (List.Forall_rev (settled_truthy allow res Hs)) as Hne.
  destruct (rev res) as [|x l]; [reflexivity|].
  inversion Hfree; inversion Hne; subst.
  destruct l as [|y l]; [apply starts_free; assumption|].
  rewrite StrFacts.join_cons by discriminate.
  rewrite StrFacts.starts_with_app by assumption.
  apply starts_free; assumption.
Qed.

Lemma join_ends (l : list string) :
  Forall (fun seg => Str.contains sep seg = false) l ->
  Forall (fun seg => seg <> EmptyString) l ->
  Str.ends_with sep (Str.join "/" l) = false.
Proof.
  intros Hfree Hne. induction l as [|x l IH]; [reflexivity|].
  inversion Hfree; inversion Hne; subst.
  destruct l as [|y l]; [apply StrFacts.ends_with_contains; assumption|].
  rewrite StrFacts.join_cons by discriminate.
  rewrite StrFacts.ends_with_app by discriminate.
  rewrite StrFacts.app_cons, StrFacts.app_nil_l.
  rewrite StrFacts.ends_with_cons
    by (apply join_truthy; [discriminate|assumption]).
  apply IH; assumption.
Qed.

Lemma body_ends (allow : bool) (res : list string) :
  settled allow res ->
  Str.ends_with sep (Str.join "/" (rev res)) = false.
Proof.
  intros Hs. apply join_ends.
  - apply List.Forall_rev, (settled_free allow), Hs.
  - apply List.Forall_rev, (settled_truthy allow), Hs.
Qed.

Lemma render_absolute (allow absolute trailing : bool) (res : list string) :
  settled allow res ->
  isAbsolute (render absolute trailing res) = absolute.
Proof.
  intros Hs. unfold isAbsolute. destruct res as [|x res].
  - rewrite render_nil. destruct absolute, trailing; reflexivity.
  - assert (x :: res <> []) as Hne by discriminate.
    rewrite (render_cons allow) by assumption.
    destruct absolute; [reflexivity|].
    rewrite StrFacts.app_nil_l.
    rewrite StrFacts.starts_with_app by (apply (body_truthy allow); assumption).
    apply (body_starts allow), Hs.
Qed.

Lemma render_trailing (allow absolute trailing : bool) (res : list string) :
  settled allow res -> res <> [] ->
  Str.ends_with sep (render absolute trailing res) = trailing.
Proof.
  intros Hs Hne. rewrite (render_cons allow) by assumption.
  pose proof (body_truthy allow res Hs Hne) as Hb.
  destruct trailing.
  - rewrite <- StrFacts.app_assoc. apply StrFacts.ends_with_app. discriminate.
  - rewrite StrFacts.app_nil_r.
    destruct absolute.
    + rewrite StrFacts.ends_with_app by assumption. apply (body_ends allow), Hs.
    + rewrite StrFacts.app_nil_l. apply (body_ends allow), Hs.
Qed.

(** [normalize] changes neither the kind of a path nor its segments. *)
Lemma normalize_absolute (p : string) :
  p <> EmptyString -> isAbsolute (normalize p) = isAbsolute p.
Proof.
  intros Hp. rewrite normalize_render by assumption.
  apply (render_absolute (negb (isAbsolute p))), segments_settled.
Qed.

Lemma normalize_segments (p : string) :
  p <> EmptyString ->
  segments (negb (isAbsolute p)) (normalize p) = segments (negb (isAbsolute p)) p.
Proof.
  intros Hp. rewrite normalize_render by assumption.
  apply resplit, segments_settled.
Qed.

Lemma normalize_truthy (p : string) : normalize p <> EmptyString.
Proof.
  destruct (String.eqb_spec p EmptyString) as [->|Hp]; [discriminate|].
  rewrite normalize_render by assumption.
  apply (render_truthy (negb (isAbsolute p))), segments_settled.
Qed.

Lemma segments_app (allow : bool) (p q : string) :
  segments allow (p +:+ "/" +:+ q)
  = fold_left (step allow) (Str.split sep q) (segments allow p).
Proof.
  unfold segments. rewrite StrFacts.app_cons, StrFacts.app_nil_l.
  rewrite (StrFacts.split_app sep), fold_left_app. reflexivity.
Qed.

(** Normalising a prefix first does not change the result. *)
Lemma normalize_app (p q : string) :
  p <> EmptyString ->
  normalize (normalize p +:+ "/" +:+ q) = normalize (p +:+ "/" +:+ q).
Proof.
  intros Hp. pose proof (normalize_truthy p) as Hn.
  assert (forall s : string, s <> EmptyString -> s +:+ "/" +:+ q <> EmptyString)
    as Hcat.
  { intros s Hs. destruct s; [contradiction|discriminate]. }
  rewrite (normalize_render (normalize p +:+ "/" +:+ q)) by (apply Hcat, Hn).
  rewrite (normalize_render (p +:+ "/" +:+ q)) by (apply Hcat, Hp).
  unfold isAbsolute.
  rewrite !StrFacts.starts_with_app by assumption.
  fold (isAbsolute (normalize p)). fold (isAbsolute p).
  rewrite normalize_absolute by assumption.
  rewrite !segments_app, normalize_segments by assumption.
  rewrite !(StrFacts.ends_with_app sep _ ("/" +:+ q)) by discriminate.
  reflexivity.
Qed.

Lemma normalize_idem (p : string) : normalize (normalize p) = normalize p.
Proof.
  destruct (String.eqb_spec p EmptyString) as [->|Hp]; [reflexivity|].
  rewrite (normalize_render (normalize p)) by apply normalize_truthy.
  rewrite normalize_absolute, normalize_segments by assumption.
  rewrite (normalize_render p) by assumption.
  pose proof (segments_settled (negb (isAbsolute p)) p) as Hs.
  destruct (segments (negb (isAbsolute p)) p) as [|x res] eqn:Hseg.
  - rewrite !render_nil.
    destruct (isAbsolute p), (Str.ends_with sep p); reflexivity.
  - rewrite (render_trailing (negb (isAbsolute p))) by (auto; discriminate).
    reflexivity.
Qed.

(** ** [join] as a fold over the segments of its arguments *)

Lemma filter_truthy_id (X : list string) :
  Forall (fun s => Str.truthy s = true) X -> List.filter Str.truthy X = X.
Proof.
  induction 1 as [|x X Hx _ IH]; [reflexivity|].
  simpl. rewrite Hx, IH. reflexivity.
Qed.

Lemma filter_truthy_all (l : list string) :
  Forall (fun s => Str.truthy s = true) (List.filter Str.truthy l).
Proof.
  induction l as [|x l IH]; simpl; [constructor|].
  destruct (Str.truthy x) eqn:Hx; [constructor; assumption|assumption].
Qed.

Lemma join_filter (l : list string) :
  join l = join (List.filter Str.truthy l).
Proof.
  unfold join. rewrite (filter_truthy_id (List.filter Str.truthy l))
    by apply filter_truthy_all.
  reflexivity.
Qed.

Lemma truthy_all_nonempty (X : list string) :
  Forall (fun s => Str.truthy s = true) X ->
  Forall (fun s => s <> EmptyString) X.
Proof.
  intros H. eapply List.Forall_impl; [|exact H].
  intros s Hs. apply StrFacts.truthy_nonempty, Hs.
Qed.

Lemma split_glued (X : list string) :
  X <> [] ->
  Str.split sep (Str.join "/" X) = flat_map (Str.split sep) X.
Proof.
  intros Hne. induction X as [|x X IH]; [contradiction|].
  destruct X as [|y X]; [simpl; rewrite app_nil_r; reflexivity|].
  rewrite StrFacts.join_cons by discriminate.
  rewrite StrFacts.app_cons, StrFacts.app_nil_l, (StrFacts.split_app sep).
  rewrite IH by discriminate. reflexivity.
Qed.

Lemma glued_starts (x : string) (X : list string) :
  x <> EmptyString ->
  Str.starts_with sep (Str.join "/" (x :: X)) = Str.starts_with sep x.
Proof.
  intros Hx. destruct X as [|y X]; [reflexivity|].
  rewrite StrFacts.join_cons by discriminate.
  apply StrFacts.starts_with_app, Hx.
Qed.

Lemma glued_ends (X : list string) (x : string) :
  x <> EmptyString ->
  Str.ends_with sep (Str.join "/" (X ++ [x])) = Str.ends_with sep x.
Proof.
  intros Hx. destruct X as [|y X]; [reflexivity|].
  rewrite StrFacts.join_app by discriminate.
  rewrite <- StrFacts.app_assoc.
  apply StrFacts.ends_with_app, Hx.
Qed.

(** What [join] returns for arguments that are all non-empty: the first
    says whether the path is absolute, the last whether it ends in a
    separator, and the segments of all of them are folded in order. *)
Lemma join_fold (x last : string) (X : list string) :
  Forall (fun s => Str.truthy s = true) (x :: X ++ [last]) ->
  join (x :: X ++ [last]) =
  render (isAbsolute x) (Str.ends_with sep last)
    (fold_left (step (negb (isAbsolute x)))
       (flat_map (Str.split sep) (x :: X ++ [last])) []).
Proof.
  intros Hall. pose proof (truthy_all_nonempty _ Hall) as Hne.
  unfold join. rewrite (filter_truthy_id _ Hall).
  assert (Str.join "/" (x :: X ++ [last]) <> EmptyString) as Hglue
    by (apply join_truthy; [discriminate|assumption]).
  change (normalize (Str.join "/" (x :: X ++ [last])) = 
          render (isAbsolute x) (Str.ends_with sep last)
            (fold_left (step (negb (isAbsolute x)))
               (flat_map (Str.split sep) (x :: X ++ [last])) [])).
  rewrite normalize_render by assumption.
  unfold isAbsolute, segments.
  inversion Hne as [|? ? Hx Hrest]; subst.
  rewrite glued_starts by assumption.
  rewrite split_glued by discriminate.
  change (x :: X ++ [last]) with ((x :: X) ++ [last]).
  rewrite (glued_ends (x :: X) last).
  - reflexivity.
  - apply Forall_app in Hrest as [_ Hlast]. inversion Hlast; assumption.
Qed.

Lemma join_glued (X : list string) :
  X <> [] -> Forall (fun s => Str.truthy s = true) X ->
  join X = normalize (Str.join "/" X).
Proof.
  intros Hne HX. unfold join. rewrite (filter_truthy_id X HX).
  destruct X; [contradiction|reflexivity].
Qed.

Lemma join_truthy_path (l : list string) : Str.truthy (join l) = true.
Proof.
  apply StrFacts.truthy_nonempty. unfold join.
  destruct (List.filter Str.truthy l); [discriminate|apply normalize_truthy].
Qed.

(** Joining in two steps or in one gives the same path. *)
Lemma join_join (l m : list string) :
  List.filter Str.truthy l <> [] ->
  join (join l :: m) = join (l ++ m).
Proof.
  intros Hl. rewrite (join_filter (l ++ m)), List.filter_app.
  rewrite (join_filter (join l :: m)).
  simpl List.filter. rewrite join_truthy_path.
  pose proof (filter_truthy_all l) as HX. pose proof (filter_truthy_all m) as HY.
  pose proof (join_truthy_path l) as Hj.
  rewrite (join_filter l) in *.
  revert Hl HX HY Hj.
  generalize (List.filter Str.truthy l) as X.
  generalize (List.filter Str.truthy m) as Y.
  intros Y X HX0 HX HY Hj.
  assert (Str.join "/" X <> EmptyString) as HP
    by (apply join_truthy; [assumption|apply truthy_all_nonempty, HX]).
  rewrite (join_glued (join X :: Y)) by (discriminate || constructor; assumption).
  rewrite (join_glued (X ++ Y));
    [|destruct X; [contradiction|discriminate]|apply Forall_app; split; assumption].
  rewrite (join_glued X) by assumption.
  destruct Y as [|y Y].
  - rewrite app_nil_r. apply normalize_idem.
  - rewrite StrFacts.join_cons by discriminate.
    rewrite StrFacts.join_app by (assumption || discriminate).
    apply normalize_app, HP.
Qed.

(** ** Names: the segments that are pushed as they are *)

Lemma plain_name (seg : string) : plain seg = true -> name seg.
Proof.
  unfold plain, name, kept. intros H.
  repeat (apply andb_prop in H as [H ?]).
  repeat match goal with
         | Hx : negb (String.eqb _ _) = true |- _ =>
             apply negb_true_iff, String.eqb_neq in Hx
         | Hx : negb (Str.contains _ _) = true |- _ =>
             apply negb_true_iff in Hx
         end.
  auto.
Qed.

Lemma name_free (seg : string) : name seg -> Str.contains sep seg = false.
Proof. intros [(_ & _ & H) _]. exact H. Qed.

Lemma name_truthy (seg : string) : name seg -> Str.truthy seg = true.
Proof. intros [(H & _) _]. apply StrFacts.truthy_nonempty, H. Qed.

Lemma settled_push (allow : bool) (x : string) (res : list string) :
  name x -> settled allow res -> settled allow (x :: res).
Proof.
  intros Hx (names & dots & -> & Hnames & Hdots & Hallow).
  apply (settled_intro allow (x :: names) dots); auto.
Qed.

Lemma settled_pushes (allow : bool) (names res : list string) :
  Forall name names -> settled allow res -> settled allow (rev names ++ res).
Proof.
  intros Hn. revert res. induction Hn as [|x names Hx _ IH]; intros res Hres;
    [exact Hres|].
  simpl rev. rewrite <- app_assoc. apply IH, settled_push; assumption.
Qed.

Lemma flat_map_names (names : list string) :
  Forall name names -> flat_map (Str.split sep) names = names.
Proof.
  induction 1 as [|x names Hx _ IH]; [reflexivity|].
  simpl. rewrite (StrFacts.split_free _ _ (name_free _ Hx)), IH. reflexivity.
Qed.

(** [join] of arguments that end in names: the names are pushed on what
    the arguments before them leave. *)
Lemma join_names (x : string) (X names : list string) (n : string) :
  Forall (fun s => Str.truthy s = true) (x :: X) ->
  Forall name names -> name n ->
  join (x :: X ++ names ++ [n]) =
  render (isAbsolute x) false
    (n :: rev names ++
       fold_left (step (negb (isAbsolute x)))
         (flat_map (Str.split sep) (x :: X)) []).
Proof.
  intros HX Hnames Hn.
  assert (x :: (X ++ names) ++ [n] = (x :: X) ++ names ++ [n]) as Hassoc
    by (simpl; rewrite <- app_assoc; reflexivity).
  rewrite app_assoc.
  rewrite join_fold.
  - rewrite (StrFacts.ends_with_contains _ _ (name_free _ Hn)).
    f_equal. rewrite Hassoc.
    rewrite !flat_map_app, !fold_left_app.
    rewrite (flat_map_names names Hnames).
    rewrite (flat_map_names [n]) by (constructor; [assumption|constructor]).
    rewrite (fold_names _ names) by exact Hnames.
    simpl. destruct Hn as [(H1 & H2 & _) H3].
    apply step_push; assumption.
  - rewrite Hassoc.
    apply Forall_app. split; [assumption|].
    apply Forall_app. split.
    + eapply List.Forall_impl; [|exact Hnames]. apply name_truthy.
    + constructor; [apply name_truthy, Hn|constructor].
Qed.

Lemma render_push (allow absolute : bool) (x : string) (res : list string) :
  settled allow (x :: res) -> res <> [] ->
  render absolute false (x :: res) = render absolute false res +:+ "/" +:+ x.
Proof.
  intros Hs Hne.
  assert (settled allow res) as Hres.
  { destruct Hs as (names & dots & Heq & Hnames & Hdots & Hallow).
    destruct names as [|y names].
    - simpl in Heq. subst dots. inversion Hdots; subst.
      apply (settled_intro allow [] res); auto.
      intros H. specialize (Hallow H). discriminate.
    - injection Heq as -> ->. inversion Hnames; subst.
      apply settled_intro; assumption. }
  rewrite (render_cons allow) by (auto; discriminate).
  rewrite (render_cons allow absolute false res) by assumption.
  rewrite !StrFacts.app_nil_r. simpl rev.
  rewrite StrFacts.join_app by
    (discriminate ||
     (intros H; apply Hne; apply (f_equal (@rev string)) in H;
      rewrite rev_involutive in H; exact H)).
  simpl Str.join at 2.
  rewrite !StrFacts.app_assoc. reflexivity.
Qed.

(** Two rendered paths that are equal have the same last segment. *)
Lemma render_top (a a' t t' : bool) (x y : string) (S S' : list string) :
  settled (negb a) (x :: S) -> settled (negb a') (y :: S') ->
  render a t (x :: S) = render a' t' (y :: S') -> x = y.
Proof.
  intros Hs Hs' Heq.
  assert (a = a') as <-.
  { rewrite <- (render_absolute (negb a) a t (x :: S) Hs).
    rewrite <- (render_absolute (negb a') a' t' (y :: S') Hs').
    rewrite Heq. reflexivity. }
  pose proof (resplit (negb a) a t (x :: S) Hs) as H1.
  pose proof (resplit (negb a) a t' (y :: S') Hs') as H2.
  rewrite Heq, H2 in H1. congruence.
Qed.

Lemma join_skip (d : string) (l : list string) :
  Str.truthy d = false -> join (d :: l) = join l.
Proof. intros Hd. unfold join. simpl List.filter. rewrite Hd. reflexivity. Qed.

(** ** The directories of [server.js] *)

(** What [__dirname] and ["/home/"] leave behind them: the kind of the
    path, and its segments, a non-empty settled list. *)
Lemma home_base (d : string) :
  exists (a : bool) (T : list string),
    settled (negb a) T /\ T <> [] /\
    forall (names : list string) (n : string),
      Forall name names -> name n ->
      join (d :: "/home/"%string :: names ++ [n])
      = render a false (n :: rev names ++ T).
Proof.
  destruct (Str.truthy d) eqn:Hd.
  - exists (isAbsolute d),
      ("home"%string :: segments (negb (isAbsolute d)) d).
    split; [|split; [discriminate|]].
    + apply settled_push; [|apply segments_settled].
      repeat split; discriminate || reflexivity.
    + intros names n Hnames Hn.
      change (d :: "/home/"%string :: names ++ [n])
        with (d :: ["/home/"%string] ++ names ++ [n]).
      rewrite (join_names d ["/home/"%string] names n) by
        (assumption || (repeat constructor; assumption)).
      do 3 f_equal.
      change (flat_map (Str.split sep) [d; "/home/"%string])
        with (Str.split sep d ++ [EmptyString; "home"%string; EmptyString]).
      rewrite fold_left_app. reflexivity.
  - exists true, ["home"%string].
    split; [|split; [discriminate|]].
    + apply (settled_push false "home" []); [|apply settled_nil].
      repeat split; discriminate || reflexivity.
    + intros names n Hnames Hn.
      rewrite (join_skip d) by exact Hd.
      change ("/home/"%string :: names ++ [n])
        with ("/home/"%string :: [] ++ names ++ [n]).
      rewrite (join_names "/home/" [] names n) by
        (assumption || (repeat constructor; assumption)).
      reflexivity.
Qed.

(** ** A user's directory and the files below it *)

(** The directories of all users are below one root [R]: the home of
    [uid] is [R/uid], its uploads directory [R/uid/uploads], and a file
    with a name [f] lies at [R/uid/uploads/f]. *)
Lemma namespace_shape (d : string) :
  exists R : string,
    forall uid : string, name uid ->
      join [d; "/home/"%string; uid] = R +:+ "/" +:+ uid
      /\ join [join [d; "/home/"%string; uid]; "uploads"%string]
         = R +:+ "/" +:+ uid +:+ "/uploads"
      /\ forall f : string, name f ->
           join [join [d; "/home/"%string; uid]; "uploads"%string; f]
           = R +:+ "/" +:+ uid +:+ "/uploads" +:+ "/" +:+ f.
Proof.
  destruct (home_base d) as (a & T & HT & Hne & Hjoin).
  exists (render a false T). intros uid Huid.
  assert (name "uploads") as Hup
    by (repeat split; discriminate || reflexivity).
  assert (List.filter Str.truthy [d; "/home/"%string; uid] <> []) as Hfilter.
  { simpl. destruct (Str.truthy d); [discriminate|].
    destruct (Str.truthy uid); discriminate. }
  assert (join [d; "/home/"%string; uid] = render a false T +:+ "/" +:+ uid)
    as Hhome.
  { pose proof (Hjoin [] uid ltac:(constructor) Huid) as H.
    cbn [app rev] in H. rewrite H.
    apply (render_push (negb a)); [|assumption].
    apply settled_push; assumption. }
  assert (join [join [d; "/home/"%string; uid]; "uploads"%string]
          = render a false T +:+ "/" +:+ uid +:+ "/uploads") as Huploads.
  { rewrite join_join by assumption.
    pose proof (Hjoin [uid] "uploads"%string
                  ltac:(constructor; [assumption|constructor]) Hup) as H.
    cbn [app rev] in H. cbn [app]. rewrite H.
    rewrite (render_push (negb a)) by
      (discriminate || (repeat apply settled_push; assumption)).
    rewrite (render_push (negb a)) by
      (assumption || (repeat apply settled_push; assumption)).
    rewrite !StrFacts.app_assoc. reflexivity. }
  split; [exact Hhome|]. split; [exact Huploads|].
  intros f Hf.
  rewrite join_join by assumption.
  pose proof (Hjoin [uid; "uploads"%string] f
                ltac:(constructor; [assumption|];
                      constructor; [assumption|constructor]) Hf) as H.
  cbn [app rev] in H. cbn [app]. rewrite H.
  rewrite (render_push (negb a)) by
    (discriminate || (repeat apply settled_push; assumption)).
  rewrite (render_push (negb a)) by
    (discriminate || (repeat apply settled_push; assumption)).
  rewrite (render_push (negb a)) by
    (assumption || (repeat apply settled_push; assumption)).
  rewrite !StrFacts.app_assoc. reflexivity.
Qed.

Lemma prefix_app (x a b : string) :
  String.prefix (x +:+ a) (x +:+ b) = String.prefix a b.
Proof.
  induction x as [|c x IH]; [reflexivity|].
  rewrite !StrFacts.app_cons. cbn [String.prefix].
  destruct (ascii_dec c c); [exact IH|contradiction].
Qed.

Lemma prefix_refl_app (x rest : string) : String.prefix x (x +:+ rest) = true.
Proof.
  rewrite <- (StrFacts.app_nil_r x) at 1. rewrite prefix_app.
  destruct rest; reflexivity.
Qed.

Lemma prefix_upto (c : ascii) (A B x y : string) :
  Str.contains c A = false -> Str.contains c B = false ->
  String.prefix (A +:+ String c x) (B +:+ String c y) = true -> A = B.
Proof.
  revert B. induction A as [|a A IH]; intros [|b B] HA HB Hp.
  - reflexivity.
  - rewrite StrFacts.app_nil_l, StrFacts.app_cons in Hp. cbn [String.prefix] in Hp.
    destruct (ascii_dec c b) as [<-|]; [|discriminate].
    cbn [Str.contains] in HB. rewrite Ascii.eqb_refl in HB. discriminate.
  - rewrite StrFacts.app_nil_l, StrFacts.app_cons in Hp. cbn [String.prefix] in Hp.
    destruct (ascii_dec a c) as [->|]; [|discriminate].
    cbn [Str.contains] in HA. rewrite Ascii.eqb_refl in HA. discriminate.
  - rewrite !StrFacts.app_cons in Hp. cbn [String.prefix] in Hp.
    destruct (ascii_dec a b) as [->|]; [|discriminate].
    cbn [Str.contains] in HA, HB.
    apply orb_false_iff in HA as [_ HA]. apply orb_false_iff in HB as [_ HB].
    f_equal. apply IH; assumption.
Qed.

(** A file of one user is inside that user's directory and outside any
    other user's. *)
Lemma namespaces_apart (R A B rest : string) :
  Str.contains sep A = false -> Str.contains sep B = false -> A <> B ->
  inside (R +:+ "/" +:+ B) (R +:+ "/" +:+ B +:+ "/" +:+ rest) = true
  /\ inside (R +:+ "/" +:+ A) (R +:+ "/" +:+ B +:+ "/" +:+ rest) = false.
Proof.
  intros HA HB Hne. unfold inside. split.
  - apply orb_true_iff. right.
    rewrite <- !StrFacts.app_assoc. apply prefix_refl_app.
  - apply orb_false_iff. split.
    + apply String.eqb_neq. intros H.
      apply StrFacts.app_inv_head, StrFacts.app_inv_head in H.
      rewrite <- H in HA. rewrite !StrFacts.contains_app in HA.
      cbn in HA. rewrite orb_true_r in HA. discriminate.
    + rewrite !StrFacts.app_assoc, !prefix_app.
      destruct (String.prefix (A +:+ "/") (B +:+ "/" +:+ rest)) eqn:Hp;
        [|reflexivity].
      apply (prefix_upto sep) in Hp; [contradiction|assumption|assumption].
Qed.

(** ** Paths that end in a name *)

Lemma join_last_name (l : list string) (n : string) :
  name n ->
  exists (a : bool) (S : list string),
    join (l ++ [n]) = render a false (n :: S) /\ settled (negb a) (n :: S).
Proof.
  intros Hn. pose proof (name_truthy n Hn) as Htruthy.
  rewrite join_filter, List.filter_app. cbn [List.filter]. rewrite Htruthy.
  pose proof (filter_truthy_all l) as HX.
  destruct (List.filter Str.truthy l) as [|x X].
  - exists false, []. split; [|apply settled_push; [assumption|apply settled_nil]].
    cbn [app]. rewrite join_glued by (discriminate || (constructor; auto)).
    cbn [Str.join].
    rewrite normalize_render by (apply StrFacts.truthy_nonempty, Htruthy).
    unfold isAbsolute. rewrite (starts_free _ _ (name_free n Hn)).
    rewrite (StrFacts.ends_with_contains _ _ (name_free n Hn)).
    unfold segments. rewrite (StrFacts.split_free _ _ (name_free n Hn)).
    cbn [fold_left negb]. destruct Hn as [(H1 & H2 & _) H3].
    rewrite step_push by assumption. reflexivity.
  - exists (isAbsolute x),
      (fold_left (step (negb (isAbsolute x)))
         (flat_map (Str.split sep) (x :: X)) []).
    split.
    + change ((x :: X) ++ [n]) with (x :: X ++ [] ++ [n]).
      rewrite (join_names x X [] n) by (assumption || constructor).
      reflexivity.
    + apply settled_push; [assumption|].
      apply fold_settled; [|apply settled_nil].
      apply Forall_flat_map. apply Forall_forall. intros s _.
      apply StrFacts.split_pieces_free.
Qed.

(** Paths that end in different names are different. *)
Lemma join_last_differs (l l' : list string) (n n' : string) :
  name n -> name n' -> n <> n' -> join (l ++ [n]) <> join (l' ++ [n']).
Proof.
  intros Hn Hn' Hne Heq.
  destruct (join_last_name l n Hn) as (a & S & H1 & HS).
  destruct (join_last_name l' n' Hn') as (a' & S' & H2 & HS').
  rewrite H1, H2 in Heq. apply Hne.
  exact (render_top a a' false false n n' S S' HS HS' Heq).
Qed.

End PathFacts.


(* ===================================================================== *)
(** * Facts about the decimal form of a clock reading *)
(* ===================================================================== *)

Module PrettyFacts.

Lemma digit_not_sep (d : N) : pretty_N_char d <> Path.sep.
Proof. unfold pretty_N_char. repeat case_match; discriminate. Qed.

Lemma pretty_N_go_free (x : N) (s : string) :
  Str.contains Path.sep s = false ->
  Str.contains Path.sep (pretty_N_go x s) = false.
Proof.
  revert s. induction (N.lt_wf_0 x) as [x _ IH]; intros s Hs.
  assert (x = 0 \/ 0 < x)%N as [->|Hpos] by lia.
  - rewrite pretty_N_go_0. exact Hs.
  - rewrite pretty_N_go_step by exact Hpos.
    apply IH; [apply N.div_lt; lia|].
    cbn [Str.contains]. rewrite Hs, orb_false_r.
    apply Ascii.eqb_neq, digit_not_sep.
Qed.

Lemma pretty_N_free (x : N) : Str.contains Path.sep (pretty x) = false.
Proof.
  unfold pretty, pretty_N. destruct (decide (x = 0%N)); [reflexivity|].
  apply pretty_N_go_free. reflexivity.
Qed.

(** The decimal form of an integer holds no path separator. *)
Lemma pretty_Z_free (z : Z) : Str.contains Path.sep (pretty z) = false.
Proof.
  destruct z as [|p|p]; [reflexivity| |].
  - apply (pretty_N_free (Npos p)).
  - change (pretty (Zneg p)) with ("-" +:+ pretty (Npos p)).
    rewrite StrFacts.contains_app, (pretty_N_free (Npos p)). reflexivity.
Qed.

Lemma digit_not_dot (d : N) : pretty_N_char d <> "."%char.
Proof. unfold pretty_N_char. repeat case_match; discriminate. Qed.

Lemma pretty_N_go_dotless (x : N) (s : string) :
  Str.contains "."%char s = false ->
  Str.contains "."%char (pretty_N_go x s) = false.
Proof.
  revert s. induction (N.lt_wf_0 x) as [x _ IH]; intros s Hs.
  assert (x = 0 \/ 0 < x)%N as [->|Hpos] by lia.
  - rewrite pretty_N_go_0. exact Hs.
  - rewrite pretty_N_go_step by exact Hpos.
    apply IH; [apply N.div_lt; lia|].
    cbn [Str.contains]. rewrite Hs, orb_false_r.
    apply Ascii.eqb_neq, digit_not_dot.
Qed.

(** The decimal form of an integer holds no dot. *)
Lemma pretty_Z_dotless (z : Z) : Str.contains "."%char (pretty z) = false.
Proof.
  assert (forall x : N, Str.contains "."%char (pretty x) = false) as HN.
  { intros x. unfold pretty, pretty_N.
    destruct (decide (x = 0%N)); [reflexivity|].
    apply pretty_N_go_dotless. reflexivity. }
  destruct z as [|q|q]; [reflexivity| |].
  - apply (HN (Npos q)).
  - change (pretty (Zneg q)) with ("-" +:+ pretty (Npos q)).
    rewrite StrFacts.contains_app, (HN (Npos q)). reflexivity.
Qed.

(** A stored name does not start with a dot. *)
Lemma stored_name_visible (t : Z) (original : string) :
  Str.starts_with "." (pretty t +:+ "-" +:+ original) = false.
Proof.
  pose proof (pretty_Z_dotless t) as H.
  destruct (pretty t) as [|a rest]; [reflexivity|].
  cbn [Str.contains] in H. apply orb_false_iff in H as [H _]. exact H.
Qed.

(** The name multer stores a file under is a name in the sense of
    [path.normalize], with a dash in it. *)
Lemma stored_name (t : Z) (original : string) :
  Str.contains Path.sep original = false ->
  Path.name (pretty t +:+ "-" +:+ original)
  /\ Str.contains "-"%char (pretty t +:+ "-" +:+ original) = true.
Proof.
  intros Hfree.
  assert (Str.contains "-"%char (pretty t +:+ "-" +:+ original) = true) as Hdash.
  { rewrite !StrFacts.contains_app. cbn [Str.contains].
    rewrite Ascii.eqb_refl. cbn [orb]. apply orb_true_r. }
  split; [|exact Hdash].
  repeat split.
  - intros H. rewrite H in Hdash. discriminate.
  - intros H. rewrite H in Hdash. discriminate.
  - rewrite !StrFacts.contains_app, pretty_Z_free, Hfree. reflexivity.
  - intros H. rewrite H in Hdash. discriminate.
Qed.

End PrettyFacts.


(* ===================================================================== *)
(** * Facts about UTF-8 *)
(* ===================================================================== *)

Module Utf8Facts.

Import Utf8.

(** ** Bits as arithmetic *)

Lemma land_disjoint (hi lo n : Z) :
  0 <= n -> 0 <= lo < 2 ^ n -> Z.land (hi * 2 ^ n) lo = 0.
Proof.
  intros Hn Hlo. apply Z.bits_inj'. intros k Hk.
  rewrite Z.land_spec, Z.bits_0, <- Z.shiftl_mul_pow2 by assumption.
  destruct (Z.ltb_spec k n) as [Hlt|Hge].
  - rewrite Z.shiftl_spec_low by assumption. reflexivity.
  - assert (Z.testbit lo k = false) as ->; [|apply andb_false_r].
    destruct (Z.eq_dec lo 0) as [->|Hnz]; [apply Z.bits_0|].
    apply Z.bits_above_log2; [lia|].
    apply Z.log2_lt_pow2; [lia|].
    assert (2 ^ n <= 2 ^ k) by (apply Z.pow_le_mono_r; lia). lia.
Qed.

Lemma lor_glue (hi lo n : Z) :
  0 <= n -> 0 <= lo < 2 ^ n -> Z.lor (hi * 2 ^ n) lo = hi * 2 ^ n + lo.
Proof.
  intros Hn Hlo. pose proof (land_disjoint hi lo n Hn Hlo) as Hd.
  rewrite <- Z.lxor_lor by exact Hd. symmetry.
  apply Z.add_nocarry_lxor, Hd.
Qed.

Lemma low6 (x : Z) : Z.land x 0x3F = x mod 64.
Proof. exact (Z.land_ones x 6 ltac:(lia)). Qed.

Lemma low5 (x : Z) : Z.land x 0x1F = x mod 32.
Proof. exact (Z.land_ones x 5 ltac:(lia)). Qed.

Lemma low4 (x : Z) : Z.land x 0xF = x mod 16.
Proof. exact (Z.land_ones x 4 ltac:(lia)). Qed.

Lemma low3 (x : Z) : Z.land x 0x7 = x mod 8.
Proof. exact (Z.land_ones x 3 ltac:(lia)). Qed.

Lemma shift6 (x : Z) : Z.shiftr x 6 = x / 64.
Proof. exact (Z.shiftr_div_pow2 x 6 ltac:(lia)). Qed.

Lemma shift12 (x : Z) : Z.shiftr x 12 = x / 4096.
Proof. exact (Z.shiftr_div_pow2 x 12 ltac:(lia)). Qed.

Lemma shift18 (x : Z) : Z.shiftr x 18 = x / 262144.
Proof. exact (Z.shiftr_div_pow2 x 18 ltac:(lia)). Qed.

Lemma continuation_eq (x : Z) : continuation x = 128 + x mod 64.
Proof.
  unfold continuation. rewrite low6.
  exact (lor_glue 2 (x mod 64) 6 ltac:(lia) (Z.mod_pos_bound x 64 ltac:(lia))).
Qed.

Lemma lead2_eq (v : Z) : 0 <= v < 32 -> Z.lor 0xC0 v = 192 + v.
Proof. intros H. exact (lor_glue 6 v 5 ltac:(lia) H). Qed.

Lemma lead3_eq (v : Z) : 0 <= v < 16 -> Z.lor 0xE0 v = 224 + v.
Proof. intros H. exact (lor_glue 14 v 4 ltac:(lia) H). Qed.

Lemma lead4_eq (v : Z) : 0 <= v < 8 -> Z.lor 0xF0 v = 240 + v.
Proof. intros H. exact (lor_glue 30 v 3 ltac:(lia) H). Qed.

Lemma gather (acc b : Z) :
  Z.lor (Z.shiftl acc 6) (Z.land b 0x3F) = acc * 64 + b mod 64.
Proof.
  rewrite low6, Z.shiftl_mul_pow2 by lia.
  exact (lor_glue acc (b mod 64) 6 ltac:(lia)
           (Z.mod_pos_bound b 64 ltac:(lia))).
Qed.

(** ** The decoder, one byte at a time *)

Lemma between (lo b hi : Z) : lo <= b <= hi -> (lo <=? b) && (b <=? hi) = true.
Proof. intros [H1 H2]. apply andb_true_iff. split; apply Z.leb_le; assumption. Qed.

Lemma outside (lo b hi : Z) :
  b < lo \/ hi < b -> (lo <=? b) && (b <=? hi) = false.
Proof.
  intros H. apply andb_false_iff.
  destruct H; [left|right]; apply Z.leb_gt; assumption.
Qed.

Lemma start_one (b : Z) : 0 <= b <= 0x7F -> start b = Emit b.
Proof. intros H. unfold start. rewrite between by exact H. reflexivity. Qed.

Lemma start_two (b : Z) :
  0xC2 <= b <= 0xDF ->
  start b = Begin {| acc := Z.land b 0x1F; needed := 1;
                     lower := 0x80; upper := 0xBF |}.
Proof.
  intros H. unfold start.
  rewrite (outside 0 b 0x7F) by lia. rewrite between by exact H. reflexivity.
Qed.

Lemma start_three (b : Z) :
  0xE0 <= b <= 0xEF ->
  start b = Begin {| acc := Z.land b 0xF; needed := 2;
                     lower := if b =? 0xE0 then 0xA0 else 0x80;
                     upper := if b =? 0xED then 0x9F else 0xBF |}.
Proof.
  intros H. unfold start.
  rewrite (outside 0 b 0x7F), (outside 0xC2 b 0xDF) by lia.
  rewrite between by exact H. reflexivity.
Qed.

Lemma start_four (b : Z) :
  0xF0 <= b <= 0xF4 ->
  start b = Begin {| acc := Z.land b 0x7; needed := 3;
                     lower := if b =? 0xF0 then 0x90 else 0x80;
                     upper := if b =? 0xF4 then 0x8F else 0xBF |}.
Proof.
  intros H. unfold start.
  rewrite (outside 0 b 0x7F), (outside 0xC2 b 0xDF), (outside 0xE0 b 0xEF)
    by lia.
  rewrite between by exact H. reflexivity.
Qed.

Lemma decode_begin (b : Z) (p : pending) (rest : list Z) :
  start b = Begin p ->
  decode_from None (b :: rest) = decode_from (Some p) rest.
Proof. intros H. cbn [decode_from]. rewrite H. reflexivity. Qed.

Lemma decode_more (a lo hi b : Z) (n : nat) (rest : list Z) :
  lo <= b <= hi ->
  decode_from (Some {| acc := a; needed := S (S n); lower := lo; upper := hi |})
    (b :: rest)
  = decode_from (Some {| acc := a * 64 + b mod 64; needed := S n;
                         lower := 0x80; upper := 0xBF |}) rest.
Proof.
  intros H. cbn [decode_from acc needed lower upper].
  rewrite between by exact H. rewrite gather. reflexivity.
Qed.

Lemma decode_last (a lo hi b : Z) (rest : list Z) :
  lo <= b <= hi ->
  decode_from (Some {| acc := a; needed := 1; lower := lo; upper := hi |})
    (b :: rest)
  = (a * 64 + b mod 64) :: decode_from None rest.
Proof.
  intros H. cbn [decode_from acc needed lower upper].
  rewrite between by exact H. rewrite gather. reflexivity.
Qed.

(** ** Round trip *)

(** The bytes of one code point decode to it, whatever follows. *)
Lemma decode_encode_one (cp : Z) (rest : list Z) :
  scalar cp ->
  decode_from None (encode_one cp ++ rest) = cp :: decode_from None rest.
Proof.
  intros [Hrange Hsurrogate]. unfold encode_one.
  destruct (Z.leb_spec cp 0x7F) as [H1|H1].
  - cbn [app decode_from]. rewrite start_one by lia. reflexivity.
  - destruct (Z.leb_spec cp 0x7FF) as [H2|H2].
    + rewrite shift6, continuation_eq, lead2_eq
        by (split; [apply Z.div_pos|apply Z.div_lt_upper_bound]; lia).
      cbn [app].
      assert (2 <= cp / 64 < 32) as Hd
        by (split; [apply Z.div_le_lower_bound|apply Z.div_lt_upper_bound];
            lia).
      pose proof (Z.mod_pos_bound cp 64 ltac:(lia)) as Hm.
      rewrite (decode_begin _ _ _ (start_two (192 + cp / 64) ltac:(lia))).
      rewrite low5. rewrite decode_last by lia.
      f_equal. pose proof (Z.div_mod cp 64 ltac:(lia)) as Heq.
      replace ((192 + cp / 64) mod 32) with (cp / 64)
        by (apply (Z.mod_unique _ _ 6); lia).
      replace ((128 + cp mod 64) mod 64) with (cp mod 64)
        by (apply (Z.mod_unique _ _ 2); lia).
      lia.
    + destruct (Z.leb_spec cp 0xFFFF) as [H3|H3].
      * rewrite shift12, shift6, !continuation_eq, lead3_eq
          by (split; [apply Z.div_pos|apply Z.div_lt_upper_bound]; lia).
        cbn [app].
        assert (0 <= cp / 4096 < 16) as Hd
          by (split; [apply Z.div_pos|apply Z.div_lt_upper_bound]; lia).
        pose proof (Z.mod_pos_bound cp 64 ltac:(lia)) as Hm.
        pose proof (Z.mod_pos_bound (cp / 64) 64 ltac:(lia)) as Hm'.
        pose proof (Z.div_mod cp 64 ltac:(lia)) as Heq.
        pose proof (Z.div_mod (cp / 64) 64 ltac:(lia)) as Heq'.
        assert (cp / 64 / 64 = cp / 4096) as Hdd
          by (rewrite Z.div_div by lia; reflexivity).
        rewrite Hdd in Heq'.
        rewrite (decode_begin _ _ _ (start_three (224 + cp / 4096) ltac:(lia))).
        rewrite low4.
        replace ((224 + cp / 4096) mod 16) with (cp / 4096)
          by (apply (Z.mod_unique _ _ 14); lia).
        rewrite decode_more.
        2:{ destruct (Z.eqb_spec (224 + cp / 4096) 0xE0);
            destruct (Z.eqb_spec (224 + cp / 4096) 0xED); lia. }
        replace ((128 + (cp / 64) mod 64) mod 64) with ((cp / 64) mod 64)
          by (apply (Z.mod_unique _ _ 2); lia).
        rewrite decode_last by lia.
        replace ((128 + cp mod 64) mod 64) with (cp mod 64)
          by (apply (Z.mod_unique _ _ 2); lia).
        f_equal. lia.
      * rewrite shift18, shift12, shift6, !continuation_eq, lead4_eq
          by (split; [apply Z.div_pos|apply Z.div_lt_upper_bound]; lia).
        cbn [app].
        assert (0 <= cp / 262144 <= 4) as Hd
          by (split; [apply Z.div_pos; lia|];
              apply Z.lt_succ_r, Z.div_lt_upper_bound; lia).
        pose proof (Z.mod_pos_bound cp 64 ltac:(lia)) as Hm.
        pose proof (Z.mod_pos_bound (cp / 64) 64 ltac:(lia)) as Hm'.
        pose proof (Z.mod_pos_bound (cp / 4096) 64 ltac:(lia)) as Hm''.
        pose proof (Z.div_mod cp 64 ltac:(lia)) as Heq.
        pose proof (Z.div_mod (cp / 64) 64 ltac:(lia)) as Heq'.
        pose proof (Z.div_mod (cp / 4096) 64 ltac:(lia)) as Heq''.
        assert (cp / 64 / 64 = cp / 4096) as Hdd
          by (rewrite Z.div_div by lia; reflexivity).
        assert (cp / 4096 / 64 = cp / 262144) as Hddd
          by (rewrite Z.div_div by lia; reflexivity).
        rewrite Hdd in Heq'. rewrite Hddd in Heq''.
        rewrite (decode_begin _ _ _ (start_four (240 + cp / 262144) ltac:(lia))).
        rewrite low3.
        replace ((240 + cp / 262144) mod 8) with (cp / 262144)
          by (apply (Z.mod_unique _ _ 30); lia).
        rewrite decode_more.
        2:{ destruct (Z.eqb_spec (240 + cp / 262144) 0xF0);
            destruct (Z.eqb_spec (240 + cp / 262144) 0xF4); lia. }
        replace ((128 + (cp / 4096) mod 64) mod 64) with ((cp / 4096) mod 64)
          by (apply (Z.mod_unique _ _ 2); lia).
        rewrite decode_more by lia.
        replace ((128 + (cp / 64) mod 64) mod 64) with ((cp / 64) mod 64)
          by (apply (Z.mod_unique _ _ 2); lia).
        rewrite decode_last by lia.
        replace ((128 + cp mod 64) mod 64) with (cp mod 64)
          by (apply (Z.mod_unique _ _ 2); lia).
        f_equal. lia.
Qed.

(** Decoding the UTF-8 form of a text gives the text back. *)
(** ** The decoder yields scalar values only *)

Lemma replacement_scalar : scalar replacement.
Proof. unfold scalar, replacement. lia. Qed.

Lemma in_range (lo b hi : Z) :
  (lo <=? b) && (b <=? hi) = true -> lo <= b <= hi.
Proof. intros H. apply andb_true_iff in H as [H1 H2]. lia. Qed.

Lemma start_scalar (b : Z) :
  match start b with
  | Emit cp => scalar cp
  | Begin p => completes (needed p) (acc p) (lower p) (upper p)
  end.
Proof.
  unfold start.
  destruct ((0 <=? b) && (b <=? 0x7F)) eqn:H1.
  { apply in_range in H1. unfold scalar. lia. }
  destruct ((0xC2 <=? b) && (b <=? 0xDF)) eqn:H2.
  { apply in_range in H2. cbn [needed acc lower upper completes].
    rewrite low5. intros c Hc. unfold scalar.
    Z.div_mod_to_equations. lia. }
  destruct ((0xE0 <=? b) && (b <=? 0xEF)) eqn:H3.
  { apply in_range in H3. cbn [needed acc lower upper completes].
    rewrite low4. unfold scalar.
    destruct (Z.eqb_spec b 0xE0) as [Ha|Ha];
      destruct (Z.eqb_spec b 0xED) as [Hb|Hb];
      intros c Hc d Hd; Z.div_mod_to_equations; lia. }
  destruct ((0xF0 <=? b) && (b <=? 0xF4)) eqn:H4.
  { apply in_range in H4. cbn [needed acc lower upper completes].
    rewrite low3. unfold scalar.
    destruct (Z.eqb_spec b 0xF0) as [Ha|Ha];
      destruct (Z.eqb_spec b 0xF4) as [Hb|Hb];
      intros c Hc d Hd e He; Z.div_mod_to_equations; lia. }
  apply replacement_scalar.
Qed.

Lemma decode_from_scalar (bytes : list Z) :
  forall st : option pending,
    match st with
    | None => True
    | Some p => completes (needed p) (acc p) (lower p) (upper p)
    end ->
    Forall scalar (decode_from st bytes).
Proof.
  induction bytes as [|b rest IH]; intros st Hst.
  - destruct st; cbn [decode_from];
      [constructor; [apply replacement_scalar|]|]; constructor.
  - assert (Forall scalar
              match start b with
              | Emit cp => cp :: decode_from None rest
              | Begin p' => decode_from (Some p') rest
              end) as Hfresh.
    { pose proof (start_scalar b) as Hb.
      destruct (start b) as [cp|p'];
        [constructor; [exact Hb|apply (IH None I)]|apply (IH (Some p') Hb)]. }
    destruct st as [p|]; cbn [decode_from]; [|exact Hfresh].
    destruct ((lower p <=? b) && (b <=? upper p)) eqn:Hin;
      [|constructor; [apply replacement_scalar|exact Hfresh]].
    apply in_range in Hin. rewrite gather.
    destruct (needed p) as [|[|n]] eqn:Hn; cbn [completes] in Hst.
    + constructor; [apply Hst, Hin|apply (IH None I)].
    + constructor; [apply Hst, Hin|apply (IH None I)].
    + apply (IH (Some _)). cbn [needed acc lower upper].
      apply Hst, Hin.
Qed.

Lemma decode_scalar (bytes : list Z) : Forall scalar (decode bytes).
Proof. apply (decode_from_scalar bytes None I). Qed.

Lemma decode_encode (text : list Z) :
  Forall scalar text -> decode (encode text) = text.
Proof.
  unfold decode, encode. induction 1 as [|cp text Hcp _ IH]; [reflexivity|].
  cbn [flat_map]. rewrite decode_encode_one by exact Hcp. rewrite IH.
  reflexivity.
Qed.

End Utf8Facts.

(* ===================================================================== *)
(** * Facts about the file system *)
(* ===================================================================== *)

Module FsFacts.

Import Fs.

Lemma same_files_refl (m : gmap string node) : same_files m m.
Proof. intros q data. reflexivity. Qed.

Lemma same_files_trans (m1 m2 m3 : gmap string node) :
  same_files m1 m2 -> same_files m2 m3 -> same_files m1 m3.
Proof. intros H1 H2 q data. rewrite (H1 q data). apply H2. Qed.

Lemma mkdir_step_files (m m' : gmap string node) (q : string) :
  mkdir_step (Ok m) q = Ok m' -> same_files m m'.
Proof.
  unfold mkdir_step. intros H p data.
  destruct (m !! q) as [[old|]|] eqn:Hq; try discriminate;
    injection H as <-;
    (destruct (decide (q = p)) as [->|Hne];
     [rewrite lookup_insert_eq, Hq; split; discriminate
     |rewrite lookup_insert_ne by assumption; reflexivity]).
Qed.

Lemma mkdir_fold_err (qs : list string) (e : error) :
  fold_left mkdir_step qs (Err e) = Err e.
Proof. induction qs as [|q qs IH]; [reflexivity|exact IH]. Qed.

Lemma mkdir_fold_files (qs : list string) (m m' : gmap string node) :
  fold_left mkdir_step qs (Ok m) = Ok m' -> same_files m m'.
Proof.
  revert m. induction qs as [|q qs IH]; intros m H.
  - injection H as <-. apply same_files_refl.
  - cbn [fold_left] in H. destruct (mkdir_step (Ok m) q) as [m1|e] eqn:Hstep.
    + apply (same_files_trans m m1 m'); [exact (mkdir_step_files _ _ _ Hstep)|].
      apply IH, H.
    + rewrite mkdir_fold_err in H. discriminate.
Qed.

(** [mkdirp] neither removes nor creates a regular file. *)
Lemma mkdirp_files (m m' : gmap string node) (p : string) :
  mkdirp m p = Ok m' -> same_files m m'.
Proof. apply mkdir_fold_files. Qed.

(** ** The path made by [mkdirp] exists afterwards *)

Lemma join_split (c : ascii) (s : string) :
  Str.join (String c EmptyString) (Str.split c s) = s.
Proof.
  induction s as [|a s IH]; [reflexivity|].
  simpl. destruct (Ascii.eqb_spec a c) as [->|Hne].
  - rewrite StrFacts.join_cons by apply StrFacts.split_nonempty.
    rewrite IH. reflexivity.
  - pose proof (StrFacts.split_nonempty c s) as Hs.
    destruct (Str.split c s) as [|piece pieces]; [contradiction|].
    destruct pieces as [|piece' pieces].
    + simpl in *. rewrite IH. reflexivity.
    + rewrite StrFacts.join_cons in * by discriminate.
      rewrite StrFacts.app_cons, IH. reflexivity.
Qed.

Lemma join_split_path (p : string) :
  Str.join "/" (Str.split Path.sep p) = p.
Proof. exact (join_split Path.sep p). Qed.

Lemma inits_last {A : Type} (l : list A) :
  l <> [] -> exists front, inits l = front ++ [l].
Proof.
  induction l as [|x l IH]; [contradiction|]. intros _.
  destruct l as [|y l].
  - exists []. reflexivity.
  - destruct IH as (front & Hfront); [discriminate|].
    exists ([x] :: List.map (cons x) front).
    cbn [inits] in *. rewrite Hfront, List.map_app. reflexivity.
Qed.

Lemma lineage_last (p : string) :
  Str.truthy p = true -> exists front, lineage p = front ++ [p].
Proof.
  intros Hp. unfold lineage.
  destruct (inits_last (Str.split Path.sep p)) as (front & ->);
    [apply StrFacts.split_nonempty|].
  rewrite List.map_app, List.filter_app. cbn [List.map List.filter].
  rewrite join_split_path, Hp. eauto.
Qed.

Lemma mkdirp_exists (m m' : gmap string node) (p : string) :
  Str.truthy p = true -> mkdirp m p = Ok m' -> m' !! p = Some Dir.
Proof.
  intros Hp. unfold mkdirp.
  destruct (lineage_last p Hp) as (front & ->).
  rewrite fold_left_app. cbn [fold_left].
  destruct (fold_left mkdir_step front (Ok m)) as [m1|e]; [|discriminate].
  unfold mkdir_step. destruct (m1 !! p) as [[old|]|]; try discriminate;
    intros H; injection H as <-; apply lookup_insert_eq.
Qed.

End FsFacts.

(* ===================================================================== *)
(** * Facts about the tokens *)
(* ===================================================================== *)

Module JwtFacts.

Import Jwt.

Lemma header_compact : compact header.
Proof. split; reflexivity. Qed.

Section Lawful.

Context (c : codec) (Hc : lawful c).

Lemma input_spaceless (p : payload) :
  Str.contains " "%char (signing_input c p) = false.
Proof.
  unfold signing_input. rewrite !StrFacts.contains_app.
  destruct (encode_compact c Hc p) as [_ ->]. reflexivity.
Qed.

Lemma split_input (p : payload) :
  Str.split "."%char (signing_input c p) = [header; encode c p].
Proof.
  unfold signing_input.
  rewrite StrFacts.app_cons, StrFacts.app_nil_l, StrFacts.split_app.
  destruct (encode_compact c Hc p) as [Hdot _].
  rewrite (StrFacts.split_free "."%char header) by reflexivity.
  rewrite (StrFacts.split_free _ _ Hdot). reflexivity.
Qed.

(** A token whose third part is [signature], under a key, at a time. *)
Lemma verify_parts (p : payload) (signature key : string) (secret : option string)
    (now : Z) :
  Str.provided secret = Some key ->
  Str.contains "."%char signature = false ->
  verify c (Some (signing_input c p +:+ "." +:+ signature)) secret now =
  if String.eqb signature EmptyString then
    inl (JsonWebTokenError "jwt signature is required")
  else if negb (String.eqb signature (hs256 c key (signing_input c p))) then
    inl (JsonWebTokenError "invalid signature")
  else if now / 1000 >=? exp p then inl (TokenExpiredError (exp p))
  else inr p.
Proof.
  intros Hkey Hsig. unfold verify.
  assert (Str.provided (Some (signing_input c p +:+ "." +:+ signature))
          = Some (signing_input c p +:+ "." +:+ signature)) as ->
    by reflexivity.
  rewrite StrFacts.app_cons, StrFacts.app_nil_l, StrFacts.split_app.
  rewrite split_input, (StrFacts.split_free _ _ Hsig).
  cbn [app]. rewrite (decode_encode c Hc), String.eqb_refl, Hkey.
  reflexivity.
Qed.

(** A token [jwt.sign] returned is accepted before its expiry, and from
    then on turned down as expired. *)
Lemma verify_signed (dn homeDirectory uid : string) (secret : option string)
    (t0 now : Z) (token : string) :
  sign c dn homeDirectory uid secret t0 = inr token ->
  verify c (Some token) secret now =
  let p := issue dn homeDirectory uid t0 in
  if now / 1000 >=? exp p then inl (TokenExpiredError (exp p)) else inr p.
Proof.
  unfold sign. destruct (Str.provided secret) as [key|] eqn:Hkey;
    [|discriminate].
  intros H. injection H as <-.
  rewrite (verify_parts _ _ key) by
    (exact Hkey || apply (hs256_compact c Hc)).
  pose proof (hs256_truthy c Hc key
                (signing_input c (issue dn homeDirectory uid t0))) as Ht.
  apply StrFacts.truthy_nonempty, String.eqb_neq in Ht. rewrite Ht.
  rewrite String.eqb_refl. reflexivity.
Qed.

End Lawful.

(** ** The header of a request *)

Lemma bearer_token (token : string) :
  Str.contains " "%char token = false ->
  Server.bearer ("Bearer " +:+ token) = Some token.
Proof.
  intros H. unfold Server.bearer.
  change ("Bearer " +:+ token) with ("Bearer" +:+ String " "%char token).
  rewrite StrFacts.split_app, (StrFacts.split_free _ _ H). reflexivity.
Qed.

(** The first piece of a split is the whole string or a shorter one. *)
Lemma split_first (sep0 : ascii) (s : string) :
  exists (first : string) (more : list string),
    Str.split sep0 s = first :: more
    /\ (first = s \/ (String.length first < String.length s)%nat).
Proof.
  induction s as [|a s (first & more & Heq & Hlen)].
  - exists EmptyString, []. split; [reflexivity|left; reflexivity].
  - simpl. destruct (Ascii.eqb a sep0).
    + exists EmptyString, (Str.split sep0 s). split; [reflexivity|].
      right. simpl. lia.
    + rewrite Heq. exists (String a first), more. split; [reflexivity|].
      destruct Hlen as [->|Hlen]; [left; reflexivity|right; simpl; lia].
Qed.

Lemma flipped_length (s s' : string) :
  flipped s s' -> String.length s = String.length s'.
Proof.
  intros (before & b & b' & after & _ & -> & ->).
  rewrite !StrFacts.app_length. reflexivity.
Qed.

Lemma flipped_differs (s s' : string) : flipped s s' -> s <> s'.
Proof.
  intros (before & b & b' & after & Hb & -> & ->) H.
  apply StrFacts.app_inv_head in H. injection H as H. contradiction.
Qed.

Lemma split_after_free (sep0 : ascii) (a b : string) :
  Str.contains sep0 a = false ->
  exists (first : string) (more : list string),
    Str.split sep0 b = first :: more
    /\ Str.split sep0 (a +:+ b) = (a +:+ first) :: more.
Proof.
  intros Ha. destruct (split_first sep0 b) as (first & more & Heq & _).
  exists first, more. split; [exact Heq|].
  induction a as [|x a IH]; [exact Heq|].
  simpl in Ha. apply orb_false_iff in Ha as [Hx Ha].
  rewrite StrFacts.app_cons. simpl. rewrite Hx, (IH Ha). reflexivity.
Qed.

Lemma split_several (sep0 : ascii) (s : string) :
  Str.contains sep0 s = true ->
  exists (x y : string) (more : list string), Str.split sep0 s = x :: y :: more.
Proof.
  induction s as [|a s IH]; [discriminate|].
  simpl. destruct (Ascii.eqb a sep0) eqn:Ha.
  - intros _. destruct (split_first sep0 s) as (y & more & -> & _).
    exists EmptyString, y, more. reflexivity.
  - simpl. intros H. destruct (IH H) as (x & y & more & ->).
    exists (String a x), y, more. reflexivity.
Qed.

(** Whatever replaces the signature of a token, the token is turned down
    unless the replacement is the signature itself. *)
Lemma verify_forged (c : codec) (Hc : lawful c) (p : payload)
    (key signature' : string) (secret : option string) (now : Z) :
  Str.provided secret = Some key ->
  String.length signature'
    = String.length (hs256 c key (signing_input c p)) ->
  signature' <> hs256 c key (signing_input c p) ->
  exists message : string,
    verify c
      (Server.bearer ("Bearer " +:+ signing_input c p +:+ "." +:+ signature'))
      secret now
    = inl (JsonWebTokenError message).
Proof.
  intros Hkey Hlen Hne.
  set (input := signing_input c p) in *.
  assert (Str.contains " "%char (input +:+ ".") = false) as Hspace.
  { rewrite StrFacts.contains_app. unfold input.
    rewrite (input_spaceless c Hc). reflexivity. }
  destruct (split_after_free " "%char (input +:+ ".") signature' Hspace)
    as (first & more & Hsplit & Hwhole).
  assert (Server.bearer ("Bearer " +:+ input +:+ "." +:+ signature')
          = Some (input +:+ "." +:+ first)) as ->.
  { unfold Server.bearer.
    change ("Bearer " +:+ input +:+ "." +:+ signature')
      with ("Bearer" +:+ String " "%char (input +:+ "." +:+ signature')).
    rewrite StrFacts.split_app. rewrite <- StrFacts.app_assoc, Hwhole.
    rewrite StrFacts.app_assoc. reflexivity. }
  assert (first <> hs256 c key input) as Hfirst.
  { destruct (split_first " "%char signature') as (f & m & Heq & Hshort).
    rewrite Hsplit in Heq. injection Heq as <- <-.
    destruct Hshort as [->|Hshort]; [exact Hne|].
    intros ->. lia. }
  destruct (Str.contains "."%char first) eqn:Hdot.
  - destruct (split_several _ _ Hdot) as (x & y & rest & Hparts).
    exists "jwt malformed"%string. unfold verify.
    assert (Str.provided (Some (input +:+ "." +:+ first))
            = Some (input +:+ "." +:+ first)) as -> by reflexivity.
    rewrite StrFacts.app_cons, StrFacts.app_nil_l, StrFacts.split_app.
    unfold input. rewrite (split_input c Hc), Hparts. reflexivity.
  - unfold input. rewrite (verify_parts c Hc p first key) by assumption.
    destruct (String.eqb first EmptyString); [eauto|].
    apply String.eqb_neq in Hfirst. fold input. rewrite Hfirst. simpl. eauto.
Qed.

End JwtFacts.

(* ===================================================================== *)
(** * The concrete codec is lawful *)
(* ===================================================================== *)

Module ScenarioFacts.

Import Scenario.

Lemma bit_binary (c : ascii) (b : bool) :
  c <> "0"%char -> c <> "1"%char -> Ascii.eqb (bit b) c = false.
Proof.
  intros H0 H1. destruct b; unfold bit; apply Ascii.eqb_neq; congruence.
Qed.

Lemma bits_without (c : ascii) (s : string) :
  c <> "0"%char -> c <> "1"%char -> Str.contains c (bits s) = false.
Proof.
  intros H0 H1. induction s as [|[b0 b1 b2 b3 b4 b5 b6 b7] s IH];
    [reflexivity|].
  cbn [bits Str.contains]. rewrite !bit_binary, IH by assumption. reflexivity.
Qed.

Lemma digits_without (c : ascii) (p : positive) :
  c <> "0"%char -> c <> "1"%char -> Str.contains c (digits p) = false.
Proof.
  intros H0 H1.
  assert (Ascii.eqb "0" c = false) as E0 by (apply Ascii.eqb_neq; congruence).
  assert (Ascii.eqb "1" c = false) as E1 by (apply Ascii.eqb_neq; congruence).
  induction p as [p IH|p IH|]; cbn [digits Str.contains];
    rewrite ?E0, ?E1, ?IH; reflexivity.
Qed.

Lemma number_without (c : ascii) (z : Z) :
  c <> "0"%char -> c <> "1"%char -> Str.contains c (number z) = false.
Proof.
  intros H0 H1.
  assert (Ascii.eqb "0" c = false) as E0 by (apply Ascii.eqb_neq; congruence).
  assert (Ascii.eqb "1" c = false) as E1 by (apply Ascii.eqb_neq; congruence).
  destruct z; cbn [number Str.contains];
    rewrite ?E0, ?E1, ?digits_without by assumption; reflexivity.
Qed.

Lemma unbit_bit (b : bool) : unbit (bit b) = b.
Proof. destruct b; reflexivity. Qed.

Lemma unbits_bits (s : string) (fuel : nat) :
  (String.length s <= fuel)%nat -> unbits fuel (bits s) = Some s.
Proof.
  revert fuel. induction s as [|[b0 b1 b2 b3 b4 b5 b6 b7] s IH]; intros fuel Hf.
  - destruct fuel; reflexivity.
  - destruct fuel as [|fuel]; [simpl in Hf; lia|].
    simpl in Hf. simpl. rewrite IH by lia. rewrite !unbit_bit. reflexivity.
Qed.

Lemma bits_length (s : string) :
  (String.length s <= String.length (bits s))%nat.
Proof.
  induction s as [|[b0 b1 b2 b3 b4 b5 b6 b7] s IH]; simpl; lia.
Qed.

Lemma undigits_digits (p : positive) : undigits (digits p) = p.
Proof. induction p as [p IH|p IH|]; simpl; rewrite ?IH; reflexivity. Qed.

Lemma unnumber_number (z : Z) : unnumber (number z) = Some z.
Proof. destruct z; simpl; rewrite ?undigits_digits; reflexivity. Qed.

Lemma scrub_compact (s : string) : Jwt.compact (scrub s).
Proof.
  split; induction s as [|a s IH]; try reflexivity;
    cbn [scrub Str.contains]; rewrite IH;
    destruct (Ascii.eqb a ".") eqn:E1, (Ascii.eqb a " ") eqn:E2;
    cbn [orb]; rewrite ?E1, ?E2; reflexivity.
Qed.

Lemma decode_encoded (p : Jwt.payload) : decode (encode p) = Some p.
Proof.
  unfold decode, encode.
  rewrite (StrFacts.split_join "_"%char).
  - rewrite !unbits_bits by apply bits_length.
    rewrite !unnumber_number. destruct p; reflexivity.
  - discriminate.
  - repeat constructor;
      (apply bits_without || apply number_without); discriminate.
Qed.

Lemma encode_is_compact (p : Jwt.payload) : Jwt.compact (encode p).
Proof.
  split; apply StrFacts.contains_join; try reflexivity;
    repeat constructor;
      (apply bits_without || apply number_without); discriminate.
Qed.

Lemma tag_compact (key input : string) : Jwt.compact (tag key input).
Proof.
  destruct (scrub_compact input) as [H1 H2].
  split; unfold tag; rewrite !StrFacts.contains_app, ?H1, ?H2,
    bits_without by discriminate; reflexivity.
Qed.

Lemma tag_truthy (key input : string) : Str.truthy (tag key input) = true.
Proof. unfold tag. apply StrFacts.truthy_app_r. reflexivity. Qed.

Lemma codec_lawful : Jwt.lawful codec.
Proof.
  constructor.
  - exact decode_encoded.
  - exact encode_is_compact.
  - exact tag_compact.
  - exact tag_truthy.
Qed.

End ScenarioFacts.

(* ===================================================================== *)
(** * Facts about the handlers *)
(* ===================================================================== *)

Module ServerFacts.

Import Http Server.
Local Open Scope js_scope.

(** ** Worlds *)

Lemma logged_logged (w : world) (a b : list event) :
  logged (logged w a) b = logged w (a ++ b).
Proof. unfold logged. simpl. rewrite <- app_assoc. reflexivity. Qed.

Lemma logged_nil (w : world) : logged w [] = w.
Proof. destruct w. unfold logged. simpl. rewrite app_nil_r. reflexivity. Qed.

Lemma emit_eq (e : event) (w : world) : emit e w = (inr tt, logged w [e]).
Proof. reflexivity. Qed.

Lemma responses_app (a b : list event) :
  responses (a ++ b) = responses a ++ responses b.
Proof. apply omap_app. Qed.

Lemma audits_app (a b : list event) : audits (a ++ b) = audits a ++ audits b.
Proof. apply omap_app. Qed.

(** ** Layers *)

Lemma bind_eq {A B : Type} (m : M A) (k : A -> M B) (w : world) :
  bind m k w =
  match m w with
  | (inr a, w') => k a w'
  | (inl e, w') => (inl e, w')
  end.
Proof. reflexivity. Qed.

Lemma layer_eq (m : M (option request)) (w : world) :
  layer m w =
  match m w with
  | (inr r, w') => (inr r, w')
  | (inl e, w') =>
      (inr None, logged w' [Sent {| status := 500; content := ErrorPage e |}])
  end.
Proof. unfold layer, try_catch. destruct (m w) as [[e|r] w']; reflexivity. Qed.

Lemma handler_eq (m : M unit) (w : world) :
  handler m w =
  match m w with
  | (inr u, w') => (inr u, w')
  | (inl e, w') =>
      (inr tt, logged w' [Sent {| status := 500; content := ErrorPage e |}])
  end.
Proof. unfold handler, try_catch. destruct (m w) as [[e|r] w']; reflexivity. Qed.

Lemma chain_eq (m : M (option request)) (rest : request -> M unit) (w : world) :
  chain m rest w =
  match m w with
  | (inr (Some req), w') => rest req w'
  | (inr None, w') => (inr tt, w')
  | (inl e, w') => (inl e, w')
  end.
Proof. unfold chain, bind. destruct (m w) as [[e|[req|]] w']; reflexivity. Qed.

Section Handlers.

Context (E : env).

(** ** [jwtMiddleware]: its three ways out *)
Lemma jwtMiddleware_eq (req : request) (w : world) :
  jwtMiddleware E req w =
  match Str.provided (authorization req) with
  | None => (inr None, logged w [Sent missing_header])
  | Some authHeader =>
      match Jwt.verify (jwt E) (bearer authHeader) (JWT_SECRET E) (now w) with
      | inr decoded => (inr (Some (with_user req decoded)), w)
      | inl e => (inr None, rejected w e)
      end
  end.
Proof.
  destruct w as [m t tr].
  cbv [jwtMiddleware try_catch jwt_verify bind clock next ret throw
       console_error send_json emit rejected logged fs now trace].
  destruct (Str.provided (authorization req)) as [authHeader|]; [|reflexivity].
  destruct (Jwt.verify (jwt E) (bearer authHeader) (JWT_SECRET E) t);
    [|reflexivity].
  rewrite <- app_assoc. reflexivity.
Qed.

(** ** [audit] *)

Lemma on_disk_same (w : world) : on_disk w (fs w) = w.
Proof. destruct w. reflexivity. Qed.

(** What [audit] does, step by step: the call is observed, the directory
    is made when it is missing, and the line is appended. *)
Lemma audit_eq (action : string) (filename : option string) (uid : string)
    (w : world) :
  audit E action filename (Some uid) w =
  let w1 := logged w [AuditCall action filename (Some uid)] in
  let line :=
    Str.bytes (auditMessage (toISOString E (now w)) action filename uid) in
  match (if Fs.existsSync (fs w) (auditDir E) then Fs.Ok (fs w)
         else Fs.mkdirp (fs w) (auditDir E)) with
  | Fs.Err e => (inl (FsException e (auditDir E)), w1)
  | Fs.Ok m1 =>
      match Fs.appendFile m1 (auditFilePath E) line with
      | Fs.Ok m2 => (inr tt, on_disk w1 m2)
      | Fs.Err e => (inl (FsException e (auditFilePath E)), on_disk w1 m1)
      end
  end.
Proof.
  destruct w as [m t tr].
  cbv [audit bind clock existsSync fs_update disk set_disk ret throw emit
       logged on_disk fs now trace].
  destruct (Fs.existsSync m (auditDir E)); cbv [negb].
  - destruct (Fs.appendFile m (auditFilePath E) _); reflexivity.
  - destruct (Fs.mkdirp m (auditDir E)) as [m1|e]; [|reflexivity].
    destruct (Fs.appendFile m1 (auditFilePath E) _); reflexivity.
Qed.

Lemma appendFile_eq (m : gmap string Fs.node) (data : list Z) :
  Fs.appendFile m (auditFilePath E) data =
  if appendable m (auditFilePath E)
  then Fs.Ok (<[auditFilePath E := Fs.File (audit_log E m ++ data)]> m)
  else match m !! auditFilePath E with
       | Some _ => Fs.Err Fs.EISDIR
       | None => Fs.Err Fs.ENOENT
       end.
Proof.
  unfold Fs.appendFile, appendable, audit_log.
  destruct (m !! auditFilePath E) as [[old|]|]; reflexivity.
Qed.

Lemma existsSync_insert (m : gmap string Fs.node) (p q : string) (n : Fs.node) :
  Fs.existsSync m p = true -> Fs.existsSync (<[q := n]> m) p = true.
Proof.
  unfold Fs.existsSync. destruct (String.eqb p "/"); [reflexivity|].
  cbn [orb]. destruct (decide (q = p)) as [->|Hne].
  - rewrite lookup_insert_eq. reflexivity.
  - rewrite lookup_insert_ne by assumption. trivial.
Qed.

Lemma auditDir_truthy : Str.truthy (auditDir E) = true.
Proof. apply PathFacts.join_truthy_path. Qed.

Lemma elsewhere_of_same (m m' : gmap string Fs.node) :
  Fs.same_files m m' -> elsewhere E m m'.
Proof. intros H q data _. apply H. Qed.

Lemma elsewhere_insert (m m' : gmap string Fs.node) (n : Fs.node) :
  elsewhere E m m' -> elsewhere E m (<[auditFilePath E := n]> m').
Proof.
  intros H q data Hq. rewrite lookup_insert_ne by congruence. apply H, Hq.
Qed.

(** Whatever happens, [audit] is observed once, leaves the clock alone and
    touches no regular file but the log. *)
Lemma audit_any (action : string) (filename : option string) (uid : string)
    (w : world) :
  exists (res : exception + unit) (m' : gmap string Fs.node),
    audit E action filename (Some uid) w
    = (res, on_disk (logged w [AuditCall action filename (Some uid)]) m')
    /\ elsewhere E (fs w) m'.
Proof.
  rewrite audit_eq. cbv zeta.
  set (w1 := logged w [AuditCall action filename (Some uid)]).
  assert (forall res : exception + unit,
            (res, w1) = (res, on_disk w1 (fs w))) as Hsame
    by (intros res; rewrite <- (on_disk_same w1) at 1; reflexivity).
  destruct (Fs.existsSync (fs w) (auditDir E)).
  - rewrite appendFile_eq.
    destruct (appendable (fs w) (auditFilePath E)).
    + eexists _, _. split; [reflexivity|].
      apply elsewhere_insert, elsewhere_of_same, FsFacts.same_files_refl.
    + destruct (fs w !! auditFilePath E); eexists _, _;
        (split; [reflexivity|apply elsewhere_of_same, FsFacts.same_files_refl]).
  - destruct (Fs.mkdirp (fs w) (auditDir E)) as [m1|e] eqn:Hmk.
    + pose proof (FsFacts.mkdirp_files _ _ _ Hmk) as Hfiles.
      rewrite appendFile_eq.
      destruct (appendable m1 (auditFilePath E)).
      * eexists _, _. split; [reflexivity|].
        apply elsewhere_insert, elsewhere_of_same, Hfiles.
      * destruct (m1 !! auditFilePath E); eexists _, _;
          (split; [reflexivity|apply elsewhere_of_same, Hfiles]).
    + eexists _, _. split; [apply Hsame|].
      apply elsewhere_of_same, FsFacts.same_files_refl.
Qed.

(** On a disk that is ready, [audit] succeeds: the line is appended to the
    log, and the disk is ready for the next call. *)
Lemma audit_ok (action : string) (filename : option string) (uid : string)
    (w : world) :
  audit_ready E (fs w) = true ->
  exists m' : gmap string Fs.node,
    audit E action filename (Some uid) w
    = (inr tt, on_disk (logged w [AuditCall action filename (Some uid)]) m')
    /\ audit_log E m'
       = audit_log E (fs w)
         ++ Str.bytes (auditMessage (toISOString E (now w)) action filename uid)
    /\ audit_ready E m' = true
    /\ elsewhere E (fs w) m'.
Proof.
  intros Hready. rewrite audit_eq. cbv zeta.
  unfold audit_ready in Hready.
  assert (forall m1 data,
            Fs.existsSync m1 (auditDir E) = true ->
            audit_ready E (<[auditFilePath E := Fs.File data]> m1) = true)
    as Hnext.
  { intros m1 data Hex. unfold audit_ready.
    rewrite (existsSync_insert _ _ _ _ Hex). unfold appendable.
    rewrite lookup_insert_eq. reflexivity. }
  assert (forall m1 data,
            audit_log E (<[auditFilePath E := Fs.File data]> m1) = data)
    as Hlog.
  { intros m1 data. unfold audit_log. rewrite lookup_insert_eq. reflexivity. }
  destruct (Fs.existsSync (fs w) (auditDir E)) eqn:Hex.
  - rewrite appendFile_eq, Hready. eexists. split; [reflexivity|].
    split; [apply Hlog|]. split; [apply Hnext, Hex|].
    apply elsewhere_insert, elsewhere_of_same, FsFacts.same_files_refl.
  - destruct (Fs.mkdirp (fs w) (auditDir E)) as [m1|e] eqn:Hmk; [|discriminate].
    pose proof (FsFacts.mkdirp_files _ _ _ Hmk) as Hfiles.
    rewrite appendFile_eq, Hready. eexists. split; [reflexivity|].
    split; [|split].
    + rewrite Hlog. f_equal. unfold audit_log.
      destruct (fs w !! auditFilePath E) as [[old|]|] eqn:Hold.
      * apply Hfiles in Hold. rewrite Hold. reflexivity.
      * destruct (m1 !! auditFilePath E) as [[new|]|] eqn:Hnew; try reflexivity.
        apply Hfiles in Hnew. congruence.
      * destruct (m1 !! auditFilePath E) as [[new|]|] eqn:Hnew; try reflexivity.
        apply Hfiles in Hnew. congruence.
    + apply Hnext. unfold Fs.existsSync.
      rewrite (FsFacts.mkdirp_exists _ _ _ auditDir_truthy Hmk).
      apply orb_true_r.
    + apply elsewhere_insert, elsewhere_of_same, Hfiles.
Qed.

(** ** Routes behind [jwtMiddleware] and [auditMiddleware] *)

Lemma auditMiddleware_eq (action : string) (req : request) (p : Jwt.payload)
    (w : world) :
  user req = Some p ->
  auditMiddleware E action req w =
  match audit E action (filename_of req) (Some (Jwt.uid p)) w with
  | (inr _, w') => (inr (Some req), w')
  | (inl e, w') => (inl e, w')
  end.
Proof.
  intros Hu. unfold auditMiddleware. rewrite Hu. cbn [fmap option_fmap option_map].
  rewrite bind_eq.
  destruct (audit E action (filename_of req) (Some (Jwt.uid p)) w)
    as [[e|[]] w']; reflexivity.
Qed.

(** A route that runs [jwtMiddleware], then [auditMiddleware], then its
    own last layer. *)
Lemma gated_audited (action : string) (last : request -> M unit)
    (req : request) (w : world) :
  (req <~ jwtMiddleware E req ;;
   req <~ auditMiddleware E action req ;;
   last req) w =
  match Str.provided (authorization req) with
  | None => (inr tt, logged w [Sent missing_header])
  | Some authHeader =>
      match Jwt.verify (jwt E) (bearer authHeader) (JWT_SECRET E) (now w) with
      | inl e => (inr tt, rejected w e)
      | inr p =>
          let req1 := with_user req p in
          match audit E action (filename_of req1) (Some (Jwt.uid p)) w with
          | (inr _, w2) => last req1 w2
          | (inl e, w2) =>
              (inr tt,
               logged w2 [Sent {| status := 500; content := ErrorPage e |}])
          end
      end
  end.
Proof.
  rewrite chain_eq, layer_eq, jwtMiddleware_eq.
  destruct (Str.provided (authorization req)) as [authHeader|]; [|reflexivity].
  destruct (Jwt.verify (jwt E) (bearer authHeader) (JWT_SECRET E) (now w))
    as [e|p]; [reflexivity|].
  rewrite chain_eq, layer_eq.
  rewrite (auditMiddleware_eq action (with_user req p) p) by reflexivity.
  cbv zeta.
  destruct (audit E action (filename_of (with_user req p)) (Some (Jwt.uid p)) w)
    as [[e|[]] w2]; reflexivity.
Qed.

(** ** The last layers *)

Lemma delete_file_eq (req : request) (p : Jwt.payload) (f : string) (w : world) :
  user req = Some p -> params_filename req = Some f ->
  handler (delete_file req) w =
  let path := filePath (Jwt.homeDirectory p) f in
  match Fs.unlink (fs w) path with
  | Fs.Ok m' =>
      (inr tt,
       logged (on_disk w m')
         [Sent {| status := 200;
                  content := Json (JObject [("message"%string,
                               JString "File deleted successfully")]) |}])
  | Fs.Err e =>
      (inr tt,
       logged w [ConsoleError "Error deleting file: " (FsException e path);
                 Sent internal_error])
  end.
Proof.
  intros Hu Hf. destruct w as [m t tr].
  cbv [handler delete_file with_target try_catch bind fs_update disk set_disk
       ret throw console_error send_json emit logged on_disk fs now trace].
  rewrite Hu, Hf.
  destruct (Fs.unlink m (filePath (Jwt.homeDirectory p) f)) as [m'|e].
  - reflexivity.
  - unfold internal_error. rewrite <- app_assoc. reflexivity.
Qed.

Lemma download_file_eq (req : request) (p : Jwt.payload) (f : string)
    (w : world) :
  user req = Some p -> params_filename req = Some f ->
  handler (download_file req) w =
  let path := filePath (Jwt.homeDirectory p) f in
  if Str.starts_with "." (Path.basename path) then
    (inr tt,
     logged w [ConsoleError "Error downloading file:" (SendError 404);
               Sent internal_error])
  else
    match Fs.readFile (fs w) path with
    | Fs.Ok data =>
        (inr tt,
         logged w [Sent {| status := 200;
                           content := Attachment (Path.basename path) data |}])
    | Fs.Err e =>
        (inr tt,
         logged w [ConsoleError "Error downloading file:" (FsException e path);
                   Sent internal_error])
    end.
Proof.
  intros Hu Hf. destruct w as [m t tr].
  cbv [handler download_file with_target try_catch bind fs_read disk
       ret throw console_error send_json emit logged on_disk fs now trace].
  rewrite Hu, Hf.
  destruct (Str.starts_with "."
              (Path.basename (filePath (Jwt.homeDirectory p) f))).
  - unfold internal_error. rewrite <- app_assoc. reflexivity.
  - destruct (Fs.readFile m (filePath (Jwt.homeDirectory p) f)) as [data|e].
    + reflexivity.
    + unfold internal_error. rewrite <- app_assoc. reflexivity.
Qed.

Lemma view_file_eq (req : request) (p : Jwt.payload) (f : string) (w : world) :
  user req = Some p -> params_filename req = Some f ->
  async_handler (view_file req) w =
  let path := filePath (Jwt.homeDirectory p) f in
  match Fs.readFile (fs w) path with
  | Fs.Ok data =>
      (inr tt,
       logged w [Sent {| status := 200;
                         content := Json (JObject [("content"%string,
                                      JText (Utf8.decode data))]) |}])
  | Fs.Err e =>
      (inr tt,
       logged w [ConsoleError "Error reading file:" (FsException e path);
                 Sent {| status := 500;
                         content := Json (JObject [("error"%string,
                                      JString "Error reading file")]) |}])
  end.
Proof.
  intros Hu Hf. destruct w as [m t tr].
  cbv [async_handler view_file with_target try_catch bind fs_read disk
       ret throw console_error send_json emit logged on_disk fs now trace].
  rewrite Hu, Hf.
  destruct (Fs.readFile m (filePath (Jwt.homeDirectory p) f)) as [data|e].
  - reflexivity.
  - rewrite <- app_assoc. reflexivity.
Qed.

(** ** Upload *)

Lemma upload_single_eq (req : request) (p : Jwt.payload) (part : part)
    (w : world) :
  user req = Some p -> multipart_file req = Some part ->
  Str.truthy (originalname part) = true ->
  upload_single req w =
  let filename := pretty (now w) +:+ "-" +:+ originalname part in
  let finalPath :=
    Path.join [Path.join [Jwt.homeDirectory p; "uploads"%string]; filename] in
  match Fs.writeFile (fs w) finalPath (bytes part) false with
  | Fs.Ok m' => (inr (Some (with_file req filename)), on_disk w m')
  | Fs.Err e => (inl (FsException e finalPath), w)
  end.
Proof.
  intros Hu Hpart Hname. destruct w as [m t tr].
  unfold upload_single. rewrite Hpart, Hu, (StrFacts.provided_truthy _ Hname).
  cbv [bind clock fs_update disk set_disk ret throw next on_disk fs now trace].
  destruct (Fs.writeFile m _ (bytes part) false); reflexivity.
Qed.

Lemma upload_done_eq (req : request) (filename : string) (w : world) :
  file_filename req = Some filename ->
  handler (upload_done req) w =
  (inr tt,
   logged w [Sent {| status := 200;
                     content := Json (JObject
                       [("message", JString "File uploaded successfully");
                        ("filename", JString filename)]%string) |}]).
Proof.
  intros Hf. unfold handler, try_catch, upload_done. rewrite Hf. reflexivity.
Qed.

(** ** Listing *)

Lemma list_files_eq (req : request) (w : world) :
  async_handler (list_files E req) w =
  let failed (e : exception) :=
    (inr tt,
     logged w [ConsoleError "Error listing files:" e;
               Sent {| status := 500;
                       content := Json (JObject [("error"%string,
                                    JString "Error listing files")]) |}]) in
  match authorization req with
  | None =>
      failed (TypeError "Cannot read properties of undefined (reading 'split')")
  | Some authHeader =>
      match Jwt.verify (jwt E) (bearer authHeader) (JWT_SECRET E) (now w) with
      | inl e => failed (JwtException e)
      | inr user =>
          let dir :=
            Path.join [dirname E; "/home/"; Jwt.uid user; "uploads"]%string in
          match Fs.readdir (fs w) dir with
          | Fs.Err e => failed (FsException e dir)
          | Fs.Ok files =>
              (inr tt,
               logged w [Sent {| status := 200;
                 content := Json (JObject [("files"%string,
                   JArray (List.map
                     (fun filename =>
                        JObject [("name"%string, JString filename)])
                     files))]) |}])
          end
      end
  end.
Proof.
  destruct w as [m t tr].
  cbv [async_handler list_files try_catch bind jwt_verify clock fs_read disk
       ret throw console_error send_json emit logged on_disk fs now trace].
  destruct (authorization req) as [authHeader|];
    [|rewrite <- app_assoc; reflexivity].
  destruct (Jwt.verify (jwt E) (bearer authHeader) (JWT_SECRET E) t)
    as [e|user]; [rewrite <- app_assoc; reflexivity|].
  destruct (Fs.readdir m _) as [files|e];
    [reflexivity|rewrite <- app_assoc; reflexivity].
Qed.

(** ** Login *)

(** A login the directory service turns down: the error goes to the
    console, [audit] is called for the attempted name, and only if that
    call returns is an answer sent. *)
Lemma login_rejected_eq (req : request) (username password error : string)
    (w : world) :
  Str.provided (body_username req) = Some username ->
  Str.provided (body_password req) = Some password ->
  authenticate E username password = LdapError error ->
  post_login E req w =
  let w1 :=
    logged w [ConsoleError "LDAP authentication error:" (LdapException error)] in
  match audit E "failed login" None (Some username) w1 with
  | (inr _, w2) => (inr tt, logged w2 [Sent (authentication_failed error)])
  | (inl e, w2) => (inr tt, logged w2 [Unhandled e])
  end.
Proof.
  intros Hu Hp Hauth.
  unfold post_login, async_handler, try_catch, login. rewrite Hu, Hp.
  unfold ldapAuth. rewrite Hauth.
  rewrite !bind_eq. unfold console_error. rewrite emit_eq.
  unfold ret at 1. rewrite bind_eq. cbv zeta.
  destruct (audit E "failed login" None (Some username) _) as [[e|[]] w2];
    reflexivity.
Qed.

End Handlers.

End ServerFacts.

(* ===================================================================== *)
(** * The session verifier *)
(* ===================================================================== *)

Module Session.

Import Http Server.

(** A clock reading, in milliseconds, against an expiry, in seconds. *)
Lemma before_expiry (t0 t : Z) :
  (t + 1000 <= t0 + 3600000 -> (t / 1000 <? t0 / 1000 + 3600) = true)
  /\ (t0 + 3600000 <= t -> (t / 1000 <? t0 / 1000 + 3600) = false).
Proof.
  assert ((t0 + 3600000) / 1000 = t0 / 1000 + 3600) as Hhour
    by (replace (t0 + 3600000) with (t0 + 3600 * 1000) by lia;
        apply Z.div_add; lia).
  split; intros H.
  - apply Z.ltb_lt.
    assert ((t + 1000) / 1000 = t / 1000 + 1) as Hnext
      by (replace (t + 1000) with (t + 1 * 1000) by lia;
          apply Z.div_add; lia).
    pose proof (Z.div_le_mono (t + 1000) (t0 + 3600000) 1000 ltac:(lia) H).
    lia.
  - apply Z.ltb_ge.
    pose proof (Z.div_le_mono (t0 + 3600000) t 1000 ltac:(lia) H).
    lia.
Qed.


(** C4, as the code has it.  [jwtMiddleware] has two answers, not three:
    without an [Authorization] header it answers 401 "Authorization header
    is missing"; with one, whatever makes [jwt.verify] throw (no token
    after the scheme, a malformed token, a bad signature, an expired
    token) gets the same 401 "Invalid or missing token", the cause going
    to the console only. *)
Theorem C4_two_rejections (E : env) (req : request) (w : world) :
  jwtMiddleware E req w =
  match Str.provided (authorization req) with
  | None => (inr None, logged w [Sent missing_header])
  | Some authHeader =>
      match Jwt.verify (jwt E) (bearer authHeader) (JWT_SECRET E) (now w) with
      | inr decoded => (inr (Some (with_user req decoded)), w)
      | inl e =>
          (inr None,
           logged w [ConsoleError "Error in token verification:"
                       (JwtException e);
                     Sent invalid_token])
      end
  end.
Proof. apply ServerFacts.jwtMiddleware_eq. Qed.

End Session.

(* ===================================================================== *)
(** * Login failures *)
(* ===================================================================== *)

Module LoginFailure.

Import Http Server.

(** The world after a login the directory service turned down, on a disk
    that lets [audit] write. *)
Lemma rejected_login_world (E : env) (req : request)
    (username password error : string) (w : world) :
  Str.provided (body_username req) = Some username ->
  Str.provided (body_password req) = Some password ->
  authenticate E username password = LdapError error ->
  audit_ready E (fs w) = true ->
  exists m' : gmap string Fs.node,
    run (post_login E req) w
    = logged (on_disk w m')
        [ConsoleError "LDAP authentication error:" (LdapException error);
         AuditCall "failed login" None (Some username);
         Sent (authentication_failed error)]
    /\ audit_log E m'
       = audit_log E (fs w)
         ++ Str.bytes (auditMessage (toISOString E (now w)) "failed login"
                         None username).
Proof.
  intros Hu Hp Hauth Hready. unfold run.
  rewrite (ServerFacts.login_rejected_eq E req username password error w)
    by assumption.
  cbv zeta.
  destruct (ServerFacts.audit_ok E "failed login" None username
              (logged w [ConsoleError "LDAP authentication error:"
                           (LdapException error)]) Hready)
    as (m' & -> & Hlog & _ & _).
  exists m'. split; [|exact Hlog].
  destruct w as [m t tr]. unfold logged, on_disk. cbn [snd fs now trace].
  rewrite <- !app_assoc. reflexivity.
Qed.

(** C2, as the code has it.  A login the directory service turns down is
    answered with status 500, and the body holds, beside the generic
    message, an [error] field with the text of the directory-service
    error. *)
Theorem C2_rejected_login_answer (E : env) (req : request)
    (username password error : string) (w : world) :
  Str.provided (body_username req) = Some username ->
  Str.provided (body_password req) = Some password ->
  authenticate E username password = LdapError error ->
  audit_ready E (fs w) = true ->
  responses (trace (run (post_login E req) w))
  = responses (trace w)
    ++ [{| status := 500;
           content := Json (JObject
             [("success", JBool false);
              ("message", JString "Authentication failed");
              ("error", JString error)]%string) |}].
Proof.
  intros Hu Hp Hauth Hready.
  destruct (rejected_login_world E req username password error w Hu Hp Hauth
              Hready) as (m' & -> & _).
  cbn [logged trace]. rewrite ServerFacts.responses_app. reflexivity.
Qed.

End LoginFailure.

(* ===================================================================== *)
(** * The file operations and the audit recorder *)
(* ===================================================================== *)

Module Gateway.

Import Http Server.
Local Open Scope js_scope.

Section Routes.

Context (E : env).

Lemma filename_of_param (req : request) (p : Jwt.payload) (f : string) :
  Str.provided (params_filename req) = Some f ->
  filename_of (with_user req p) = Some f
  /\ params_filename (with_user req p) = Some f
  /\ user (with_user req p) = Some p.
Proof.
  intros Hf. unfold filename_of. cbn [with_user params_filename user].
  rewrite Hf. apply StrFacts.provided_Some in Hf as [-> _]. auto.
Qed.

(** A request with a valid token and a file name, on a route that audits:
    [audit] runs first, on the world the request came to, and the last
    layer runs only when [audit] returned. *)
Lemma audited_route (action : string) (last : request -> M unit)
    (req : request) (authHeader : string) (p : Jwt.payload) (f : string)
    (w : world) :
  Str.provided (authorization req) = Some authHeader ->
  Jwt.verify (jwt E) (bearer authHeader) (JWT_SECRET E) (now w) = inr p ->
  Str.provided (params_filename req) = Some f ->
  exists (res : exception + unit) (m' : gmap string Fs.node),
    let w1 :=
      on_disk (logged w [AuditCall action (Some f) (Some (Jwt.uid p))]) m' in
    audit E action (Some f) (Some (Jwt.uid p)) w = (res, w1)
    /\ elsewhere E (fs w) m'
    /\ (req <~ jwtMiddleware E req ;;
        req <~ auditMiddleware E action req ;;
        last req) w
       = match res with
         | inr _ => last (with_user req p) w1
         | inl e =>
             (inr tt,
              logged w1 [Sent {| status := 500; content := ErrorPage e |}])
         end.
Proof.
  intros Hauth Hverify Hf.
  destruct (ServerFacts.audit_any E action (Some f) (Jwt.uid p) w)
    as (res & m' & Haudit & Helse).
  exists res, m'. cbv zeta. split; [exact Haudit|]. split; [exact Helse|].
  rewrite ServerFacts.gated_audited, Hauth, Hverify. cbv zeta.
  destruct (filename_of_param req p f Hf) as (-> & _ & _).
  rewrite Haudit. destruct res as [e|[]]; reflexivity.
Qed.

Lemma audit_fails (action : string) (filename : option string) (uid : string)
    (w : world) :
  audit_ready E (fs w) = false ->
  exists (e : exception) (w' : world),
    audit E action filename (Some uid) w = (inl e, w').
Proof.
  intros Hready. rewrite ServerFacts.audit_eq. cbv zeta.
  unfold audit_ready in Hready.
  destruct (Fs.existsSync (fs w) (auditDir E)).
  - rewrite ServerFacts.appendFile_eq, Hready.
    destruct (fs w !! auditFilePath E); eauto.
  - destruct (Fs.mkdirp (fs w) (auditDir E)) as [m1|e]; [|eauto].
    rewrite ServerFacts.appendFile_eq, Hready.
    destruct (m1 !! auditFilePath E); eauto.
Qed.

(** Events that hold no call of [audit] leave the list of calls as it
    was. *)
Lemma silent (w : world) (events : list event) :
  audits events = [] ->
  audits (trace (snd (@inr exception unit tt, logged w events)))
  = audits (trace w).
Proof.
  intros H. cbn [snd logged trace].
  rewrite ServerFacts.audits_app, H. apply app_nil_r.
Qed.

End Routes.

(** C5, as the code has it.  Delete, download and view of a request that
    passed [jwtMiddleware] call [audit] with their action and the file
    name before anything is answered, and then answer once; so does an
    upload whose file was stored, with the stored name.  Listing never
    calls [audit], whether it succeeds or fails. *)
Theorem C5_audit_call_precedes_answer (E : env) (req : request)
    (authHeader : string) (p : Jwt.payload) (f : string) (w : world) :
  Str.provided (authorization req) = Some authHeader ->
  Jwt.verify (jwt E) (bearer authHeader) (JWT_SECRET E) (now w) = inr p ->
  Str.provided (params_filename req) = Some f ->
  audited_first "delete" (Some f) (Jwt.uid p) w (run (delete_delete E req) w)
  /\ audited_first "download" (Some f) (Jwt.uid p) w
       (run (get_download E req) w)
  /\ audited_first "view" (Some f) (Jwt.uid p) w (run (get_view E req) w)
  /\ (forall (upload : request) (part : part) (m' : gmap string Fs.node),
        authorization upload = authorization req ->
        params_filename upload = None ->
        multipart_file upload = Some part ->
        Str.truthy (originalname part) = true ->
        let stored := pretty (now w) +:+ "-" +:+ originalname part in
        Fs.writeFile (fs w)
          (Path.join [Path.join [Jwt.homeDirectory p; "uploads"%string]; stored])
          (bytes part) false = Fs.Ok m' ->
        audited_first "upload" (Some stored) (Jwt.uid p) w
          (run (post_upload E upload) w))
  /\ (forall (listing : request) (w0 : world),
        audits (trace (run (get_files E listing) w0)) = audits (trace w0)).
Proof.
  intros Hauth Hverify Hf.
  destruct (filename_of_param req p f Hf) as (_ & Hparam & Huser).
  split; [|split; [|split; [|split]]].
  - destruct (audited_route E "delete" (fun r => handler (delete_file r))
                req authHeader p f w Hauth Hverify Hf)
      as (res & m' & _ & _ & Hroute).
    unfold run, delete_delete. rewrite Hroute. clear Hroute.
    destruct res as [e|[]].
    + eexists. split; [cbn; rewrite <- app_assoc; reflexivity|reflexivity].
    + rewrite (ServerFacts.delete_file_eq _ p f) by assumption. cbv zeta.
      destruct (Fs.unlink _ _);
        (eexists; split; [cbn; rewrite <- app_assoc; reflexivity|reflexivity]).
  - destruct (audited_route E "download" (fun r => handler (download_file r))
                req authHeader p f w Hauth Hverify Hf)
      as (res & m' & _ & _ & Hroute).
    unfold run, get_download. rewrite Hroute. clear Hroute.
    destruct res as [e|[]].
    + eexists. split; [cbn; rewrite <- app_assoc; reflexivity|reflexivity].
    + rewrite (ServerFacts.download_file_eq _ p f) by assumption. cbv zeta.
      destruct (Str.starts_with _ _); [|destruct (Fs.readFile _ _)];
        (eexists; split; [cbn; rewrite <- app_assoc; reflexivity|reflexivity]).
  - destruct (audited_route E "view" (fun r => async_handler (view_file r))
                req authHeader p f w Hauth Hverify Hf)
      as (res & m' & _ & _ & Hroute).
    unfold run, get_view. rewrite Hroute. clear Hroute.
    destruct res as [e|[]].
    + eexists. split; [cbn; rewrite <- app_assoc; reflexivity|reflexivity].
    + rewrite (ServerFacts.view_file_eq _ p f) by assumption. cbv zeta.
      destruct (Fs.readFile _ _);
        (eexists; split; [cbn; rewrite <- app_assoc; reflexivity|reflexivity]).
  - intros upload part m' Hsame Hnone Hpart Hname stored Hwrite.
    unfold run, post_upload.
    rewrite ServerFacts.chain_eq, ServerFacts.layer_eq,
      ServerFacts.jwtMiddleware_eq, Hsame, Hauth, Hverify.
    rewrite ServerFacts.chain_eq, ServerFacts.layer_eq.
    rewrite (ServerFacts.upload_single_eq (with_user upload p) p part)
      by (reflexivity || assumption).
    cbv zeta. fold stored. rewrite Hwrite.
    rewrite ServerFacts.chain_eq, ServerFacts.layer_eq.
    rewrite (ServerFacts.auditMiddleware_eq E "upload" _ p) by reflexivity.
    assert (filename_of (with_file (with_user upload p) stored) = Some stored)
      as -> by (unfold filename_of; cbn; rewrite Hnone; reflexivity).
    destruct (ServerFacts.audit_any E "upload" (Some stored) (Jwt.uid p)
                (on_disk w m')) as (res & m2 & -> & _).
    destruct res as [e|[]].
    + eexists. split; [cbn; rewrite <- app_assoc; reflexivity|reflexivity].
    + rewrite (ServerFacts.upload_done_eq _ stored) by reflexivity.
      eexists. split; [cbn; rewrite <- app_assoc; reflexivity|reflexivity].
  - intros listing w0. unfold run, get_files.
    rewrite ServerFacts.chain_eq, ServerFacts.layer_eq,
      ServerFacts.jwtMiddleware_eq.
    destruct (Str.provided (authorization listing)) as [h|];
      [|apply silent; reflexivity].
    destruct (Jwt.verify (jwt E) (bearer h) (JWT_SECRET E) (now w0)) as [e|q];
      [apply silent; reflexivity|].
    rewrite ServerFacts.list_files_eq. cbv zeta.
    destruct (authorization (with_user listing q)) as [h'|];
      [|apply silent; reflexivity].
    destruct (Jwt.verify (jwt E) (bearer h') (JWT_SECRET E) (now w0));
      [apply silent; reflexivity|].
    destruct (Fs.readdir _ _); apply silent; reflexivity.
Qed.

(** C6, as the code has it.  [audit] has no handler for a failed write:
    when the disk does not let it write, the exception leaves the audit
    middleware, the answer of delete, download and view is Express's
    error page with status 500, and the operation itself is not run, so
    no file but the audit log has changed. *)
Theorem C6_audit_failure_reaches_caller (E : env) (req : request)
    (authHeader : string) (p : Jwt.payload) (f : string) (w : world) :
  Str.provided (authorization req) = Some authHeader ->
  Jwt.verify (jwt E) (bearer authHeader) (JWT_SECRET E) (now w) = inr p ->
  Str.provided (params_filename req) = Some f ->
  audit_ready E (fs w) = false ->
  refused_by_audit E w (run (delete_delete E req) w)
  /\ refused_by_audit E w (run (get_download E req) w)
  /\ refused_by_audit E w (run (get_view E req) w).
Proof.
  intros Hauth Hverify Hf Hready.
  assert (forall (action : string) (last : request -> M unit),
            refused_by_audit E w
              (run (req <~ jwtMiddleware E req ;;
                    req <~ auditMiddleware E action req ;;
                    last req) w)) as Hany.
  { intros action last.
    destruct (audited_route E action last req authHeader p f w Hauth Hverify Hf)
      as (res & m' & Haudit & Helse & Hroute).
    destruct (audit_fails E action (Some f) (Jwt.uid p) w Hready)
      as (e & w' & Hfail).
    rewrite Hfail in Haudit. injection Haudit as <- _.
    unfold run. rewrite Hroute. exists e. cbn [snd logged on_disk trace fs].
    split; [|exact Helse].
    rewrite !ServerFacts.responses_app, app_nil_r. reflexivity. }
  repeat split; apply Hany.
Qed.

End Gateway.

(* ===================================================================== *)
(** * Login and the storage root *)
(* ===================================================================== *)

Module Issuer.

Import Http Server.
Local Open Scope js_scope.

Lemma responses_nil : responses [] = [].
Proof. reflexivity. Qed.

Lemma responses_sent (r : response) (l : list event) :
  responses (Sent r :: l) = r :: responses l.
Proof. reflexivity. Qed.

Lemma responses_console (label : string) (e : exception) (l : list event) :
  responses (ConsoleError label e :: l) = responses l.
Proof. reflexivity. Qed.

Lemma responses_audit (action : string) (filename uid : option string)
    (l : list event) :
  responses (AuditCall action filename uid :: l) = responses l.
Proof. reflexivity. Qed.

Lemma responses_unhandled (e : exception) (l : list event) :
  responses (Unhandled e :: l) = responses l.
Proof. reflexivity. Qed.

Lemma answers_logged (w : world) (events : list event) :
  responses (trace (logged w events)) = responses (trace w) ++ responses events.
Proof. cbn [logged trace]. apply ServerFacts.responses_app. Qed.

Lemma answers_on_disk (w : world) (m : gmap string Fs.node) :
  trace (on_disk w m) = trace w.
Proof. reflexivity. Qed.

Create Rewrite HintDb answers.
#[local] Hint Rewrite ServerFacts.emit_eq answers_logged answers_on_disk
  ServerFacts.responses_app responses_nil responses_sent responses_console
  responses_audit responses_unhandled @app_nil_r : answers.

(** Bring an equation between answers to the form [old ++ new = ...]. *)
Local Ltac answers H :=
  cbn [snd] in H; unfold send_json, console_error in H;
  autorewrite with answers in H; cbn [snd] in H;
  autorewrite with answers in H; rewrite <- ?app_assoc in H.

Section Login.

Context (E : env).

(** Making the directories observes nothing and leaves the clock alone. *)
Lemma provision_eq (home : string) (w : world) :
  exists (res : exception + unit) (m' : gmap string Fs.node),
    provision home w = (res, on_disk w m').
Proof.
  destruct w as [m t tr].
  cbv [provision bind existsSync fs_update disk set_disk ret throw on_disk
       fs now trace].
  destruct (Fs.existsSync m home); cbv [negb]; [eauto|].
  destruct (Fs.mkdirp m home) as [m1|e]; [|eauto].
  destruct (Fs.mkdirp m1 _) as [m2|e]; [|eauto].
  destruct (Fs.writeFile m2 _ _ true) as [m3|e]; eauto.
Qed.

Lemma issue_token_eq (u : ldapUser) (uid home : string) (w : world) :
  issue_token E u uid home w =
  match Jwt.sign (jwt E) (ldap_dn u) home uid (JWT_SECRET E) (now w) with
  | inl e => (inl (JwtException e), w)
  | inr token =>
      match audit E "login" None (Some uid) w with
      | (inl e, w') => (inl e, w')
      | (inr _, w') =>
          (inr tt, logged w' [Sent (authenticated u home token)])
      end
  end.
Proof.
  unfold issue_token. rewrite ServerFacts.bind_eq.
  unfold jwt_sign. rewrite ServerFacts.bind_eq. unfold clock.
  destruct (Jwt.sign (jwt E) (ldap_dn u) home uid (JWT_SECRET E) (now w))
    as [e|token]; [reflexivity|].
  unfold ret. rewrite ServerFacts.bind_eq.
  destruct (audit E "login" None (Some uid) w) as [[e|[]] w']; reflexivity.
Qed.

(** The second half of the [try] block either throws, having answered
    nothing, or has signed a token and answers with it. *)
Lemma issue_cases (u : ldapUser) (uid home : string) (w : world) :
  (exists (e : exception) (w' : world),
      issue_token E u uid home w = (inl e, w')
      /\ responses (trace w') = responses (trace w))
  \/ (exists (token : string) (w' : world),
        Jwt.sign (jwt E) (ldap_dn u) home uid (JWT_SECRET E) (now w) = inr token
        /\ issue_token E u uid home w = (inr tt, w')
        /\ responses (trace w')
           = responses (trace w) ++ [authenticated u home token]).
Proof.
  rewrite issue_token_eq.
  destruct (Jwt.sign (jwt E) (ldap_dn u) home uid (JWT_SECRET E) (now w))
    as [e|token] eqn:Hsign.
  - left. eexists _, _. split; reflexivity.
  - destruct (ServerFacts.audit_any E "login" None uid w)
      as (res & m2 & -> & _).
    destruct res as [e|[]].
    + left. eexists _, _. split; [reflexivity|].
      cbn [on_disk logged trace].
      rewrite ServerFacts.responses_app. apply app_nil_r.
    + right. exists token. eexists. split; [reflexivity|].
      split; [reflexivity|].
      cbn [on_disk logged trace].
      rewrite !ServerFacts.responses_app. cbn [responses omap].
      rewrite app_nil_r. reflexivity.
Qed.

Lemma answer_unique (old : list response) (r r' : response) :
  old ++ [r'] = old ++ [r] -> r' = r.
Proof. intros H. apply app_inv_head in H. congruence. Qed.

Lemma answer_needed (old : list response) (r : response) :
  old <> old ++ [r].
Proof.
  intros H. apply (f_equal (@length response)) in H.
  rewrite length_app in H. simpl in H. lia.
Qed.

(** An answer of login that carries a token is the answer of the success
    branch: the token was signed for the [uid] the directory returned and
    the directory [userHomeDir] derives from it. *)
Lemma login_token (req : request) (w : world) (r : response) (token : string) :
  responses (trace (run (post_login E req) w)) = responses (trace w) ++ [r] ->
  token_in r = Some token ->
  exists (u : ldapUser) (uid : string),
    Jwt.sign (jwt E) (ldap_dn u) (userHomeDir E uid) uid (JWT_SECRET E) (now w)
    = inr token.
Proof.
  unfold run, post_login, async_handler, try_catch, login.
  destruct (Str.provided (body_username req)) as [username|] eqn:Hu.
  2:{ intros H Ht. answers H. apply answer_unique in H. subst r.
      discriminate. }
  destruct (Str.provided (body_password req)) as [password|] eqn:Hp.
  2:{ intros H Ht. answers H. apply answer_unique in H. subst r.
      discriminate. }
  rewrite ServerFacts.bind_eq. unfold ldapAuth.
  destruct (authenticate E username password) as [u|error] eqn:Hauth.
  - unfold ret at 1.
    destruct (Str.provided (ldap_uid u)) as [uid|] eqn:Huid.
    2:{ intros H Ht. answers H. apply answer_unique in H. subst r.
        discriminate. }
    unfold try_catch, provision_and_issue. rewrite ServerFacts.bind_eq.
    destruct (provision_eq (userHomeDir E uid) w) as (res & m' & ->).
    destruct res as [e|[]].
    + intros H Ht. rewrite ServerFacts.bind_eq in H. answers H.
      apply answer_unique in H. subst r. discriminate.
    + destruct (issue_cases u uid (userHomeDir E uid) (on_disk w m'))
        as [(e & w' & -> & Hsame)|(token' & w' & Hsign & -> & Hanswer)].
      * intros H Ht. rewrite ServerFacts.bind_eq in H. answers H.
        rewrite Hsame in H. answers H.
        apply answer_unique in H. subst r. discriminate.
      * intros H Ht. cbn [snd] in H. rewrite Hanswer in H. answers H.
        apply answer_unique in H. subst r.
        injection Ht as <-. exists u, uid. exact Hsign.
  - rewrite ServerFacts.bind_eq. unfold console_error.
    rewrite ServerFacts.emit_eq. unfold ret at 1.
    rewrite ServerFacts.bind_eq.
    destruct (ServerFacts.audit_any E "failed login" None username
                (logged w [ConsoleError "LDAP authentication error:"
                             (LdapException error)]))
      as (res & m' & -> & _).
    destruct res as [e|[]]; intros H Ht.
    + answers H. destruct (answer_needed _ _ H).
    + answers H. apply answer_unique in H. subst r. discriminate.
Qed.

End Login.

End Issuer.

(* ===================================================================== *)
(** * Namespaces and the round trip *)
(* ===================================================================== *)

Module Storage.

Import Http Server.
Local Open Scope js_scope.

(** For a file name that is one plain segment the path of delete,
    download and view is that name in the caller's uploads directory; it
    lies inside the caller's directory and, for two users with distinct
    plain [uid]s, outside the other user's. *)
Lemma plain_name_stays_in_namespace (E : env) (A B f : string) :
  Path.plain A = true -> Path.plain B = true -> A <> B ->
  Path.plain f = true ->
  filePath (userHomeDir E B) f
  = Path.join [userHomeDir E B; "uploads"%string] +:+ "/" +:+ f
  /\ Path.inside (userHomeDir E B) (filePath (userHomeDir E B) f) = true
  /\ Path.inside (userHomeDir E A) (filePath (userHomeDir E B) f) = false.
Proof.
  intros HA HB Hne Hf.
  apply PathFacts.plain_name in HA, HB, Hf.
  destruct (PathFacts.namespace_shape (dirname E)) as (R & Hshape).
  destruct (Hshape A HA) as (HhomeA & _ & _).
  destruct (Hshape B HB) as (HhomeB & Huploads & Hfile).
  unfold filePath, userHomeDir.
  rewrite (Hfile f Hf), Huploads, HhomeA, HhomeB.
  split; [rewrite !StrFacts.app_assoc; reflexivity|].
  replace (R +:+ "/" +:+ B +:+ "/uploads" +:+ "/" +:+ f)
    with (R +:+ "/" +:+ B +:+ "/" +:+ ("uploads" +:+ "/" +:+ f))
    by reflexivity.
  apply PathFacts.namespaces_apart;
    [apply PathFacts.name_free, HA|apply PathFacts.name_free, HB|exact Hne].
Qed.

(** ** Uploading, then reading back *)

Lemma writeFile_stores (m m' : gmap string Fs.node) (path : string)
    (data : list Z) (exclusive : bool) :
  Fs.writeFile m path data exclusive = Fs.Ok m' ->
  m' !! path = Some (Fs.File data).
Proof.
  unfold Fs.writeFile.
  destruct (m !! path) as [[old|]|]; [destruct exclusive| |];
    try discriminate;
    [|destruct (Fs.is_dir m (Fs.dirname path)); [|discriminate]];
    intros H; injection H as <-; apply lookup_insert_eq.
Qed.

(** The path multer stores a file at is the one delete, download and view
    compute for the stored name, and it is not the audit log. *)
Lemma stored_path (E : env) (home stored : string) :
  Path.name stored -> Str.contains "-"%char stored = true ->
  Path.join [Path.join [home; "uploads"%string]; stored] = filePath home stored
  /\ filePath home stored <> auditFilePath E.
Proof.
  intros Hname Hdash.
  assert (Path.join [Path.join [home; "uploads"%string]; stored]
          = filePath home stored) as Hsame.
  { unfold filePath. rewrite PathFacts.join_join; [reflexivity|].
    simpl. destruct (Str.truthy home); discriminate. }
  split; [exact Hsame|].
  rewrite <- Hsame. unfold auditFilePath.
  apply (PathFacts.join_last_differs
           [Path.join [home; "uploads"%string]] [auditDir E]
           stored "record.txt" Hname).
  - repeat split; discriminate || reflexivity.
  - intros ->. discriminate.
Qed.

End Storage.

(* ===================================================================== *)
(** * Requests the verifier turns down *)
(* ===================================================================== *)

Module Gate.

Import Http Server.
Local Open Scope js_scope.

Lemma once_logged (w : world) (m : gmap string Fs.node) (events : list event) :
  length (responses events) = 1%nat ->
  answered_once w (logged (on_disk w m) events).
Proof.
  intros H. unfold answered_once. cbn [logged on_disk trace].
  rewrite ServerFacts.responses_app.
  destruct (responses events) as [|r [|r' l]]; try discriminate H.
  exists r. reflexivity.
Qed.

Lemma once_after (w w1 w2 : world) :
  responses (trace w1) = responses (trace w) ->
  answered_once w1 w2 -> answered_once w w2.
Proof. intros H [r Hr]. exists r. rewrite Hr, H. reflexivity. Qed.

Section Routes.

Context (E : env).

(** What [jwtMiddleware] leaves when it has turned a request down. *)
Lemma closed_gate (req : request) (w : world) :
  fst (jwtMiddleware E req w) = inr None ->
  exists events : list event,
    jwtMiddleware E req w = (inr None, logged w events)
    /\ (events = [Sent missing_header]
        \/ exists e : Jwt.error,
             events = [ConsoleError "Error in token verification:"
                         (JwtException e); Sent invalid_token]).
Proof.
  rewrite ServerFacts.jwtMiddleware_eq.
  destruct (Str.provided (authorization req)) as [h|].
  - destruct (Jwt.verify (jwt E) (bearer h) (JWT_SECRET E) (now w)) as [e|p].
    + intros _. eexists. split; [reflexivity|]. right. exists e. reflexivity.
    + discriminate.
  - intros _. eexists. split; [reflexivity|]. left. reflexivity.
Qed.

Lemma closed_route (rest : request -> M unit) (req : request) (w : world) :
  fst (jwtMiddleware E req w) = inr None ->
  run (req <~ jwtMiddleware E req ;; rest req) w
  = snd (jwtMiddleware E req w).
Proof.
  intros H. unfold run. rewrite ServerFacts.chain_eq, ServerFacts.layer_eq.
  destruct (jwtMiddleware E req w) as [[e|[r|]] w']; try discriminate H.
  reflexivity.
Qed.

End Routes.

(** X1. A request that [jwtMiddleware] turns down gets its 401 and nothing
    else happens, on every gated route: no call of [audit], no change of
    the disk. *)
Theorem unverified_request_is_only_answered (E : env) (req : request)
    (w : world) :
  fst (jwtMiddleware E req w) = inr None ->
  let w' := snd (jwtMiddleware E req w) in
  (exists r : response,
     responses (trace w') = responses (trace w) ++ [r] /\ status r = 401)
  /\ audits (trace w') = audits (trace w)
  /\ fs w' = fs w
  /\ run (post_upload E req) w = w'
  /\ run (get_files E req) w = w'
  /\ run (delete_delete E req) w = w'
  /\ run (get_download E req) w = w'
  /\ run (get_view E req) w = w'.
Proof.
  intros H w'. subst w'.
  split; [|split; [|split]].
  - destruct (closed_gate E req w H) as (events & -> & [->|(e & ->)]);
      cbn [snd logged trace]; eexists;
      (split; [rewrite ServerFacts.responses_app; reflexivity|reflexivity]).
  - destruct (closed_gate E req w H) as (events & -> & [->|(e & ->)]);
      cbn [snd logged trace]; rewrite ServerFacts.audits_app; apply app_nil_r.
  - destruct (closed_gate E req w H) as (events & -> & _). reflexivity.
  - repeat split; apply (closed_route E _ req w H).
Qed.

End Gate.

(* ===================================================================== *)
(** * One answer for every request *)
(* ===================================================================== *)

Module Answers.

Import Http Server.
Local Open Scope js_scope.

(** Settle that exactly one answer lies between two worlds given by their
    events. *)
Local Ltac single :=
  unfold answered_once, rejected; cbn [snd logged on_disk trace fs];
  rewrite ?ServerFacts.responses_app; rewrite <- ?app_assoc;
  eexists; f_equal; reflexivity.

Section Routes.

Context (E : env).

Lemma audited_then (action : string) (last : request -> M unit)
    (req : request) (w : world) :
  (forall (p : Jwt.payload) (m : gmap string Fs.node),
     answered_once w
       (run (last (with_user req p))
          (on_disk (logged w [AuditCall action (filename_of (with_user req p))
                                (Some (Jwt.uid p))]) m))) ->
  answered_once w
    (run (req <~ jwtMiddleware E req ;;
          req <~ auditMiddleware E action req ;;
          last req) w).
Proof.
  intros Hlast. unfold run. rewrite ServerFacts.gated_audited.
  destruct (Str.provided (authorization req)) as [h|]; [|single].
  destruct (Jwt.verify (jwt E) (bearer h) (JWT_SECRET E) (now w)) as [e|p];
    [unfold rejected; single|].
  cbv zeta.
  destruct (ServerFacts.audit_any E action (filename_of (with_user req p))
              (Jwt.uid p) w) as (res & m' & -> & _).
  destruct res as [e|[]]; [single|apply Hlast].
Qed.

Lemma delete_once (req : request) (w0 w : world) :
  user req <> None ->
  responses (trace w) = responses (trace w0) ->
  answered_once w0 (run (handler (delete_file req)) w).
Proof.
  intros Huser Hsame. apply (Gate.once_after w0 w); [exact Hsame|].
  unfold run. destruct (user req) as [p|] eqn:Hu; [|destruct (Huser eq_refl)].
  destruct (params_filename req) as [f|] eqn:Hf.
  - rewrite (ServerFacts.delete_file_eq req p f) by assumption. cbv zeta.
    destruct (Fs.unlink _ _); single.
  - rewrite ServerFacts.handler_eq. unfold delete_file, with_target.
    rewrite Hu, Hf. unfold throw. single.
Qed.

Lemma download_once (req : request) (w0 w : world) :
  user req <> None ->
  responses (trace w) = responses (trace w0) ->
  answered_once w0 (run (handler (download_file req)) w).
Proof.
  intros Huser Hsame. apply (Gate.once_after w0 w); [exact Hsame|].
  unfold run. destruct (user req) as [p|] eqn:Hu; [|destruct (Huser eq_refl)].
  destruct (params_filename req) as [f|] eqn:Hf.
  - rewrite (ServerFacts.download_file_eq req p f) by assumption. cbv zeta.
    destruct (Str.starts_with _ _); [|destruct (Fs.readFile _ _)]; single.
  - rewrite ServerFacts.handler_eq. unfold download_file, with_target.
    rewrite Hu, Hf. unfold throw. single.
Qed.

Lemma view_once (req : request) (f : string) (w0 w : world) :
  user req <> None -> params_filename req = Some f ->
  responses (trace w) = responses (trace w0) ->
  answered_once w0 (run (async_handler (view_file req)) w).
Proof.
  intros Huser Hf Hsame. apply (Gate.once_after w0 w); [exact Hsame|].
  unfold run. destruct (user req) as [p|] eqn:Hu; [|destruct (Huser eq_refl)].
  rewrite (ServerFacts.view_file_eq req p f) by assumption. cbv zeta.
  destruct (Fs.readFile _ _); single.
Qed.

Lemma list_once (req : request) (w : world) :
  answered_once w (run (async_handler (list_files E req)) w).
Proof.
  unfold run. rewrite ServerFacts.list_files_eq. cbv zeta.
  destruct (authorization req) as [h|]; [|single].
  destruct (Jwt.verify (jwt E) (bearer h) (JWT_SECRET E) (now w)) as [e|p];
    [single|].
  destruct (Fs.readdir _ _); single.
Qed.

Lemma upload_done_once (req : request) (w0 w : world) :
  responses (trace w) = responses (trace w0) ->
  answered_once w0 (run (handler (upload_done req)) w).
Proof.
  intros Hsame. apply (Gate.once_after w0 w); [exact Hsame|].
  unfold run. destruct (file_filename req) as [name|] eqn:Hname.
  - rewrite (ServerFacts.upload_done_eq req name) by assumption. single.
  - rewrite ServerFacts.handler_eq. unfold upload_done. rewrite Hname.
    unfold throw. single.
Qed.

Lemma audited_upload_once (req : request) (p : Jwt.payload) (w0 w : world) :
  user req = Some p ->
  responses (trace w) = responses (trace w0) ->
  answered_once w0
    (run (req <~ auditMiddleware E "upload" req ;; handler (upload_done req)) w).
Proof.
  intros Hu Hsame. unfold run.
  rewrite ServerFacts.chain_eq, ServerFacts.layer_eq.
  rewrite (ServerFacts.auditMiddleware_eq E "upload" req p) by assumption.
  destruct (ServerFacts.audit_any E "upload" (filename_of req) (Jwt.uid p) w)
    as (res & m' & -> & _).
  destruct res as [e|[]].
  - apply (Gate.once_after w0 w); [exact Hsame|]. single.
  - apply upload_done_once. cbn [on_disk logged trace].
    rewrite ServerFacts.responses_app, app_nil_r. exact Hsame.
Qed.

Lemma upload_once (req : request) (w : world) :
  answered_once w (run (post_upload E req) w).
Proof.
  unfold run, post_upload.
  rewrite ServerFacts.chain_eq, ServerFacts.layer_eq,
    ServerFacts.jwtMiddleware_eq.
  destruct (Str.provided (authorization req)) as [h|]; [|single].
  destruct (Jwt.verify (jwt E) (bearer h) (JWT_SECRET E) (now w)) as [e|p];
    [single|].
  rewrite ServerFacts.chain_eq, ServerFacts.layer_eq.
  assert (forall r : request, user r = Some p ->
            answered_once w
              (snd ((req <~ auditMiddleware E "upload" r ;;
                     handler (upload_done req)) w))) as Hnext.
  { intros r Hr. apply (audited_upload_once r p w w Hr eq_refl). }
  unfold upload_single. cbn [with_user multipart_file user].
  destruct (multipart_file req) as [part|]; [|apply Hnext; reflexivity].
  destruct (Str.provided (Some (originalname part))) as [original|];
    [|apply Hnext; reflexivity].
  rewrite ServerFacts.bind_eq. unfold clock.
  rewrite ServerFacts.bind_eq. unfold fs_update.
  rewrite ServerFacts.bind_eq. unfold disk.
  destruct (Fs.writeFile _ _ _ _) as [m'|e].
  - unfold set_disk, next, ret.
    apply (audited_upload_once _ p w); reflexivity.
  - unfold throw. single.
Qed.

End Routes.

(** X2. Every request to a gated route is answered exactly once, whatever
    the token, the file name and the disk are. *)
Theorem gated_request_is_answered_once (E : env) (req : request) (w : world) :
  answered_once w (run (post_upload E req) w)
  /\ answered_once w (run (get_files E req) w)
  /\ answered_once w (run (delete_delete E req) w)
  /\ answered_once w (run (get_download E req) w)
  /\ (params_filename req <> None ->
      answered_once w (run (get_view E req) w)).
Proof.
  split; [apply upload_once|]. split; [|split; [|split]].
  - unfold run, get_files.
    rewrite ServerFacts.chain_eq, ServerFacts.layer_eq,
      ServerFacts.jwtMiddleware_eq.
    destruct (Str.provided (authorization req)) as [h|]; [|single].
    destruct (Jwt.verify (jwt E) (bearer h) (JWT_SECRET E) (now w)) as [e|p];
      [single|].
    apply (Gate.once_after w w); [reflexivity|apply list_once].
  - apply (audited_then E "delete" (fun r => handler (delete_file r))).
    intros p m. apply delete_once; [discriminate|].
    cbn [on_disk logged trace]. rewrite ServerFacts.responses_app.
    apply app_nil_r.
  - apply (audited_then E "download" (fun r => handler (download_file r))).
    intros p m. apply download_once; [discriminate|].
    cbn [on_disk logged trace]. rewrite ServerFacts.responses_app.
    apply app_nil_r.
  - intros Hf. destruct (params_filename req) as [f|] eqn:Hparam;
      [|destruct (Hf eq_refl)].
    apply (audited_then E "view" (fun r => async_handler (view_file r))).
    intros p m. apply (view_once _ f); [discriminate|exact Hparam|].
    cbn [on_disk logged trace]. rewrite ServerFacts.responses_app.
    apply app_nil_r.
Qed.

End Answers.

(* ===================================================================== *)
(** * What audit and provisioning do to the disk *)
(* ===================================================================== *)

Module DiskFacts.

Import Http Server.
Local Open Scope js_scope.

(** ** Directories under [mkdirp] *)

Lemma mkdir_step_dirs (m m' : gmap string Fs.node) (p q : string) :
  Fs.mkdir_step (Fs.Ok m) p = Fs.Ok m' ->
  m !! q = Some Fs.Dir -> m' !! q = Some Fs.Dir.
Proof.
  unfold Fs.mkdir_step. intros H Hq.
  assert (m' = <[p := Fs.Dir]> m) as ->.
  { destruct (m !! p) as [[data|]|]; congruence. }
  destruct (decide (p = q)) as [->|Hne].
  - apply lookup_insert_eq.
  - rewrite lookup_insert_ne by exact Hne. exact Hq.
Qed.

Lemma mkdir_fold_dirs (qs : list string) (m m' : gmap string Fs.node)
    (q : string) :
  fold_left Fs.mkdir_step qs (Fs.Ok m) = Fs.Ok m' ->
  m !! q = Some Fs.Dir -> m' !! q = Some Fs.Dir.
Proof.
  revert m. induction qs as [|p qs IH]; intros m H Hq.
  - simpl in H. congruence.
  - cbn [fold_left] in H.
    destruct (Fs.mkdir_step (Fs.Ok m) p) as [m1|e] eqn:Hstep.
    + apply (IH m1 H). exact (mkdir_step_dirs m m1 p q Hstep Hq).
    + rewrite FsFacts.mkdir_fold_err in H. discriminate H.
Qed.

Lemma mkdirp_dirs (m m' : gmap string Fs.node) (p q : string) :
  Fs.mkdirp m p = Fs.Ok m' -> m !! q = Some Fs.Dir -> m' !! q = Some Fs.Dir.
Proof. apply mkdir_fold_dirs. Qed.

Section Disk.

Context (E : env).

(** ** The audit log on disks with the same files *)

Lemma audit_log_same (m m' : gmap string Fs.node) :
  Fs.same_files m m' -> audit_log E m' = audit_log E m.
Proof.
  intros H. unfold audit_log.
  destruct (m !! auditFilePath E) as [[data|]|] eqn:Hm.
  - apply H in Hm. rewrite Hm. reflexivity.
  - destruct (m' !! auditFilePath E) as [[data|]|] eqn:Hm'; try reflexivity.
    apply H in Hm'. congruence.
  - destruct (m' !! auditFilePath E) as [[data|]|] eqn:Hm'; try reflexivity.
    apply H in Hm'. congruence.
Qed.

Lemma audit_log_insert (m : gmap string Fs.node) (q : string) (n : Fs.node) :
  q <> auditFilePath E -> audit_log E (<[q := n]> m) = audit_log E m.
Proof.
  intros Hq. unfold audit_log. rewrite lookup_insert_ne by exact Hq.
  reflexivity.
Qed.

Lemma audit_log_delete (m : gmap string Fs.node) (q : string) :
  q <> auditFilePath E -> audit_log E (delete q m) = audit_log E m.
Proof.
  intros Hq. unfold audit_log. rewrite lookup_delete_ne by exact Hq.
  reflexivity.
Qed.

(** ** What one call of [audit] does to the disk *)

(** Whether it returns or throws, [audit] leaves every other regular file
    and every directory as they were; the log has grown by the line of
    the call when it returned, and is the same when it threw. *)
Lemma audit_outcome (action : string) (filename : option string)
    (uid : string) (w : world) :
  exists (res : exception + unit) (m' : gmap string Fs.node),
    audit E action filename (Some uid) w
    = (res, on_disk (logged w [AuditCall action filename (Some uid)]) m')
    /\ elsewhere E (fs w) m'
    /\ (forall q : string, fs w !! q = Some Fs.Dir -> m' !! q = Some Fs.Dir)
    /\ audit_log E m'
       = audit_log E (fs w)
         ++ match res with
            | inr _ =>
                Str.bytes
                  (auditMessage (toISOString E (now w)) action filename uid)
            | inl _ => []
            end.
Proof.
  rewrite ServerFacts.audit_eq. cbv zeta.
  set (w1 := logged w [AuditCall action filename (Some uid)]).
  set (line := Str.bytes _).
  assert ((exists m1 : gmap string Fs.node,
             (if Fs.existsSync (fs w) (auditDir E) then Fs.Ok (fs w)
              else Fs.mkdirp (fs w) (auditDir E)) = Fs.Ok m1
             /\ Fs.same_files (fs w) m1
             /\ (forall q, fs w !! q = Some Fs.Dir -> m1 !! q = Some Fs.Dir))
          \/ (exists e, (if Fs.existsSync (fs w) (auditDir E) then Fs.Ok (fs w)
                         else Fs.mkdirp (fs w) (auditDir E)) = Fs.Err e))
    as [(m1 & -> & Hfiles & Hdirs)|(e & ->)].
  { destruct (Fs.existsSync (fs w) (auditDir E)).
    - left. exists (fs w). split; [reflexivity|].
      split; [apply FsFacts.same_files_refl|auto].
    - destruct (Fs.mkdirp (fs w) (auditDir E)) as [m1|e] eqn:Hmk.
      + left. exists m1. split; [reflexivity|].
        split; [exact (FsFacts.mkdirp_files _ _ _ Hmk)|].
        intros q. exact (mkdirp_dirs _ _ _ q Hmk).
      + right. exists e. reflexivity. }
  2:{ exists (inl (FsException e (auditDir E))), (fs w).
      split; [f_equal; destruct w; reflexivity|].
      split; [apply ServerFacts.elsewhere_of_same, FsFacts.same_files_refl|].
      split; [auto|]. symmetry. apply app_nil_r. }
  rewrite ServerFacts.appendFile_eq.
  destruct (appendable m1 (auditFilePath E)) eqn:Happ.
  - eexists (inr tt), _. split; [reflexivity|].
    split; [apply ServerFacts.elsewhere_insert, ServerFacts.elsewhere_of_same,
            Hfiles|].
    split.
    + intros q Hq. apply Hdirs in Hq.
      rewrite lookup_insert_ne; [exact Hq|].
      intros <-. unfold appendable in Happ. rewrite Hq in Happ.
      discriminate Happ.
    + unfold audit_log at 1. rewrite lookup_insert_eq.
      rewrite (audit_log_same _ _ Hfiles). reflexivity.
  - assert (exists e, match m1 !! auditFilePath E with
                      | Some _ => Fs.Err Fs.EISDIR
                      | None => @Fs.Err (gmap string Fs.node) Fs.ENOENT
                      end = Fs.Err e) as (e & ->)
      by (destruct (m1 !! auditFilePath E); eauto).
    exists (inl (FsException e (auditFilePath E))), m1.
    split; [reflexivity|].
    split; [apply ServerFacts.elsewhere_of_same, Hfiles|].
    split; [exact Hdirs|].
    rewrite (audit_log_same _ _ Hfiles). symmetry. apply app_nil_r.
Qed.

(** ** What provisioning does to the disk *)

Lemma seed_is_not_the_log (home : string) :
  Path.join [home; "/uploads/"; "instructions.txt"]%string <> auditFilePath E.
Proof.
  unfold auditFilePath.
  apply (PathFacts.join_last_differs [home; "/uploads/"%string] [auditDir E]
           "instructions.txt" "record.txt").
  - apply PathFacts.plain_name. reflexivity.
  - apply PathFacts.plain_name. reflexivity.
  - discriminate.
Qed.

Lemma provision_outcome (home : string) (w : world) :
  Str.truthy home = true ->
  let uploads := Path.join [home; "uploads"%string] in
  let seed := Path.join [home; "/uploads/"; "instructions.txt"]%string in
  exists (res : exception + unit) (m' : gmap string Fs.node),
    provision home w = (res, on_disk w m')
    /\ (forall (q : string) (data : list Z),
          fs w !! q = Some (Fs.File data) -> m' !! q = Some (Fs.File data))
    /\ (forall q : string, fs w !! q = Some Fs.Dir -> m' !! q = Some Fs.Dir)
    /\ audit_log E m' = audit_log E (fs w)
    /\ (Fs.existsSync (fs w) home = true -> res = inr tt /\ m' = fs w)
    /\ (Fs.existsSync (fs w) home = false -> res = inr tt ->
        m' !! home = Some Fs.Dir
        /\ m' !! uploads = Some Fs.Dir
        /\ m' !! seed = Some (Fs.File (Str.bytes instructionsContent))).
Proof.
  intros Htruthy uploads seed. destruct w as [m t tr].
  cbv [provision bind existsSync fs_update disk set_disk ret throw on_disk
       fs now trace].
  fold uploads seed.
  destruct (Fs.existsSync m home) eqn:Hex; cbv [negb].
  { exists (inr tt), m. split; [reflexivity|]. split; [auto|].
    split; [auto|]. split; [reflexivity|].
    split; [auto|intros H; discriminate H]. }
  destruct (Fs.mkdirp m home) as [m1|e] eqn:H1.
  2:{ exists (inl (FsException e home)), m. split; [reflexivity|].
      split; [auto|]. split; [auto|]. split; [reflexivity|].
      split; [intros H; discriminate H|intros _ H; discriminate H]. }
  pose proof (FsFacts.mkdirp_files _ _ _ H1) as F1.
  pose proof (fun q => mkdirp_dirs _ _ _ q H1) as D1.
  assert (m1 !! home = Some Fs.Dir) as Hhome.
  { exact (FsFacts.mkdirp_exists m m1 home Htruthy H1). }
  destruct (Fs.mkdirp m1 uploads) as [m2|e] eqn:H2.
  2:{ exists (inl (FsException e uploads)), m1.
      split; [reflexivity|]. split; [intros q data Hq; apply F1, Hq|].
      split; [exact D1|]. split; [apply audit_log_same, F1|].
      split; [intros H; discriminate H|intros _ H; discriminate H]. }
  pose proof (FsFacts.mkdirp_files _ _ _ H2) as F2.
  pose proof (fun q => mkdirp_dirs _ _ _ q H2) as D2.
  assert (m2 !! uploads = Some Fs.Dir) as Huploads.
  { apply (FsFacts.mkdirp_exists m1); [|exact H2].
    apply PathFacts.join_truthy_path. }
  destruct (Fs.writeFile m2 seed (Str.bytes instructionsContent) true)
    as [m3|e] eqn:H3.
  2:{ exists (inl (FsException e seed)), m2.
      split; [reflexivity|].
      split; [intros q data Hq; apply F2, F1, Hq|].
      split; [intros q Hq; apply D2, D1, Hq|].
      split; [rewrite (audit_log_same _ _ F2); apply audit_log_same, F1|].
      split; [intros H; discriminate H|intros _ H; discriminate H]. }
  assert (m2 !! seed = None /\ m3 = <[seed := Fs.File (Str.bytes instructionsContent)]> m2)
    as [Hfresh ->].
  { unfold Fs.writeFile in H3.
    destruct (m2 !! seed) as [[data|]|]; try discriminate H3.
    destruct (Fs.is_dir m2 (Fs.dirname seed)); [|discriminate H3].
    split; congruence. }
  assert (forall q n, m2 !! q = Some n ->
            <[seed := Fs.File (Str.bytes instructionsContent)]> m2 !! q = Some n)
    as Hkeep.
  { intros q n Hq. rewrite lookup_insert_ne; [exact Hq|]. congruence. }
  eexists (inr tt), _. split; [reflexivity|].
  split; [intros q data Hq; apply Hkeep, F2, F1, Hq|].
  split; [intros q Hq; apply Hkeep, D2, D1, Hq|].
  split.
  { rewrite audit_log_insert by apply seed_is_not_the_log.
    rewrite (audit_log_same _ _ F2). apply audit_log_same, F1. }
  split; [intros H; discriminate H|]. intros _ _.
  split; [apply Hkeep, D2, Hhome|].
  split; [apply Hkeep, Huploads|apply lookup_insert_eq].
Qed.

End Disk.

End DiskFacts.

(* ===================================================================== *)
(** * Login, branch by branch *)
(* ===================================================================== *)

Module LoginFacts.

Import Http Server.
Local Open Scope js_scope.

Section Login.

Context (E : env).

Lemma login_incomplete_eq (req : request) (w : world) :
  Str.provided (body_username req) = None
  \/ Str.provided (body_password req) = None ->
  post_login E req w = (inr tt, logged w [Sent missing_credentials]).
Proof.
  intros H. unfold post_login, async_handler, try_catch, login.
  destruct (Str.provided (body_username req)) as [username|];
    destruct (Str.provided (body_password req)) as [password|];
    try reflexivity.
  destruct H as [H|H]; discriminate H.
Qed.

Lemma login_without_uid_eq (req : request) (username password : string)
    (u : ldapUser) (w : world) :
  Str.provided (body_username req) = Some username ->
  Str.provided (body_password req) = Some password ->
  authenticate E username password = LdapUser u ->
  Str.provided (ldap_uid u) = None ->
  post_login E req w = (inr tt, logged w [Sent uid_undefined]).
Proof.
  intros Hu Hp Hauth Huid.
  unfold post_login, async_handler, try_catch, login.
  rewrite Hu, Hp, ServerFacts.bind_eq. unfold ldapAuth. rewrite Hauth.
  unfold ret at 1. rewrite Huid. reflexivity.
Qed.

Lemma login_accepted_eq (req : request) (username password : string)
    (u : ldapUser) (uid : string) (w : world) :
  Str.provided (body_username req) = Some username ->
  Str.provided (body_password req) = Some password ->
  authenticate E username password = LdapUser u ->
  Str.provided (ldap_uid u) = Some uid ->
  post_login E req w =
  let home := userHomeDir E uid in
  let failed (err : exception) (w' : world) :=
    (@inr exception unit tt,
     logged w' [ConsoleError "Error in creating directory or file:" err;
                Sent internal_error]) in
  match provision home w with
  | (inl err, w1) => failed err w1
  | (inr _, w1) =>
      match issue_token E u uid home w1 with
      | (inl err, w2) => failed err w2
      | (inr _, w2) => (inr tt, w2)
      end
  end.
Proof.
  intros Hu Hp Hauth Huid.
  unfold post_login, async_handler, try_catch, login.
  rewrite Hu, Hp, ServerFacts.bind_eq. unfold ldapAuth. rewrite Hauth.
  unfold ret at 1. rewrite Huid. cbv zeta.
  unfold try_catch, provision_and_issue. rewrite ServerFacts.bind_eq.
  assert (forall err w',
            (console_error "Error in creating directory or file:" err ;;
             send_json 500
               (JObject [("error"%string, JString "Internal Server Error")])) w'
            = (inr tt,
               logged w' [ConsoleError "Error in creating directory or file:"
                            err; Sent internal_error])) as Hcatch.
  { intros err w'. rewrite ServerFacts.bind_eq. unfold console_error, send_json.
    rewrite !ServerFacts.emit_eq, ServerFacts.logged_logged. reflexivity. }
  destruct (provision (userHomeDir E uid) w) as [[err|[]] w1].
  { rewrite Hcatch. reflexivity. }
  destruct (issue_token E u uid (userHomeDir E uid) w1) as [[err|[]] w2];
    [rewrite Hcatch|]; reflexivity.
Qed.

Lemma home_truthy (uid : string) : Str.truthy (userHomeDir E uid) = true.
Proof. apply PathFacts.join_truthy_path. Qed.

Lemma login_accepted_world (req : request) (username password : string)
    (u : ldapUser) (uid : string) (w : world) :
  Str.provided (body_username req) = Some username ->
  Str.provided (body_password req) = Some password ->
  authenticate E username password = LdapUser u ->
  Str.provided (ldap_uid u) = Some uid ->
  let home := userHomeDir E uid in
  let failed (err : exception) :=
    [ConsoleError "Error in creating directory or file:" err;
     Sent internal_error] in
  exists (res : exception + unit) (m1 m2 : gmap string Fs.node) (how : ending),
    provision home w = (res, on_disk w m1)
    /\ run (post_login E req) w
       = logged (on_disk w m2)
           match how with
           | NotProvisioned err => failed err
           | NotSigned e => failed (JwtException e)
           | NotAudited err => AuditCall "login" None (Some uid) :: failed err
           | Issued token =>
               [AuditCall "login" None (Some uid);
                Sent (authenticated u home token)]
           end
    /\ match how with
       | NotProvisioned err => res = inl err /\ m2 = m1
       | NotSigned e =>
           res = inr tt /\ m2 = m1
           /\ Jwt.sign (jwt E) (ldap_dn u) home uid (JWT_SECRET E) (now w)
              = inl e
       | NotAudited err =>
           res = inr tt
           /\ (exists token,
                 Jwt.sign (jwt E) (ldap_dn u) home uid (JWT_SECRET E) (now w)
                 = inr token)
           /\ audit E "login" None (Some uid) (on_disk w m1)
              = (inl err,
                 on_disk (logged w [AuditCall "login" None (Some uid)]) m2)
       | Issued token =>
           res = inr tt
           /\ Jwt.sign (jwt E) (ldap_dn u) home uid (JWT_SECRET E) (now w)
              = inr token
           /\ audit E "login" None (Some uid) (on_disk w m1)
              = (inr tt,
                 on_disk (logged w [AuditCall "login" None (Some uid)]) m2)
       end.
Proof.
  intros Hu Hp Hauth Huid home failed. unfold run.
  rewrite (login_accepted_eq req username password u uid w Hu Hp Hauth Huid).
  cbv zeta. fold home.
  destruct (DiskFacts.provision_outcome E home w (home_truthy uid))
    as (res & m1 & Hprov & _).
  rewrite Hprov. exists res, m1.
  destruct res as [err|[]].
  { exists m1, (NotProvisioned err). split; [reflexivity|].
    split; [|split; reflexivity].
    destruct w as [m t tr]. unfold logged, on_disk; cbn [snd fs now trace].
    reflexivity. }
  rewrite Issuer.issue_token_eq. cbn [on_disk now].
  destruct (Jwt.sign (jwt E) (ldap_dn u) home uid (JWT_SECRET E) (now w))
    as [e|token] eqn:Hsign.
  { exists m1, (NotSigned e). split; [reflexivity|].
    split; [|repeat split; reflexivity].
    destruct w as [m t tr]. unfold logged, on_disk; cbn [snd fs now trace].
    reflexivity. }
  destruct (DiskFacts.audit_outcome E "login" None uid (on_disk w m1))
    as (ares & m2 & Haudit & _).
  assert (on_disk (logged (on_disk w m1) [AuditCall "login" None (Some uid)]) m2
          = on_disk (logged w [AuditCall "login" None (Some uid)]) m2) as Hw
    by reflexivity.
  rewrite Hw in Haudit. fold home. rewrite Haudit. exists m2.
  destruct ares as [err|[]].
  - exists (NotAudited err). split; [reflexivity|].
    split; [|split; [reflexivity|split; [eauto|reflexivity]]].
    destruct w as [m t tr]. unfold logged, on_disk; cbn [snd fs now trace].
    rewrite <- app_assoc. reflexivity.
  - exists (Issued token). split; [reflexivity|].
    split; [|repeat split; reflexivity].
    destruct w as [m t tr]. unfold logged, on_disk; cbn [snd fs now trace].
    rewrite <- app_assoc. reflexivity.
Qed.

End Login.

End LoginFacts.

(* ===================================================================== *)
(** * Login and the disk *)
(* ===================================================================== *)

Module LoginDisk.

Import Http Server LoginFacts.
Local Open Scope js_scope.

Section Disk.

Context (E : env).

Lemma preserved_refl (m : gmap string Fs.node) : preserved E m m.
Proof.
  split; [auto|]. split; [auto|]. exists []. symmetry. apply app_nil_r.
Qed.

Lemma preserved_trans (m1 m2 m3 : gmap string Fs.node) :
  preserved E m1 m2 -> preserved E m2 m3 -> preserved E m1 m3.
Proof.
  intros (F1 & D1 & s1 & L1) (F2 & D2 & s2 & L2).
  split; [intros q data Hq H; apply (F2 _ _ Hq), (F1 _ _ Hq), H|].
  split; [intros q H; apply D2, D1, H|].
  exists (s1 ++ s2). rewrite L2, L1, app_assoc. reflexivity.
Qed.

Lemma audit_preserved (action : string) (filename : option string) (uid : string)
    (w : world) :
  preserved E (fs w) (fs (snd (audit E action filename (Some uid) w))).
Proof.
  destruct (DiskFacts.audit_outcome E action filename uid w)
    as (res & m' & -> & Helse & Hdirs & Hlog).
  cbn [snd on_disk fs].
  split; [intros q data Hq H; apply (Helse _ _ Hq), H|].
  split; [exact Hdirs|]. eexists. exact Hlog.
Qed.

Lemma provision_preserved (home : string) (w : world) :
  Str.truthy home = true ->
  preserved E (fs w) (fs (snd (provision home w))).
Proof.
  intros Hhome.
  destruct (DiskFacts.provision_outcome E home w Hhome)
    as (res & m' & -> & Hfiles & Hdirs & Hlog & _).
  cbn [snd on_disk fs].
  split; [intros q data _ H; apply Hfiles, H|].
  split; [exact Hdirs|]. exists []. rewrite Hlog. symmetry. apply app_nil_r.
Qed.

Lemma world_disk (w : world) (m m' : gmap string Fs.node) :
  on_disk w m = on_disk w m' -> m = m'.
Proof. intros H. apply (f_equal fs) in H. exact H. Qed.

Lemma pair_eq {A B : Type} (a a' : A) (b b' : B) :
  (a, b) = (a', b') -> a = a' /\ b = b'.
Proof. intros H. injection H as -> ->. auto. Qed.

(** The disk after a login the directory accepted. *)
Lemma login_accepted_disk (req : request) (username password : string)
    (u : ldapUser) (uid : string) (w : world) :
  Str.provided (body_username req) = Some username ->
  Str.provided (body_password req) = Some password ->
  authenticate E username password = LdapUser u ->
  Str.provided (ldap_uid u) = Some uid ->
  let w' := run (post_login E req) w in
  preserved E (fs w) (fs w')
  /\ (Fs.existsSync (fs w) (userHomeDir E uid) = true ->
      elsewhere E (fs w) (fs w')).
Proof.
  intros Hu Hp Hauth Huid w'. subst w'.
  destruct (login_accepted_world E req username password u uid w
              Hu Hp Hauth Huid)
    as (res & m1 & m2 & how & Hprov & -> & Hhow).
  cbn [logged on_disk fs].
  pose proof (provision_preserved (userHomeDir E uid) w (home_truthy E uid)) as K1.
  rewrite Hprov in K1. cbn [snd on_disk fs] in K1.
  destruct (DiskFacts.provision_outcome E (userHomeDir E uid) w
              (home_truthy E uid)) as (res' & m1' & Hprov' & _ & _ & _ & Hold & _).
  rewrite Hprov in Hprov'. apply pair_eq in Hprov' as [<- Hm].
  apply world_disk in Hm. subst m1'.
  assert (Fs.existsSync (fs w) (userHomeDir E uid) = true ->
          elsewhere E (fs w) m1) as E1.
  { intros Hex. destruct (Hold Hex) as [_ ->].
    apply ServerFacts.elsewhere_of_same, FsFacts.same_files_refl. }
  assert (forall res2 w2,
            audit E "login" None (Some uid) (on_disk w m1) = (res2, w2) ->
            fs w2 = m2 ->
            preserved E (fs w) m2
            /\ (Fs.existsSync (fs w) (userHomeDir E uid) = true ->
                elsewhere E (fs w) m2)) as Haudited.
  { intros res2 w2 Haudit Hfs.
    pose proof (audit_preserved "login" None uid (on_disk w m1)) as K2.
    destruct (DiskFacts.audit_outcome E "login" None uid (on_disk w m1))
      as (res3 & m3 & Hout & Helse & _).
    rewrite Haudit in K2, Hout. cbn [snd on_disk fs] in K2.
    apply pair_eq in Hout as [_ ->]. cbn [on_disk fs] in Hfs, K2. subst m3.
    split; [exact (preserved_trans _ _ _ K1 K2)|].
    intros Hex q data Hq. cbn [on_disk fs] in Helse.
    rewrite (E1 Hex q data Hq). apply Helse, Hq. }
  destruct how as [err|e|err|token].
  - destruct Hhow as [_ ->]. auto.
  - destruct Hhow as (_ & -> & _). auto.
  - destruct Hhow as (_ & _ & Haudit). exact (Haudited _ _ Haudit eq_refl).
  - destruct Hhow as (_ & _ & Haudit). exact (Haudited _ _ Haudit eq_refl).
Qed.

(** The disk after a login the directory turned down. *)
Lemma login_rejected_disk (req : request) (username password error : string)
    (w : world) :
  Str.provided (body_username req) = Some username ->
  Str.provided (body_password req) = Some password ->
  authenticate E username password = LdapError error ->
  let w' := run (post_login E req) w in
  preserved E (fs w) (fs w') /\ elsewhere E (fs w) (fs w').
Proof.
  intros Hu Hp Hauth w'. subst w'. unfold run.
  rewrite (ServerFacts.login_rejected_eq E req username password error w)
    by assumption.
  cbv zeta.
  set (w1 := logged w _).
  pose proof (audit_preserved "failed login" None username w1) as K.
  destruct (DiskFacts.audit_outcome E "failed login" None username w1)
    as (res & m' & Hout & Helse & _).
  rewrite Hout in K |- *. cbn [snd on_disk fs] in K.
  destruct res as [e|[]]; cbn [snd logged on_disk fs]; auto.
Qed.

End Disk.

(** X3. A login is answered early, and leaves no trace but its answer, when
    the user name or the password is missing or empty (status 400) and
    when the entry the directory returned has no [uid] (status 500):
    [audit] is not called and the disk is as it was. *)
Theorem login_early_exits (E : env) (req : request) (w : world) :
  (Str.provided (body_username req) = None
   \/ Str.provided (body_password req) = None ->
   run (post_login E req) w = logged w [Sent missing_credentials])
  /\ (forall (username password : string) (u : ldapUser),
        Str.provided (body_username req) = Some username ->
        Str.provided (body_password req) = Some password ->
        authenticate E username password = LdapUser u ->
        Str.provided (ldap_uid u) = None ->
        run (post_login E req) w = logged w [Sent uid_undefined]).
Proof.
  split.
  - intros H. unfold run. rewrite (login_incomplete_eq E req w H). reflexivity.
  - intros username password u Hu Hp Hauth Huid. unfold run.
    rewrite (login_without_uid_eq E req username password u w); auto.
Qed.

(** X4. Login never removes or overwrites what is stored: every regular file
    other than the audit log and every directory is still there after
    it, whatever the request, and the audit log has at most grown at its
    end.  Unless the directory accepted a user whose storage root does
    not exist yet, no regular file other than the audit log is created
    either; in particular the seed file of a storage root that exists
    without it is not written. *)
Theorem login_keeps_what_is_stored (E : env) (req : request) (w : world) :
  let w' := run (post_login E req) w in
  preserved E (fs w) (fs w')
  /\ ((forall (username password : string) (u : ldapUser) (uid : string),
         Str.provided (body_username req) = Some username ->
         Str.provided (body_password req) = Some password ->
         authenticate E username password = LdapUser u ->
         Str.provided (ldap_uid u) = Some uid ->
         Fs.existsSync (fs w) (userHomeDir E uid) = true) ->
      elsewhere E (fs w) (fs w')).
Proof.
  intros w'. subst w'.
  assert (forall events, 
            run (post_login E req) w = logged w events ->
            preserved E (fs w) (fs (run (post_login E req) w))
            /\ elsewhere E (fs w) (fs (run (post_login E req) w))) as Hsame.
  { intros events ->. cbn [logged fs]. split; [apply preserved_refl|].
    apply ServerFacts.elsewhere_of_same, FsFacts.same_files_refl. }
  destruct (Str.provided (body_username req)) as [username|] eqn:Hu.
  2:{ destruct (Hsame [Sent missing_credentials]) as [K S]; [|auto].
      unfold run. rewrite login_incomplete_eq by auto. reflexivity. }
  destruct (Str.provided (body_password req)) as [password|] eqn:Hp.
  2:{ destruct (Hsame [Sent missing_credentials]) as [K S]; [|auto].
      unfold run. rewrite login_incomplete_eq by auto. reflexivity. }
  destruct (authenticate E username password) as [u|error] eqn:Hauth.
  2:{ destruct (login_rejected_disk E req username password error w Hu Hp Hauth)
        as [K S]. auto. }
  destruct (Str.provided (ldap_uid u)) as [uid|] eqn:Huid.
  2:{ destruct (Hsame [Sent uid_undefined]) as [K S]; [|auto].
      unfold run.
      rewrite (login_without_uid_eq E req username password u w) by auto.
      reflexivity. }
  destruct (login_accepted_disk E req username password u uid w Hu Hp Hauth Huid)
    as [K S].
  split; [exact K|]. intros Hex. apply S.
  apply (Hex username password u uid); auto.
Qed.

End LoginDisk.

(* ===================================================================== *)
(** * The answers of login *)
(* ===================================================================== *)

Module Login.

Import Http Server LoginFacts.
Local Open Scope js_scope.

(** Read the one answer off an equation between the answers of two
    worlds. *)
Local Ltac answer H :=
  cbn [logged on_disk trace snd] in H;
  rewrite ?ServerFacts.responses_app in H; rewrite <- ?app_assoc in H;
  apply app_inv_head in H; cbn in H.

Section Answers.

Context (E : env).

(** An answer of login with status 200 is the answer of the success
    branch, at its end. *)
Lemma login_answer_200 (req : request) (w : world) (r : response) :
  responses (trace (run (post_login E req) w)) = responses (trace w) ++ [r] ->
  status r = 200 ->
  exists (username password : string) (u : ldapUser) (uid token : string)
         (m1 m2 : gmap string Fs.node),
    Str.provided (body_username req) = Some username
    /\ Str.provided (body_password req) = Some password
    /\ authenticate E username password = LdapUser u
    /\ Str.provided (ldap_uid u) = Some uid
    /\ provision (userHomeDir E uid) w = (inr tt, on_disk w m1)
    /\ Jwt.sign (jwt E) (ldap_dn u) (userHomeDir E uid) uid (JWT_SECRET E)
         (now w) = inr token
    /\ audit E "login" None (Some uid) (on_disk w m1)
       = (inr tt, on_disk (logged w [AuditCall "login" None (Some uid)]) m2)
    /\ run (post_login E req) w
       = logged (on_disk w m2)
           [AuditCall "login" None (Some uid);
            Sent (authenticated u (userHomeDir E uid) token)].
Proof.
  intros H Hstatus.
  destruct (Str.provided (body_username req)) as [username|] eqn:Hu.
  2:{ unfold run in H. rewrite login_incomplete_eq in H by auto.
      answer H. injection H as <-. discriminate Hstatus. }
  destruct (Str.provided (body_password req)) as [password|] eqn:Hp.
  2:{ unfold run in H. rewrite login_incomplete_eq in H by auto.
      answer H. injection H as <-. discriminate Hstatus. }
  destruct (authenticate E username password) as [u|error] eqn:Hauth.
  2:{ unfold run in H.
      rewrite (ServerFacts.login_rejected_eq E req username password error w)
        in H by assumption.
      cbv zeta in H.
      destruct (ServerFacts.audit_any E "failed login" None username
                  (logged w [ConsoleError "LDAP authentication error:"
                               (LdapException error)]))
        as (res & m' & Hout & _).
      rewrite Hout in H. destruct res as [e|[]]; answer H.
      - discriminate H.
      - injection H as <-. discriminate Hstatus. }
  destruct (Str.provided (ldap_uid u)) as [uid|] eqn:Huid.
  2:{ unfold run in H.
      rewrite (login_without_uid_eq E req username password u w) in H by auto.
      answer H. injection H as <-. discriminate Hstatus. }
  destruct (login_accepted_world E req username password u uid w
              Hu Hp Hauth Huid)
    as (res & m1 & m2 & how & Hprov & Hrun & Hhow).
  rewrite Hrun in H.
  destruct how as [err|e|err|token]; answer H; injection H as <-;
    try discriminate Hstatus.
  destruct Hhow as (-> & Hsign & Haudit).
  exists username, password, u, uid, token, m1, m2. auto 10.
Qed.

End Answers.

(** X5. Login answers with status 200 only when the directory service
    accepted the credentials and returned an entry with a [uid]; the
    answer then echoes that entry, every attribute of it, with
    [homeDirectory] set to the directory derived from the [uid], and
    carries a token signed for that [uid] and that directory; [audit]
    has been called once, for ["login"] and that [uid], and the audit
    log has grown by exactly that line. *)
Theorem login_succeeds_only_when_accepted (E : env) (req : request)
    (w : world) (r : response) :
  let w' := run (post_login E req) w in
  responses (trace w') = responses (trace w) ++ [r] ->
  status r = 200 ->
  exists (username password : string) (u : ldapUser) (uid token : string),
    Str.provided (body_username req) = Some username
    /\ Str.provided (body_password req) = Some password
    /\ authenticate E username password = LdapUser u
    /\ Str.provided (ldap_uid u) = Some uid
    /\ Jwt.sign (jwt E) (ldap_dn u) (userHomeDir E uid) uid (JWT_SECRET E)
         (now w) = inr token
    /\ r = authenticated u (userHomeDir E uid) token
    /\ audits (trace w') = audits (trace w) ++ [("login"%string, None, Some uid)]
    /\ audit_log E (fs w')
       = audit_log E (fs w)
         ++ Str.bytes (toISOString E (now w) +:+ " - login by " +:+ uid
                         +:+ newline).
Proof.
  intros w' H Hstatus. subst w'.
  destruct (login_answer_200 E req w r H Hstatus)
    as (username & password & u & uid & token & m1 & m2
        & Hu & Hp & Hauth & Huid & Hprov & Hsign & Haudit & Hrun).
  exists username, password, u, uid, token.
  do 5 (split; [assumption|]).
  rewrite Hrun in H |- *. answer H. injection H as <-.
  split; [reflexivity|]. cbn [logged on_disk trace fs].
  split; [rewrite ServerFacts.audits_app; reflexivity|].
  destruct (DiskFacts.provision_outcome E (userHomeDir E uid) w
              (home_truthy E uid))
    as (res' & m1' & Hprov' & _ & _ & Hlog1 & _).
  rewrite Hprov in Hprov'. apply LoginDisk.pair_eq in Hprov' as [_ Hm].
  apply LoginDisk.world_disk in Hm. subst m1'.
  destruct (DiskFacts.audit_outcome E "login" None uid (on_disk w m1))
    as (res2 & m2' & Hout & _ & _ & Hlog2).
  rewrite Haudit in Hout. apply LoginDisk.pair_eq in Hout as [<- Hm].
  apply (f_equal fs) in Hm. cbn [on_disk fs] in Hm. subst m2'.
  cbn [on_disk fs now] in Hlog2. rewrite Hlog2, Hlog1. reflexivity.
Qed.

(** X6. The first login of a user makes the storage root: when the root does
    not exist and login answers with status 200, then afterwards the root
    and its [uploads] directory exist and the seed file holds the
    instructions. *)
Theorem first_login_provisions (E : env) (req : request)
    (username password : string) (u : ldapUser) (uid : string) (w : world)
    (r : response) :
  Str.provided (body_username req) = Some username ->
  Str.provided (body_password req) = Some password ->
  authenticate E username password = LdapUser u ->
  Str.provided (ldap_uid u) = Some uid ->
  Fs.existsSync (fs w) (userHomeDir E uid) = false ->
  let w' := run (post_login E req) w in
  responses (trace w') = responses (trace w) ++ [r] ->
  status r = 200 ->
  let home := userHomeDir E uid in
  fs w' !! home = Some Fs.Dir
  /\ fs w' !! Path.join [home; "uploads"%string] = Some Fs.Dir
  /\ fs w' !! Path.join [home; "/uploads/"; "instructions.txt"]%string
     = Some (Fs.File (Str.bytes instructionsContent)).
Proof.
  intros Hu Hp Hauth Huid Hnew w' H Hstatus home. subst w'.
  destruct (login_answer_200 E req w r H Hstatus)
    as (username' & password' & u' & uid' & token & m1 & m2
        & Hu' & Hp' & Hauth' & Huid' & Hprov & Hsign & Haudit & Hrun).
  assert (username' = username) as -> by congruence.
  assert (password' = password) as -> by congruence.
  assert (u' = u) as -> by congruence.
  assert (uid' = uid) as -> by congruence.
  rewrite Hrun. cbn [logged on_disk fs]. fold home in Hprov.
  destruct (DiskFacts.provision_outcome E home w (home_truthy E uid))
    as (res' & m1' & Hprov' & _ & _ & _ & _ & Hmade).
  rewrite Hprov in Hprov'. apply LoginDisk.pair_eq in Hprov' as [<- Hm].
  apply LoginDisk.world_disk in Hm. subst m1'.
  destruct (Hmade Hnew eq_refl) as (Hhome & Huploads & Hseed).
  destruct (DiskFacts.audit_outcome E "login" None uid (on_disk w m1))
    as (res2 & m2' & Hout & Helse & Hdirs & _).
  rewrite Haudit in Hout. apply LoginDisk.pair_eq in Hout as [_ Hm].
  apply (f_equal fs) in Hm. cbn [on_disk fs] in Hm. subst m2'.
  cbn [on_disk fs] in Helse, Hdirs.
  split; [apply Hdirs, Hhome|]. split; [apply Hdirs, Huploads|].
  apply Helse; [apply DiskFacts.seed_is_not_the_log|exact Hseed].
Qed.

(** X7. With an audit log that cannot be written, a login the directory
    turned down is not answered at all: the exception of [audit] leaves
    the [async] handler, and nothing is sent. *)
Theorem rejected_login_unanswered_without_audit (E : env) (req : request)
    (username password error : string) (w : world) :
  Str.provided (body_username req) = Some username ->
  Str.provided (body_password req) = Some password ->
  authenticate E username password = LdapError error ->
  audit_ready E (fs w) = false ->
  let w' := run (post_login E req) w in
  responses (trace w') = responses (trace w)
  /\ (exists e : exception,
        trace w'
        = trace w
          ++ [ConsoleError "LDAP authentication error:" (LdapException error);
              AuditCall "failed login" None (Some username);
              Unhandled e])
  /\ audit_log E (fs w') = audit_log E (fs w).
Proof.
  intros Hu Hp Hauth Hready w'. subst w'. unfold run.
  rewrite (ServerFacts.login_rejected_eq E req username password error w)
    by assumption.
  cbv zeta.
  set (w1 := logged w _).
  destruct (Gateway.audit_fails E "failed login" None username w1 Hready)
    as (e & w2 & Hfail).
  destruct (DiskFacts.audit_outcome E "failed login" None username w1)
    as (res & m' & Hout & _ & _ & Hlog).
  rewrite Hfail in Hout. apply LoginDisk.pair_eq in Hout as [<- ->].
  rewrite Hfail. subst w1. cbn [snd logged on_disk trace fs] in *.
  rewrite app_nil_r in Hlog.
  split; [|split; [|exact Hlog]].
  - rewrite !ServerFacts.responses_app, Issuer.responses_console,
      Issuer.responses_audit, Issuer.responses_unhandled,
      Issuer.responses_nil, !app_nil_r.
    reflexivity.
  - exists e. rewrite <- !app_assoc. reflexivity.
Qed.

(** X8. With an audit log that cannot be written, a login the directory
    accepted is refused: for a user whose storage root exists, the token
    is signed, the exception of [audit] is caught, and the answer is 500
    "Internal Server Error", without the token. *)
Theorem accepted_login_refused_without_audit (E : env) (req : request)
    (username password : string) (u : ldapUser) (uid key : string)
    (w : world) :
  Str.provided (body_username req) = Some username ->
  Str.provided (body_password req) = Some password ->
  authenticate E username password = LdapUser u ->
  Str.provided (ldap_uid u) = Some uid ->
  Fs.existsSync (fs w) (userHomeDir E uid) = true ->
  Str.provided (JWT_SECRET E) = Some key ->
  audit_ready E (fs w) = false ->
  let w' := run (post_login E req) w in
  responses (trace w') = responses (trace w) ++ [internal_error]
  /\ audits (trace w') = audits (trace w) ++ [("login"%string, None, Some uid)]
  /\ audit_log E (fs w') = audit_log E (fs w).
Proof.
  intros Hu Hp Hauth Huid Hex Hkey Hready w'. subst w'.
  destruct (login_accepted_world E req username password u uid w
              Hu Hp Hauth Huid)
    as (res & m1 & m2 & how & Hprov & -> & Hhow).
  destruct (DiskFacts.provision_outcome E (userHomeDir E uid) w
              (home_truthy E uid))
    as (res' & m1' & Hprov' & _ & _ & _ & Hold & _).
  rewrite Hprov in Hprov'. apply LoginDisk.pair_eq in Hprov' as [<- Hm].
  apply LoginDisk.world_disk in Hm. subst m1'.
  destruct (Hold Hex) as [-> ->].
  assert (on_disk w (fs w) = w) as Hw by apply ServerFacts.on_disk_same.
  destruct (Gateway.audit_fails E "login" None uid w Hready)
    as (e & w2 & Hfail).
  destruct (DiskFacts.audit_outcome E "login" None uid w)
    as (res2 & m2' & Hout & _ & _ & Hlog).
  rewrite Hfail in Hout. apply LoginDisk.pair_eq in Hout as [<- ->].
  rewrite app_nil_r in Hlog.
  destruct how as [err|e'|err|token].
  - destruct Hhow as [Hres _]. discriminate Hres.
  - destruct Hhow as (_ & _ & Hsign). unfold Jwt.sign in Hsign.
    rewrite Hkey in Hsign. discriminate Hsign.
  - destruct Hhow as (_ & _ & Haudit). rewrite Hw, Hfail in Haudit.
    apply LoginDisk.pair_eq in Haudit as [_ Hm].
    apply (f_equal fs) in Hm. cbn [on_disk fs] in Hm. subst m2'.
    cbn [logged on_disk trace fs].
    rewrite ServerFacts.responses_app, ServerFacts.audits_app.
    split; [reflexivity|]. split; [reflexivity|exact Hlog].
  - destruct Hhow as (_ & _ & Haudit). rewrite Hw, Hfail in Haudit.
    discriminate Haudit.
Qed.

(** X9. Without a signing secret there are no sessions: login never answers
    with status 200, and [jwtMiddleware] turns every request down. *)
Theorem no_secret_no_session (E : env) :
  Str.provided (JWT_SECRET E) = None ->
  (forall (req : request) (w : world) (r : response),
     responses (trace (run (post_login E req) w)) = responses (trace w) ++ [r] ->
     status r <> 200)
  /\ (forall (req : request) (w : world),
        fst (jwtMiddleware E req w) = inr None).
Proof.
  intros Hkey. split.
  - intros req w r H Hstatus.
    destruct (login_answer_200 E req w r H Hstatus)
      as (username & password & u & uid & token & m1 & m2
          & _ & _ & _ & _ & _ & Hsign & _).
    unfold Jwt.sign in Hsign. rewrite Hkey in Hsign. discriminate Hsign.
  - intros req w. rewrite ServerFacts.jwtMiddleware_eq.
    destruct (Str.provided (authorization req)) as [h|]; [|reflexivity].
    assert (exists e, Jwt.verify (jwt E) (bearer h) (JWT_SECRET E) (now w)
                      = inl e) as (e & ->); [|reflexivity].
    unfold Jwt.verify. rewrite Hkey.
    destruct (Str.provided (bearer h)) as [t|]; [|eauto].
    destruct (Str.split "." t) as [|a [|b [|c [|d l]]]]; eauto.
    destruct (Jwt.decode (jwt E) b); [|eauto].
    destruct (negb (String.eqb a Jwt.header)); [eauto|].
    destruct (String.eqb c EmptyString); eauto.
Qed.

End Login.

(* ===================================================================== *)
(** * The audit entry of a failed login *)
(* ===================================================================== *)

Module FailedLogin.

Import Http Server.
Local Open Scope js_scope.


End FailedLogin.

(* ===================================================================== *)
(** * Names under a directory *)
(* ===================================================================== *)

Module DirFacts.

Import Http Server.
Local Open Scope js_scope.

(** ** A name directly under a directory *)

Lemma split_child (d n : string) :
  Str.contains Path.sep n = false ->
  Str.split Path.sep (d +:+ "/" +:+ n) = Str.split Path.sep d ++ [n].
Proof.
  intros Hn.
  change (d +:+ "/" +:+ n) with (d +:+ String Path.sep n).
  rewrite StrFacts.split_app, (StrFacts.split_free _ _ Hn). reflexivity.
Qed.

Lemma dirname_child (d n : string) :
  d <> EmptyString -> Str.contains Path.sep n = false ->
  Fs.dirname (d +:+ "/" +:+ n) = d.
Proof.
  intros Hd Hn. unfold Fs.dirname.
  rewrite (split_child d n Hn), removelast_last.
  pose proof (FsFacts.join_split_path d) as Hjoin.
  destruct (Str.split Path.sep d) as [|x [|y l]] eqn:Hsplit.
  - destruct (StrFacts.split_nonempty _ _ Hsplit).
  - cbn [Str.join] in Hjoin. subst x.
    destruct d; [destruct (Hd eq_refl)|reflexivity].
  - destruct x; exact Hjoin.
Qed.

Lemma basename_child (d n : string) :
  Str.contains Path.sep n = false -> Fs.basename (d +:+ "/" +:+ n) = n.
Proof.
  intros Hn. unfold Fs.basename. rewrite (split_child d n Hn).
  apply last_last.
Qed.

(** A path is its directory and its last segment, unless it has one
    segment only or lies directly under the root. *)
Lemma dirname_basename (k : string) :
  Fs.dirname k <> "."%string -> Fs.dirname k <> "/"%string ->
  k = Fs.dirname k +:+ "/" +:+ Fs.basename k.
Proof.
  unfold Fs.dirname, Fs.basename. intros Hdot Hroot.
  pose proof (FsFacts.join_split_path k) as Hjoin.
  destruct (@exists_last _ (Str.split Path.sep k) (StrFacts.split_nonempty _ _))
    as (init & n & Hsplit).
  rewrite Hsplit in *. rewrite removelast_last in *. rewrite last_last.
  destruct init as [|x init]; [destruct (Hdot eq_refl)|].
  rewrite StrFacts.join_app in Hjoin by discriminate.
  destruct x as [|c x]; [destruct init as [|y init]|];
    [destruct (Hroot eq_refl)|symmetry; exact Hjoin..].
Qed.

(** The path of a name in a directory that is itself a name under a
    root. *)
Lemma child_path (home u n : string) :
  Path.name u -> Path.name n ->
  let dir := Path.join [home; u] in
  Path.join [dir; n] = dir +:+ "/" +:+ n
  /\ Path.join [home; u; n] = dir +:+ "/" +:+ n
  /\ Fs.basename dir = u.
Proof.
  intros Hup Hn dir.
  assert (exists (a : bool) (T : list string),
            Path.settled (negb a) T
            /\ dir = Path.render a false (u :: T)
            /\ Path.join [home; u; n] = Path.render a false (n :: u :: T))
    as (a & T & HT & Hdir & Hfile).
  { unfold dir. destruct (Str.truthy home) eqn:Hhome.
    - exists (Path.isAbsolute home),
        (fold_left (Path.step (negb (Path.isAbsolute home)))
           (flat_map (Str.split Path.sep) [home]) []).
      split.
      { cbn [flat_map]. rewrite app_nil_r. apply PathFacts.segments_settled. }
      split.
      + apply (PathFacts.join_names home [] [] u);
          [repeat constructor; exact Hhome|constructor|exact Hup].
      + apply (PathFacts.join_names home [] [u] n);
          [repeat constructor; exact Hhome
          |constructor; [exact Hup|constructor]|exact Hn].
    - rewrite !(PathFacts.join_skip home) by exact Hhome.
      exists false, []. split; [apply PathFacts.settled_nil|].
      assert (Path.isAbsolute u = false) as Hrel
        by (apply PathFacts.starts_free, PathFacts.name_free, Hup).
      assert (fold_left (Path.step true) (flat_map (Str.split Path.sep) [u]) []
              = [u]) as Hfold.
      { rewrite (PathFacts.flat_map_names [u])
          by (constructor; [exact Hup|constructor]).
        apply (PathFacts.fold_names true [u] []).
        constructor; [exact Hup|constructor]. }
      split.
      + unfold Path.join. cbn [List.filter].
        rewrite (PathFacts.name_truthy u Hup). cbn [Str.join].
        rewrite PathFacts.normalize_render by apply Hup.
        rewrite Hrel. cbn [negb]. unfold Path.segments.
        rewrite (StrFacts.ends_with_contains _ _ (PathFacts.name_free u Hup)).
        cbn [flat_map] in Hfold. rewrite app_nil_r in Hfold.
        rewrite Hfold. reflexivity.
      + pose proof (PathFacts.join_names u [] [] n) as Hj.
        cbn [app rev] in Hj. rewrite Hrel in Hj. cbn [negb] in Hj.
        rewrite Hfold in Hj. apply Hj;
          [repeat constructor; apply PathFacts.name_truthy, Hup
          |constructor|exact Hn]. }
  assert (Path.settled (negb a) (u :: T)) as HS
    by (apply PathFacts.settled_push; assumption).
  assert (Path.settled (negb a) (n :: u :: T)) as HS'
    by (apply PathFacts.settled_push; assumption).
  assert (Path.join [home; u; n] = dir +:+ "/" +:+ n) as Hchild.
  { rewrite Hfile, Hdir.
    apply (PathFacts.render_push (negb a)); [exact HS'|discriminate]. }
  split; [|split; [exact Hchild|]].
  - rewrite <- Hchild. unfold dir.
    apply (PathFacts.join_join [home; u] [n]).
    simpl. rewrite (PathFacts.name_truthy u Hup).
    destruct (Str.truthy home); discriminate.
  - rewrite Hdir. destruct T as [|t T].
    + unfold Path.render. cbn [rev app Str.join].
      destruct Hup as [(Hne & _ & Hfree) _].
      rewrite (PathFacts.eqb_false_of_ne _ _ Hne).
      destruct a; [|unfold Fs.basename;
                     rewrite (StrFacts.split_free _ _ Hfree); reflexivity].
      apply (basename_child EmptyString u Hfree).
    + rewrite (PathFacts.render_push (negb a)); [|exact HS|discriminate].
      apply basename_child, PathFacts.name_free, Hup.
Qed.

(** A plain file name never resolves to the audit log: the log lies in a
    directory named [audit], a stored file in one named [uploads]. *)
Lemma plain_name_misses_the_log (E : env) (home f : string) :
  Path.name f -> filePath home f <> auditFilePath E.
Proof.
  intros Hf Heq.
  assert (Path.name "uploads") as Hup by (apply PathFacts.plain_name; reflexivity).
  assert (Path.name "audit") as Haudit by (apply PathFacts.plain_name; reflexivity).
  assert (Path.name "record.txt") as Hrecord
    by (apply PathFacts.plain_name; reflexivity).
  destruct (child_path home "uploads" f Hup Hf) as (_ & Hfile & Hbase).
  destruct (child_path (dirname E) "audit" "record.txt" Haudit Hrecord)
    as (Hlog & _ & Hbase').
  unfold filePath in Heq. unfold auditFilePath, auditDir in Heq.
  rewrite Hfile, Hlog in Heq.
  apply (f_equal Fs.dirname) in Heq.
  rewrite !dirname_child in Heq;
    try (apply StrFacts.truthy_nonempty, PathFacts.join_truthy_path);
    try (apply PathFacts.name_free; assumption).
  rewrite Heq in Hbase. rewrite Hbase in Hbase'. discriminate Hbase'.
Qed.

(** [path.basename] of a name in a directory, and of the path delete,
    download and view compute for a plain file name. *)
Lemma path_basename_child (d n : string) :
  Path.name n -> Path.basename (d +:+ "/" +:+ n) = n.
Proof.
  intros Hn. unfold Path.basename.
  rewrite (split_child d n (PathFacts.name_free n Hn)), List.filter_app.
  cbn [List.filter]. rewrite (PathFacts.name_truthy n Hn). apply last_last.
Qed.

Lemma target_of_name (home f : string) :
  Path.name f ->
  filePath home f = Path.join [home; "uploads"%string] +:+ "/" +:+ f
  /\ Path.basename (filePath home f) = f.
Proof.
  intros Hf.
  assert (Path.name "uploads") as Hup
    by (apply PathFacts.plain_name; reflexivity).
  destruct (child_path home "uploads" f Hup Hf) as (_ & Hchild & _).
  unfold filePath. rewrite Hchild.
  split; [reflexivity|apply path_basename_child, Hf].
Qed.

End DirFacts.

(* ===================================================================== *)
(** * Delete, download and view on the disk *)
(* ===================================================================== *)

Module FileFacts.

Import Http Server.
Local Open Scope js_scope.

Section Routes.

Context (E : env).

(** When [audit] has returned, the log is a regular file. *)
Lemma audit_returned (action : string) (filename : option string)
    (uid : string) (w w' : world) :
  audit E action filename (Some uid) w = (inr tt, w') ->
  fs w' !! auditFilePath E = Some (Fs.File (audit_log E (fs w'))).
Proof.
  rewrite ServerFacts.audit_eq. cbv zeta.
  destruct (if Fs.existsSync (fs w) (auditDir E) then Fs.Ok (fs w)
            else Fs.mkdirp (fs w) (auditDir E)) as [m1|e]; [|discriminate].
  rewrite ServerFacts.appendFile_eq.
  destruct (appendable m1 (auditFilePath E)).
  - intros H. injection H as <-. cbn [on_disk fs]. unfold audit_log.
    rewrite !lookup_insert_eq. reflexivity.
  - destruct (m1 !! auditFilePath E); discriminate.
Qed.

(** A verified request with a file name, on a disk that lets [audit]
    write: the last layer runs on the disk [audit] left, whose log has
    the line of the call at its end. *)
Lemma logged_route (action : string) (last : request -> M unit)
    (req : request) (authHeader : string) (p : Jwt.payload) (f : string)
    (w : world) :
  Str.provided (authorization req) = Some authHeader ->
  Jwt.verify (jwt E) (bearer authHeader) (JWT_SECRET E) (now w) = inr p ->
  Str.provided (params_filename req) = Some f ->
  audit_ready E (fs w) = true ->
  exists m' : gmap string Fs.node,
    (req <~ jwtMiddleware E req ;;
     req <~ auditMiddleware E action req ;;
     last req) w
    = last (with_user req p)
        (on_disk (logged w [AuditCall action (Some f) (Some (Jwt.uid p))]) m')
    /\ audit_log E m'
       = audit_log E (fs w) ++ audit_line E (now w) action (Jwt.uid p) f
    /\ audit_ready E m' = true
    /\ elsewhere E (fs w) m'
    /\ m' !! auditFilePath E = Some (Fs.File (audit_log E m'))
    /\ (forall q : string, fs w !! q = Some Fs.Dir -> m' !! q = Some Fs.Dir).
Proof.
  intros Hauth Hverify Hf Hready.
  destruct (Gateway.audited_route E action last req authHeader p f w
              Hauth Hverify Hf) as (res & m' & Haudit & _ & Hroute).
  destruct (ServerFacts.audit_ok E action (Some f) (Jwt.uid p) w Hready)
    as (m2 & Hok & Hlog & Hready' & Helse).
  destruct (DiskFacts.audit_outcome E action (Some f) (Jwt.uid p) w)
    as (res3 & m3 & Hout & _ & Hdirs & _).
  cbv zeta in Haudit, Hroute. rewrite Hok in Haudit, Hout.
  apply LoginDisk.pair_eq in Haudit as [<- Hm].
  apply (f_equal fs) in Hm. cbn [on_disk fs] in Hm. subst m2.
  apply LoginDisk.pair_eq in Hout as [_ Hm].
  apply (f_equal fs) in Hm. cbn [on_disk fs] in Hm. subst m3.
  exists m'. split; [exact Hroute|]. split; [exact Hlog|].
  split; [exact Hready'|]. split; [exact Helse|].
  split; [exact (audit_returned _ _ _ _ _ Hok)|exact Hdirs].
Qed.

(** What reading finds under a path that holds no regular file. *)
Lemma readFile_absent (m : gmap string Fs.node) (path : string) :
  (forall data : list Z, m !! path <> Some (Fs.File data)) ->
  exists e : Fs.error, Fs.readFile m path = Fs.Err e.
Proof.
  intros H. unfold Fs.readFile.
  destruct (m !! path) as [[data|]|]; [destruct (H data eq_refl)| |]; eauto.
Qed.

Lemma unlink_absent (m : gmap string Fs.node) (path : string) :
  (forall data : list Z, m !! path <> Some (Fs.File data)) ->
  exists e : Fs.error, Fs.unlink m path = Fs.Err e.
Proof.
  intros H. unfold Fs.unlink.
  destruct (m !! path) as [[data|]|]; [destruct (H data eq_refl)| |]; eauto.
Qed.

(** The answers of a verified request for a name under which the
    caller's directory holds no regular file, whatever [audit] did. *)
Lemma absent_target (action : string) (last : request -> M unit)
    (failure : response) (label : string)
    (req : request) (authHeader : string) (p : Jwt.payload)
    (f : string) (w : world) :
  Str.provided (authorization req) = Some authHeader ->
  Jwt.verify (jwt E) (bearer authHeader) (JWT_SECRET E) (now w) = inr p ->
  Str.provided (params_filename req) = Some f ->
  (forall data : list Z,
     fs w !! filePath (Jwt.homeDirectory p) f <> Some (Fs.File data)) ->
  filePath (Jwt.homeDirectory p) f <> auditFilePath E ->
  status failure = 500 ->
  (forall (w1 : world),
     (forall data : list Z,
        fs w1 !! filePath (Jwt.homeDirectory p) f <> Some (Fs.File data)) ->
     exists e : exception,
       last (with_user req p) w1
       = (inr tt, logged w1 [ConsoleError label e; Sent failure])) ->
  let w' := run (req <~ jwtMiddleware E req ;;
                 req <~ auditMiddleware E action req ;;
                 last req) w in
  (exists r : response,
     responses (trace w') = responses (trace w) ++ [r] /\ status r = 500)
  /\ elsewhere E (fs w) (fs w')
  /\ (audit_ready E (fs w) = true ->
      responses (trace w') = responses (trace w) ++ [failure]).
Proof.
  intros Hauth Hverify Hf Habsent Hlog Hstatus Hlast w'. subst w'.
  destruct (Gateway.audited_route E action last req authHeader p f w
              Hauth Hverify Hf) as (res & m' & Haudit & Helse & Hroute).
  cbv zeta in Haudit, Hroute. unfold run. rewrite Hroute.
  set (w1 := on_disk (logged w _) m') in *.
  assert (forall data, fs w1 !! filePath (Jwt.homeDirectory p) f
                       <> Some (Fs.File data)) as Hstill.
  { intros data H. apply (Helse _ _ Hlog) in H. exact (Habsent data H). }
  destruct (Hlast w1 Hstill) as (e & Hrun).
  assert (responses (trace (logged w1 [ConsoleError label e; Sent failure]))
          = responses (trace w) ++ [failure]) as Hfailure.
  { subst w1. cbn [logged on_disk trace].
    rewrite !ServerFacts.responses_app, app_nil_r. reflexivity. }
  destruct res as [err|[]].
  - split; [|split; [exact Helse|]].
    + eexists. cbn [snd logged on_disk trace fs]. subst w1.
      cbn [logged on_disk trace].
      rewrite !ServerFacts.responses_app, app_nil_r.
      split; reflexivity.
    + intros Hready.
      destruct (ServerFacts.audit_ok E action (Some f) (Jwt.uid p) w Hready)
        as (m2 & Hok & _).
      rewrite Hok in Haudit. discriminate Haudit.
  - rewrite Hrun. cbn [snd].
    split; [exists failure; split; [exact Hfailure|exact Hstatus]|].
    split; [exact Helse|]. intros _. exact Hfailure.
Qed.

Lemma absent_delete (req : request) (authHeader : string) (p : Jwt.payload)
    (f : string) (w : world) :
  Str.provided (authorization req) = Some authHeader ->
  Jwt.verify (jwt E) (bearer authHeader) (JWT_SECRET E) (now w) = inr p ->
  Str.provided (params_filename req) = Some f ->
  (forall data : list Z,
     fs w !! filePath (Jwt.homeDirectory p) f <> Some (Fs.File data)) ->
  filePath (Jwt.homeDirectory p) f <> auditFilePath E ->
  let w' := run (delete_delete E req) w in
  (exists r : response,
     responses (trace w') = responses (trace w) ++ [r] /\ status r = 500)
  /\ elsewhere E (fs w) (fs w')
  /\ (audit_ready E (fs w) = true ->
      responses (trace w') = responses (trace w) ++ [internal_error]).
Proof.
  intros Hauth Hverify Hf Habsent Hlog.
  apply (absent_target "delete" (fun r => handler (delete_file r))
           internal_error "Error deleting file: " req authHeader p f w);
    try assumption; [reflexivity|].
  intros w1 Hstill.
  destruct (Gateway.filename_of_param req p f Hf) as (_ & Hparam & Huser).
  rewrite (ServerFacts.delete_file_eq _ p f) by assumption. cbv zeta.
  destruct (unlink_absent _ _ Hstill) as (e & ->). eauto.
Qed.

Lemma absent_download (req : request) (authHeader : string)
    (p : Jwt.payload) (f : string) (w : world) :
  Str.provided (authorization req) = Some authHeader ->
  Jwt.verify (jwt E) (bearer authHeader) (JWT_SECRET E) (now w) = inr p ->
  Str.provided (params_filename req) = Some f ->
  (forall data : list Z,
     fs w !! filePath (Jwt.homeDirectory p) f <> Some (Fs.File data)) ->
  filePath (Jwt.homeDirectory p) f <> auditFilePath E ->
  let w' := run (get_download E req) w in
  (exists r : response,
     responses (trace w') = responses (trace w) ++ [r] /\ status r = 500)
  /\ elsewhere E (fs w) (fs w')
  /\ (audit_ready E (fs w) = true ->
      responses (trace w') = responses (trace w) ++ [internal_error]).
Proof.
  intros Hauth Hverify Hf Habsent Hlog.
  apply (absent_target "download" (fun r => handler (download_file r))
           internal_error "Error downloading file:" req authHeader p f w);
    try assumption; [reflexivity|].
  intros w1 Hstill.
  destruct (Gateway.filename_of_param req p f Hf) as (_ & Hparam & Huser).
  rewrite (ServerFacts.download_file_eq _ p f) by assumption. cbv zeta.
  destruct (Str.starts_with _ _); [eauto|].
  destruct (readFile_absent _ _ Hstill) as (e & ->). eauto.
Qed.

Lemma absent_view (req : request) (authHeader : string)
    (p : Jwt.payload) (f : string) (w : world) :
  Str.provided (authorization req) = Some authHeader ->
  Jwt.verify (jwt E) (bearer authHeader) (JWT_SECRET E) (now w) = inr p ->
  Str.provided (params_filename req) = Some f ->
  (forall data : list Z,
     fs w !! filePath (Jwt.homeDirectory p) f <> Some (Fs.File data)) ->
  filePath (Jwt.homeDirectory p) f <> auditFilePath E ->
  let w' := run (get_view E req) w in
  (exists r : response,
     responses (trace w') = responses (trace w) ++ [r] /\ status r = 500)
  /\ elsewhere E (fs w) (fs w')
  /\ (audit_ready E (fs w) = true ->
      responses (trace w') = responses (trace w) ++ [unreadable]).
Proof.
  intros Hauth Hverify Hf Habsent Hlog.
  apply (absent_target "view" (fun r => async_handler (view_file r))
           unreadable "Error reading file:" req authHeader p f w);
    try assumption; [reflexivity|].
  intros w1 Hstill.
  destruct (Gateway.filename_of_param req p f Hf) as (_ & Hparam & Huser).
  rewrite (ServerFacts.view_file_eq _ p f) by assumption. cbv zeta.
  destruct (readFile_absent _ _ Hstill) as (e & ->). eauto.
Qed.

(** The disk after the last layer of delete, download and view. *)
Lemma download_disk (req : request) (w : world) :
  fs (snd (handler (download_file req) w)) = fs w.
Proof.
  rewrite ServerFacts.handler_eq. unfold download_file, with_target.
  destruct (user req) as [p|]; [|reflexivity].
  destruct (params_filename req) as [f|]; [|reflexivity].
  destruct w as [m t tr].
  cbv [try_catch bind fs_read disk ret throw console_error send_json emit
       fs now trace].
  destruct (Str.starts_with _ _); [reflexivity|].
  destruct (Fs.readFile m _); reflexivity.
Qed.

Lemma view_disk (req : request) (w : world) :
  fs (snd (async_handler (view_file req) w)) = fs w.
Proof.
  unfold async_handler, view_file, with_target.
  destruct (user req) as [p|]; [|reflexivity].
  destruct (params_filename req) as [f|]; [|reflexivity].
  destruct w as [m t tr].
  cbv [try_catch bind fs_read disk ret throw console_error send_json emit
       fs now trace].
  destruct (Fs.readFile m _); reflexivity.
Qed.

Lemma list_disk (req : request) (w : world) :
  fs (snd (async_handler (list_files E req) w)) = fs w.
Proof.
  rewrite ServerFacts.list_files_eq. cbv zeta.
  destruct (authorization req) as [h|]; [|reflexivity].
  destruct (Jwt.verify (jwt E) (bearer h) (JWT_SECRET E) (now w)) as [e|p];
    [reflexivity|].
  destruct (Fs.readdir _ _); reflexivity.
Qed.

(** An audited route whose last layer leaves the disk alone changes no
    regular file but the audit log, keeps every directory, and only adds
    to the end of the log. *)
Lemma reading_route (action : string) (last : request -> M unit)
    (req : request) (w : world) :
  (forall (r : request) (w1 : world), fs (snd (last r w1)) = fs w1) ->
  let w' := run (req <~ jwtMiddleware E req ;;
                 req <~ auditMiddleware E action req ;;
                 last req) w in
  elsewhere E (fs w) (fs w') /\ preserved E (fs w) (fs w').
Proof.
  intros Hlast w'. subst w'. unfold run. rewrite ServerFacts.gated_audited.
  assert (elsewhere E (fs w) (fs w) /\ preserved E (fs w) (fs w)) as Hsame.
  { split; [apply ServerFacts.elsewhere_of_same, FsFacts.same_files_refl|].
    apply LoginDisk.preserved_refl. }
  destruct (Str.provided (authorization req)) as [h|]; [|exact Hsame].
  destruct (Jwt.verify (jwt E) (bearer h) (JWT_SECRET E) (now w)) as [e|p];
    [exact Hsame|].
  cbv zeta.
  pose proof (LoginDisk.audit_preserved E action (filename_of (with_user req p))
                (Jwt.uid p) w) as K.
  destruct (ServerFacts.audit_any E action (filename_of (with_user req p))
              (Jwt.uid p) w) as (res & m' & Hout & Helse).
  rewrite Hout in K |- *. cbn [snd on_disk fs] in K.
  destruct res as [e|[]]; [cbn [snd logged on_disk fs]; auto|].
  rewrite Hlast. cbn [on_disk fs]. auto.
Qed.

End Routes.
End FileFacts.

(* ===================================================================== *)
(** * The file operations, one by one *)
(* ===================================================================== *)

Module Files.

Import Http Server.
Local Open Scope js_scope.

(** X10. One call of [audit], whether it returns or throws: the call is
    observed, nothing is answered, every other regular file and every
    directory is as it was, and the log is the old log with, when the
    call returned, exactly the line of the call at its end. *)
Theorem audit_appends_one_line (E : env) (action : string)
    (filename : option string) (uid : string) (w : world) :
  exists (res : exception + unit) (w' : world),
    audit E action filename (Some uid) w = (res, w')
    /\ audits (trace w') = audits (trace w) ++ [(action, filename, Some uid)]
    /\ responses (trace w') = responses (trace w)
    /\ elsewhere E (fs w) (fs w')
    /\ (forall q : string, fs w !! q = Some Fs.Dir -> fs w' !! q = Some Fs.Dir)
    /\ audit_log E (fs w')
       = audit_log E (fs w)
         ++ match res with
            | inr _ =>
                Str.bytes
                  (auditMessage (toISOString E (now w)) action filename uid)
            | inl _ => []
            end.
Proof.
  destruct (DiskFacts.audit_outcome E action filename uid w)
    as (res & m' & Hout & Helse & Hdirs & Hlog).
  exists res. eexists. split; [exact Hout|].
  cbn [on_disk logged trace fs].
  rewrite ServerFacts.audits_app, ServerFacts.responses_app.
  split; [reflexivity|]. split; [apply app_nil_r|]. auto.
Qed.

(** X11. [audit] makes its directory on first use: when the audit directory
    does not exist and the disk lets [audit] write, the call returns,
    the directory is there afterwards, and the log is a regular file
    ending in the line of the call. *)
Theorem audit_makes_its_directory (E : env) (action : string)
    (filename : option string) (uid : string) (w : world) :
  Fs.existsSync (fs w) (auditDir E) = false ->
  audit_ready E (fs w) = true ->
  exists w' : world,
    audit E action filename (Some uid) w = (inr tt, w')
    /\ fs w' !! auditDir E = Some Fs.Dir
    /\ fs w' !! auditFilePath E
       = Some (Fs.File
                 (audit_log E (fs w)
                    ++ Str.bytes
                         (auditMessage (toISOString E (now w)) action filename
                            uid))).
Proof.
  intros Hnew Hready. rewrite ServerFacts.audit_eq. cbv zeta.
  unfold audit_ready in Hready. rewrite Hnew in Hready |- *.
  destruct (Fs.mkdirp (fs w) (auditDir E)) as [m1|e] eqn:Hmk;
    [|discriminate Hready].
  rewrite ServerFacts.appendFile_eq, Hready.
  eexists. split; [reflexivity|]. cbn [on_disk fs].
  pose proof (FsFacts.mkdirp_exists _ _ _ (ServerFacts.auditDir_truthy E) Hmk)
    as Hdir.
  split.
  - rewrite lookup_insert_ne; [exact Hdir|].
    intros Heq. unfold appendable in Hready. rewrite Heq, Hdir in Hready.
    discriminate Hready.
  - rewrite lookup_insert_eq.
    rewrite (DiskFacts.audit_log_same E _ _ (FsFacts.mkdirp_files _ _ _ Hmk)).
    reflexivity.
Qed.

(** X12. Download, view and delete of a verified request, on a disk that lets
    [audit] write, leave in the audit log exactly one more line, the one
    for their action, the caller's [uid] and the file name; for delete,
    as long as the name does not resolve to the log itself. *)
Theorem file_operation_is_logged (E : env) (req : request)
    (authHeader : string) (p : Jwt.payload) (f : string) (w : world) :
  Str.provided (authorization req) = Some authHeader ->
  Jwt.verify (jwt E) (bearer authHeader) (JWT_SECRET E) (now w) = inr p ->
  Str.provided (params_filename req) = Some f ->
  audit_ready E (fs w) = true ->
  audit_log E (fs (run (get_download E req) w))
  = audit_log E (fs w) ++ audit_line E (now w) "download" (Jwt.uid p) f
  /\ audit_log E (fs (run (get_view E req) w))
     = audit_log E (fs w) ++ audit_line E (now w) "view" (Jwt.uid p) f
  /\ (filePath (Jwt.homeDirectory p) f <> auditFilePath E ->
      audit_log E (fs (run (delete_delete E req) w))
      = audit_log E (fs w) ++ audit_line E (now w) "delete" (Jwt.uid p) f).
Proof.
  intros Hauth Hverify Hf Hready.
  destruct (Gateway.filename_of_param req p f Hf) as (_ & Hparam & Huser).
  split; [|split].
  - destruct (FileFacts.logged_route E "download"
                (fun r => handler (download_file r)) req authHeader p f w
                Hauth Hverify Hf Hready) as (m' & Hroute & Hlog & _).
    unfold run, get_download. rewrite Hroute, FileFacts.download_disk.
    exact Hlog.
  - destruct (FileFacts.logged_route E "view"
                (fun r => async_handler (view_file r)) req authHeader p f w
                Hauth Hverify Hf Hready) as (m' & Hroute & Hlog & _).
    unfold run, get_view. rewrite Hroute, FileFacts.view_disk.
    exact Hlog.
  - intros Hpath.
    destruct (FileFacts.logged_route E "delete"
                (fun r => handler (delete_file r)) req authHeader p f w
                Hauth Hverify Hf Hready) as (m' & Hroute & Hlog & _).
    unfold run, delete_delete. rewrite Hroute.
    rewrite (ServerFacts.delete_file_eq _ p f) by assumption. cbv zeta.
    cbn [on_disk fs]. unfold Fs.unlink.
    destruct (m' !! filePath (Jwt.homeDirectory p) f) as [[data|]|];
      cbn [snd logged on_disk fs]; try exact Hlog.
    rewrite DiskFacts.audit_log_delete by exact Hpath. exact Hlog.
Qed.

(** X13. Deleting a stored file: the answer is the success message, the file
    is gone, every other regular file is as it was, and from then on
    delete, download and view of that name are answered with status
    500. *)
Theorem delete_removes_the_file (E : env) (req : request)
    (authHeader : string) (p : Jwt.payload) (f : string) (data : list Z)
    (w : world) :
  Str.provided (authorization req) = Some authHeader ->
  Jwt.verify (jwt E) (bearer authHeader) (JWT_SECRET E) (now w) = inr p ->
  Str.provided (params_filename req) = Some f ->
  let path := filePath (Jwt.homeDirectory p) f in
  fs w !! path = Some (Fs.File data) ->
  path <> auditFilePath E ->
  audit_ready E (fs w) = true ->
  let w' := run (delete_delete E req) w in
  responses (trace w') = responses (trace w) ++ [deleted]
  /\ fs w' !! path = None
  /\ (forall (q : string) (other : list Z),
        q <> path -> q <> auditFilePath E ->
        (fs w !! q = Some (Fs.File other)
         <-> fs w' !! q = Some (Fs.File other)))
  /\ (forall (again : request) (authHeader' : string) (p' : Jwt.payload)
        (w2 : world) (route : request -> M unit),
        Str.provided (authorization again) = Some authHeader' ->
        Jwt.verify (jwt E) (bearer authHeader') (JWT_SECRET E) (now w2)
        = inr p' ->
        Jwt.homeDirectory p' = Jwt.homeDirectory p ->
        Str.provided (params_filename again) = Some f ->
        fs w2 = fs w' ->
        In route [delete_delete E; get_download E; get_view E] ->
        exists r : response,
          responses (trace (run (route again) w2))
          = responses (trace w2) ++ [r]
          /\ status r = 500).
Proof.
  intros Hauth Hverify Hf path Hfile Hpath Hready w'. subst w'.
  destruct (Gateway.filename_of_param req p f Hf) as (_ & Hparam & Huser).
  destruct (FileFacts.logged_route E "delete"
              (fun r => handler (delete_file r)) req authHeader p f w
              Hauth Hverify Hf Hready) as (m' & Hroute & _ & _ & Helse & _).
  unfold run, delete_delete. rewrite Hroute.
  rewrite (ServerFacts.delete_file_eq _ p f) by assumption. cbv zeta.
  cbn [on_disk fs]. fold path.
  assert (m' !! path = Some (Fs.File data)) as Hthere
    by (apply (Helse _ _ Hpath), Hfile).
  unfold Fs.unlink. rewrite Hthere. cbn [snd logged on_disk trace fs].
  split; [|split; [|split]].
  - rewrite !ServerFacts.responses_app, app_nil_r. reflexivity.
  - apply lookup_delete_eq.
  - intros q other Hq Hlog. rewrite lookup_delete_ne by congruence.
    apply Helse, Hlog.
  - intros again authHeader' p' w2 route Hauth' Hverify' Hhome Hf' Hfs Hroute'.
    assert (forall other, fs w2 !! filePath (Jwt.homeDirectory p') f
                          <> Some (Fs.File other)) as Habsent.
    { intros other. rewrite Hfs, Hhome. fold path.
      rewrite lookup_delete_eq. discriminate. }
    assert (filePath (Jwt.homeDirectory p') f <> auditFilePath E) as Hpath'
      by (rewrite Hhome; exact Hpath).
    destruct Hroute' as [<-|[<-|[<-|[]]]].
    + exact (proj1 (FileFacts.absent_delete E again authHeader' p' f w2
                      Hauth' Hverify' Hf' Habsent Hpath')).
    + exact (proj1 (FileFacts.absent_download E again authHeader' p' f w2
                      Hauth' Hverify' Hf' Habsent Hpath')).
    + exact (proj1 (FileFacts.absent_view E again authHeader' p' f w2
                      Hauth' Hverify' Hf' Habsent Hpath')).
Qed.

(** X14. The audit log is not out of reach of delete: when the file name of a
    verified request resolves to the path of the log, the call is
    logged and then the log is removed, with the success answer. *)
Theorem delete_can_remove_the_audit_log (E : env) (req : request)
    (authHeader : string) (p : Jwt.payload) (f : string) (w : world) :
  Str.provided (authorization req) = Some authHeader ->
  Jwt.verify (jwt E) (bearer authHeader) (JWT_SECRET E) (now w) = inr p ->
  Str.provided (params_filename req) = Some f ->
  filePath (Jwt.homeDirectory p) f = auditFilePath E ->
  audit_ready E (fs w) = true ->
  let w' := run (delete_delete E req) w in
  responses (trace w') = responses (trace w) ++ [deleted]
  /\ audits (trace w')
     = audits (trace w) ++ [("delete"%string, Some f, Some (Jwt.uid p))]
  /\ fs w' !! auditFilePath E = None
  /\ audit_log E (fs w') = [].
Proof.
  intros Hauth Hverify Hf Hpath Hready w'. subst w'.
  destruct (Gateway.filename_of_param req p f Hf) as (_ & Hparam & Huser).
  destruct (FileFacts.logged_route E "delete"
              (fun r => handler (delete_file r)) req authHeader p f w
              Hauth Hverify Hf Hready) as (m' & Hroute & _ & _ & _ & Hthere & _).
  unfold run, delete_delete. rewrite Hroute.
  rewrite (ServerFacts.delete_file_eq _ p f) by assumption. cbv zeta.
  cbn [on_disk fs]. rewrite Hpath.
  unfold Fs.unlink. rewrite Hthere. cbn [snd logged on_disk trace fs].
  rewrite !ServerFacts.responses_app, !ServerFacts.audits_app, !app_nil_r.
  split; [reflexivity|]. split; [reflexivity|].
  unfold audit_log. rewrite lookup_delete_eq. auto.
Qed.

(** X15. Download and view of a plain file name under which the caller's
    uploads directory holds no regular file are answered with status
    500, and no file is changed; when [audit] could write, the answers
    are "Internal Server Error" for download and "Error reading file" for
    view. *)
Theorem reading_absent_file_is_server_error (E : env) (req : request)
    (authHeader : string) (p : Jwt.payload) (f : string) (w : world) :
  Str.provided (authorization req) = Some authHeader ->
  Jwt.verify (jwt E) (bearer authHeader) (JWT_SECRET E) (now w) = inr p ->
  Str.provided (params_filename req) = Some f ->
  Path.name f ->
  (forall data : list Z,
     fs w !! filePath (Jwt.homeDirectory p) f <> Some (Fs.File data)) ->
  let down := run (get_download E req) w in
  let view := run (get_view E req) w in
  (exists r : response,
     responses (trace down) = responses (trace w) ++ [r] /\ status r = 500)
  /\ (exists r : response,
        responses (trace view) = responses (trace w) ++ [r] /\ status r = 500)
  /\ elsewhere E (fs w) (fs down)
  /\ elsewhere E (fs w) (fs view)
  /\ (audit_ready E (fs w) = true ->
      responses (trace down) = responses (trace w) ++ [internal_error]
      /\ responses (trace view) = responses (trace w) ++ [unreadable]).
Proof.
  intros Hauth Hverify Hf Hname Habsent down view. subst down view.
  pose proof (DirFacts.plain_name_misses_the_log E (Jwt.homeDirectory p) f
                Hname) as Hpath.
  destruct (FileFacts.absent_download E req authHeader p f w
              Hauth Hverify Hf Habsent Hpath) as (D1 & D2 & D3).
  destruct (FileFacts.absent_view E req authHeader p f w
              Hauth Hverify Hf Habsent Hpath) as (V1 & V2 & V3).
  auto 10.
Qed.

(** X16. Listing, download and view never change what is stored, whatever the
    request: listing leaves the disk as it is, and after download and
    view every regular file other than the audit log and every directory
    is as it was, the log having at most grown at its end. *)
Theorem reading_changes_no_file (E : env) (req : request) (w : world) :
  fs (run (get_files E req) w) = fs w
  /\ elsewhere E (fs w) (fs (run (get_download E req) w))
  /\ preserved E (fs w) (fs (run (get_download E req) w))
  /\ elsewhere E (fs w) (fs (run (get_view E req) w))
  /\ preserved E (fs w) (fs (run (get_view E req) w)).
Proof.
  split.
  - unfold run, get_files.
    rewrite ServerFacts.chain_eq, ServerFacts.layer_eq,
      ServerFacts.jwtMiddleware_eq.
    destruct (Str.provided (authorization req)) as [h|]; [|reflexivity].
    destruct (Jwt.verify (jwt E) (bearer h) (JWT_SECRET E) (now w)) as [e|p];
      [reflexivity|].
    apply FileFacts.list_disk.
  - destruct (FileFacts.reading_route E "download"
                (fun r => handler (download_file r)) req w) as [D1 D2];
      [intros r w1; apply FileFacts.download_disk|].
    destruct (FileFacts.reading_route E "view"
                (fun r => async_handler (view_file r)) req w) as [V1 V2];
      [intros r w1; apply FileFacts.view_disk|].
    auto.
Qed.

End Files.

(* ===================================================================== *)
(** * Listing *)
(* ===================================================================== *)

Module ListFacts.

Import Http Server.
Local Open Scope js_scope.

Lemma readdir_names (m : gmap string Fs.node) (d : string)
    (names : list string) :
  Fs.readdir m d = Fs.Ok names ->
  forall n : string,
    In n names
    <-> exists (k : string) (node : Fs.node),
          m !! k = Some node /\ Fs.dirname k = d /\ Fs.basename k = n.
Proof.
  unfold Fs.readdir. destruct (Fs.is_dir m d).
  2:{ destruct (m !! d); discriminate. }
  intros H n. injection H as <-.
  rewrite in_map_iff. split.
  - intros (k & Hbase & Hin). apply filter_In in Hin as [Hin Hdir].
    apply in_map_iff in Hin as ([k' node] & Hk & Hin). cbn [fst] in Hk.
    subst k'. apply list_elem_of_In, elem_of_map_to_list in Hin.
    apply String.eqb_eq in Hdir. eauto.
  - intros (k & node & Hk & Hdir & Hbase). exists k. split; [exact Hbase|].
    apply filter_In. split; [|apply String.eqb_eq, Hdir].
    apply in_map_iff. exists (k, node). split; [reflexivity|].
    apply list_elem_of_In, elem_of_map_to_list, Hk.
Qed.

Lemma readdir_dir (m : gmap string Fs.node) (d : string) :
  Fs.is_dir m d = true -> exists names, Fs.readdir m d = Fs.Ok names.
Proof. intros H. unfold Fs.readdir. rewrite H. eauto. Qed.

Lemma readdir_no_dir (m : gmap string Fs.node) (d : string) :
  Fs.is_dir m d = false -> exists e, Fs.readdir m d = Fs.Err e.
Proof.
  intros H. unfold Fs.readdir. rewrite H. destruct (m !! d); eauto.
Qed.

(** The entries of the [uploads] directory of a storage root, by name. *)
Lemma uploads_entries (m : gmap string Fs.node) (home : string)
    (names : list string) :
  Fs.readdir m (Path.join [home; "uploads"%string]) = Fs.Ok names ->
  forall n : string,
    Path.name n ->
    (In n names <-> exists node : Fs.node, m !! filePath home n = Some node).
Proof.
  intros Hread n Hn.
  assert (Path.name "uploads") as Hup
    by (apply PathFacts.plain_name; reflexivity).
  destruct (DirFacts.child_path home "uploads" n Hup Hn)
    as (_ & Hchild & Hbase).
  fold (filePath home n) in Hchild.
  set (uploads := Path.join [home; "uploads"%string]) in *.
  assert (Str.contains Path.sep n = false) as Hfree
    by (apply PathFacts.name_free, Hn).
  assert (uploads <> EmptyString) as Htruthy.
  { apply StrFacts.truthy_nonempty, PathFacts.join_truthy_path. }
  rewrite (readdir_names m uploads names Hread n). split.
  - intros (k & node & Hk & Hdir & Hname). exists node.
    rewrite Hchild, <- Hdir, <- Hname, <- DirFacts.dirname_basename;
      [exact Hk| |]; rewrite Hdir; intros H; rewrite H in Hbase;
      discriminate Hbase.
  - intros (node & Hk). exists (filePath home n), node.
    split; [exact Hk|]. rewrite Hchild.
    split; [apply DirFacts.dirname_child|apply DirFacts.basename_child];
      assumption.
Qed.

Section Route.

Context (E : env).

(** The directory listing reads, for a token whose storage root is the
    one derived from its [uid]. *)
Lemma listed_directory (p : Jwt.payload) :
  Jwt.homeDirectory p = userHomeDir E (Jwt.uid p) ->
  Path.join [dirname E; "/home/"; Jwt.uid p; "uploads"]%string
  = Path.join [Jwt.homeDirectory p; "uploads"%string].
Proof.
  intros ->. unfold userHomeDir. symmetry.
  apply (PathFacts.join_join [dirname E; "/home/"; Jwt.uid p]%string
           ["uploads"%string]).
  simpl. destruct (Str.truthy (dirname E)); discriminate.
Qed.

(** Listing, for a verified request. *)
Lemma get_files_eq (req : request) (authHeader : string) (p : Jwt.payload)
    (w : world) :
  Str.provided (authorization req) = Some authHeader ->
  Jwt.verify (jwt E) (bearer authHeader) (JWT_SECRET E) (now w) = inr p ->
  Jwt.homeDirectory p = userHomeDir E (Jwt.uid p) ->
  let uploads := Path.join [Jwt.homeDirectory p; "uploads"%string] in
  run (get_files E req) w =
  match Fs.readdir (fs w) uploads with
  | Fs.Ok names => logged w [Sent (listed names)]
  | Fs.Err e =>
      logged w [ConsoleError "Error listing files:" (FsException e uploads);
                Sent listing_failed]
  end.
Proof.
  intros Hauth Hverify Hhome uploads. unfold run, get_files.
  rewrite ServerFacts.chain_eq, ServerFacts.layer_eq,
    ServerFacts.jwtMiddleware_eq, Hauth, Hverify.
  rewrite ServerFacts.list_files_eq. cbv zeta.
  apply StrFacts.provided_Some in Hauth as [Hauth _].
  cbn [with_user authorization]. rewrite Hauth, Hverify.
  rewrite (listed_directory p Hhome). fold uploads.
  destruct (Fs.readdir (fs w) uploads); reflexivity.
Qed.

End Route.

End ListFacts.

Module Listing.

Import Http Server.
Local Open Scope js_scope.

(** X17. Listing agrees with the other file operations.  For a verified
    request whose token carries the storage root derived from its [uid]:
    when the [uploads] directory is there, the answer lists a name
    exactly when the path that delete, download and view compute for
    that name holds an entry; when it is not, the answer is 500 "Error
    listing files". *)
Theorem listing_names_what_is_stored (E : env) (req : request)
    (authHeader : string) (p : Jwt.payload) (w : world) :
  Str.provided (authorization req) = Some authHeader ->
  Jwt.verify (jwt E) (bearer authHeader) (JWT_SECRET E) (now w) = inr p ->
  Jwt.homeDirectory p = userHomeDir E (Jwt.uid p) ->
  let w' := run (get_files E req) w in
  if Fs.is_dir (fs w) (Path.join [Jwt.homeDirectory p; "uploads"%string])
  then
    exists names : list string,
      responses (trace w') = responses (trace w) ++ [listed names]
      /\ forall n : string,
           Path.name n ->
           (In n names
            <-> exists node : Fs.node,
                  fs w !! filePath (Jwt.homeDirectory p) n = Some node)
  else responses (trace w') = responses (trace w) ++ [listing_failed].
Proof.
  intros Hauth Hverify Hhome w'. subst w'.
  rewrite (ListFacts.get_files_eq E req authHeader p w Hauth Hverify Hhome).
  cbv zeta.
  destruct (Fs.is_dir (fs w) _) eqn:Hdir.
  - destruct (ListFacts.readdir_dir _ _ Hdir) as (names & Hread).
    rewrite Hread. exists names. split.
    + cbn [logged trace]. rewrite ServerFacts.responses_app. reflexivity.
    + apply (ListFacts.uploads_entries _ _ _ Hread).
  - destruct (ListFacts.readdir_no_dir _ _ Hdir) as (e & ->).
    cbn [logged trace]. rewrite ServerFacts.responses_app. reflexivity.
Qed.

End Listing.

(* ===================================================================== *)
(** * Upload *)
(* ===================================================================== *)

Module UploadFacts.

Import Http Server.
Local Open Scope js_scope.

Lemma is_dir_preserved (m m' : gmap string Fs.node) (d : string) :
  (forall q : string, m !! q = Some Fs.Dir -> m' !! q = Some Fs.Dir) ->
  Fs.is_dir m d = true -> Fs.is_dir m' d = true.
Proof.
  intros Hdirs. unfold Fs.is_dir.
  destruct (String.eqb d "/"); [reflexivity|]. cbn [orb].
  destruct (m !! d) as [[data|]|] eqn:Hd; try discriminate.
  rewrite (Hdirs d Hd). reflexivity.
Qed.

Lemma writeFile_dirs (m m' : gmap string Fs.node) (p : string)
    (data : list Z) (exclusive : bool) :
  Fs.writeFile m p data exclusive = Fs.Ok m' ->
  forall q : string, m !! q = Some Fs.Dir -> m' !! q = Some Fs.Dir.
Proof.
  unfold Fs.writeFile. intros H q Hq.
  assert (m' = <[p := Fs.File data]> m /\ m !! p <> Some Fs.Dir) as [-> Hp].
  { destruct (m !! p) as [[old|]|].
    - destruct exclusive; [discriminate H|]. split; congruence.
    - discriminate H.
    - destruct (Fs.is_dir m (Fs.dirname p)); [|discriminate H].
      split; congruence. }
  rewrite lookup_insert_ne; [exact Hq|]. congruence.
Qed.

Section Upload.

Context (E : env).

(** The world after an upload whose file was stored: [audit] was called
    with the stored name, and the answer is the success answer when it
    returned and the error page when it threw. *)
Lemma upload_stored_world (upload : request) (authHeader : string)
    (p : Jwt.payload) (part : part) (w : world) (m1 : gmap string Fs.node) :
  Str.provided (authorization upload) = Some authHeader ->
  Jwt.verify (jwt E) (bearer authHeader) (JWT_SECRET E) (now w) = inr p ->
  params_filename upload = None ->
  multipart_file upload = Some part ->
  Str.truthy (originalname part) = true ->
  let stored := pretty (now w) +:+ "-" +:+ originalname part in
  Fs.writeFile (fs w)
    (Path.join [Path.join [Jwt.homeDirectory p; "uploads"%string]; stored])
    (bytes part) false = Fs.Ok m1 ->
  exists (res : exception + unit) (m2 : gmap string Fs.node),
    run (post_upload E upload) w
    = logged (on_disk w m2)
        [AuditCall "upload" (Some stored) (Some (Jwt.uid p));
         Sent match res with
              | inr _ => uploaded stored
              | inl e => {| status := 500; content := ErrorPage e |}
              end]
    /\ audit E "upload" (Some stored) (Some (Jwt.uid p)) (on_disk w m1)
       = (res,
          on_disk (logged w [AuditCall "upload" (Some stored)
                               (Some (Jwt.uid p))]) m2)
    /\ elsewhere E m1 m2
    /\ (forall q : string, m1 !! q = Some Fs.Dir -> m2 !! q = Some Fs.Dir).
Proof.
  intros Hauth Hverify Hnone Hpart Hname stored Hwrite.
  unfold run, post_upload.
  rewrite ServerFacts.chain_eq, ServerFacts.layer_eq,
    ServerFacts.jwtMiddleware_eq, Hauth, Hverify.
  rewrite ServerFacts.chain_eq, ServerFacts.layer_eq.
  rewrite (ServerFacts.upload_single_eq (with_user upload p) p part)
    by (reflexivity || assumption).
  cbv zeta. fold stored. rewrite Hwrite.
  rewrite ServerFacts.chain_eq, ServerFacts.layer_eq.
  rewrite (ServerFacts.auditMiddleware_eq E "upload" _ p) by reflexivity.
  assert (filename_of (with_file (with_user upload p) stored) = Some stored)
    as -> by (unfold filename_of; cbn; rewrite Hnone; reflexivity).
  destruct (DiskFacts.audit_outcome E "upload" (Some stored) (Jwt.uid p)
              (on_disk w m1)) as (res & m2 & Hout & Helse & Hdirs & _).
  rewrite Hout. exists res, m2.
  split; [|split; [reflexivity|split; [exact Helse|exact Hdirs]]].
  destruct res as [e|[]].
  - destruct w as [m t tr]. unfold logged, on_disk; cbn [snd fs now trace].
    rewrite <- app_assoc. reflexivity.
  - rewrite (ServerFacts.upload_done_eq _ stored) by reflexivity.
    destruct w as [m t tr]. unfold logged, on_disk; cbn [snd fs now trace].
    rewrite <- app_assoc. reflexivity.
Qed.

End Upload.

(** ** The stored name *)

Lemma digit_not_dash (d : N) : pretty_N_char d <> "-"%char.
Proof. unfold pretty_N_char. repeat case_match; discriminate. Qed.

Lemma pretty_N_go_dashless (x : N) (s : string) :
  Str.contains "-"%char s = false ->
  Str.contains "-"%char (pretty_N_go x s) = false.
Proof.
  revert s. induction (N.lt_wf_0 x) as [x _ IH]; intros s Hs.
  assert (x = 0 \/ 0 < x)%N as [->|Hpos] by lia.
  - rewrite pretty_N_go_0. exact Hs.
  - rewrite pretty_N_go_step by exact Hpos.
    apply IH; [apply N.div_lt; lia|].
    cbn [Str.contains]. rewrite Hs, orb_false_r.
    apply Ascii.eqb_neq, digit_not_dash.
Qed.

(** The decimal form of a clock reading that is not negative holds no
    dash. *)
Lemma pretty_dashless (t : Z) :
  0 <= t -> Str.contains "-"%char (pretty t) = false.
Proof.
  intros Ht. destruct t as [|q|q]; [reflexivity| |lia].
  change (pretty (Zpos q)) with (pretty (Npos q)).
  unfold pretty, pretty_N. destruct (decide (Npos q = 0%N)); [reflexivity|].
  apply pretty_N_go_dashless. reflexivity.
Qed.

Lemma prefix_self (s : string) : String.prefix s s = true.
Proof.
  induction s as [|a s IH]; [reflexivity|].
  cbn [String.prefix]. destruct (ascii_dec a a); [exact IH|contradiction].
Qed.

(** A stored name determines the clock reading and the original name it
    was made of. *)
Lemma stored_name_inj (t1 t2 : Z) (o1 o2 : string) :
  0 <= t1 -> 0 <= t2 ->
  pretty t1 +:+ "-" +:+ o1 = pretty t2 +:+ "-" +:+ o2 ->
  t1 = t2 /\ o1 = o2.
Proof.
  intros H1 H2 Heq.
  assert (pretty t1 = pretty t2) as Hpretty.
  { apply (PathFacts.prefix_upto "-"%char _ _ o1 o2);
      [apply pretty_dashless, H1|apply pretty_dashless, H2|].
    assert (String.prefix (pretty t1 +:+ "-" +:+ o1)
              (pretty t2 +:+ "-" +:+ o2) = true) as Hprefix
      by (rewrite Heq; apply prefix_self).
    exact Hprefix. }
  split; [apply (inj pretty), Hpretty|].
  rewrite Hpretty in Heq. apply StrFacts.app_inv_head in Heq.
  exact (StrFacts.app_inv_head "-" o1 o2 Heq).
Qed.

End UploadFacts.

(* ===================================================================== *)
(** * Listing after upload and delete *)
(* ===================================================================== *)

Module Catalogue.

Import Http Server.
Local Open Scope js_scope.

(** X18. A file that upload has stored is in the next listing of its owner,
    under the name the upload answered with. *)
Theorem uploaded_file_is_listed (E : env) (upload : request)
    (authHeader : string) (p : Jwt.payload) (part : part) (w : world)
    (m1 : gmap string Fs.node) :
  Str.provided (authorization upload) = Some authHeader ->
  Jwt.verify (jwt E) (bearer authHeader) (JWT_SECRET E) (now w) = inr p ->
  params_filename upload = None ->
  multipart_file upload = Some part ->
  Str.truthy (originalname part) = true ->
  Str.contains Path.sep (originalname part) = false ->
  let stored := pretty (now w) +:+ "-" +:+ originalname part in
  let uploads := Path.join [Jwt.homeDirectory p; "uploads"%string] in
  Fs.writeFile (fs w) (Path.join [uploads; stored]) (bytes part) false
  = Fs.Ok m1 ->
  Fs.is_dir (fs w) uploads = true ->
  forall (later : request) (authHeader' : string) (p' : Jwt.payload)
         (w2 : world),
    Str.provided (authorization later) = Some authHeader' ->
    Jwt.verify (jwt E) (bearer authHeader') (JWT_SECRET E) (now w2) = inr p' ->
    Jwt.homeDirectory p' = userHomeDir E (Jwt.uid p') ->
    Jwt.homeDirectory p' = Jwt.homeDirectory p ->
    fs w2 = fs (run (post_upload E upload) w) ->
    exists names : list string,
      responses (trace (run (get_files E later) w2))
      = responses (trace w2) ++ [listed names]
      /\ In stored names.
Proof.
  intros Hauth Hverify Hnone Hpart Hname Hfree stored uploads Hwrite Hdir
    later authHeader' p' w2 Hauth' Hverify' Hhome' Hsame Hfs.
  destruct (UploadFacts.upload_stored_world E upload authHeader p part w m1
              Hauth Hverify Hnone Hpart Hname Hwrite)
    as (res & m2 & Hrun & _ & Helse & Hdirs).
  rewrite Hrun in Hfs. cbn [logged on_disk fs] in Hfs.
  destruct (PrettyFacts.stored_name (now w) (originalname part) Hfree)
    as [Hstored Hdash].
  fold stored in Hstored, Hdash.
  destruct (Storage.stored_path E (Jwt.homeDirectory p) stored Hstored Hdash)
    as [Hpath Hlog].
  fold uploads in Hpath.
  assert (m2 !! filePath (Jwt.homeDirectory p) stored
          = Some (Fs.File (bytes part))) as Hthere.
  { apply (Helse _ _ Hlog). rewrite <- Hpath.
    exact (Storage.writeFile_stores _ _ _ _ _ Hwrite). }
  assert (Fs.is_dir m2 uploads = true) as Hdir2.
  { apply (UploadFacts.is_dir_preserved m1 m2 _ Hdirs).
    apply (UploadFacts.is_dir_preserved (fs w) m1 _
             (UploadFacts.writeFile_dirs _ _ _ _ _ Hwrite)), Hdir. }
  rewrite (ListFacts.get_files_eq E later authHeader' p' w2
             Hauth' Hverify' Hhome').
  cbv zeta. rewrite Hsame, Hfs. fold uploads.
  destruct (ListFacts.readdir_dir _ _ Hdir2) as (names & Hread).
  rewrite Hread. exists names. split.
  - cbn [logged trace]. rewrite ServerFacts.responses_app. reflexivity.
  - apply (ListFacts.uploads_entries _ _ _ Hread stored Hstored). eauto.
Qed.

(** X19. A file that delete has removed is not in the next listing of its
    owner. *)
Theorem deleted_file_is_not_listed (E : env) (req : request)
    (authHeader : string) (p : Jwt.payload) (f : string) (data : list Z)
    (w : world) :
  Str.provided (authorization req) = Some authHeader ->
  Jwt.verify (jwt E) (bearer authHeader) (JWT_SECRET E) (now w) = inr p ->
  Str.provided (params_filename req) = Some f ->
  Path.name f ->
  fs w !! filePath (Jwt.homeDirectory p) f = Some (Fs.File data) ->
  Fs.is_dir (fs w) (Path.join [Jwt.homeDirectory p; "uploads"%string]) = true ->
  audit_ready E (fs w) = true ->
  forall (later : request) (authHeader' : string) (p' : Jwt.payload)
         (w2 : world),
    Str.provided (authorization later) = Some authHeader' ->
    Jwt.verify (jwt E) (bearer authHeader') (JWT_SECRET E) (now w2) = inr p' ->
    Jwt.homeDirectory p' = userHomeDir E (Jwt.uid p') ->
    Jwt.homeDirectory p' = Jwt.homeDirectory p ->
    fs w2 = fs (run (delete_delete E req) w) ->
    exists names : list string,
      responses (trace (run (get_files E later) w2))
      = responses (trace w2) ++ [listed names]
      /\ ~ In f names.
Proof.
  intros Hauth Hverify Hf Hname Hfile Hdir Hready
    later authHeader' p' w2 Hauth' Hverify' Hhome' Hsame Hfs.
  pose proof (DirFacts.plain_name_misses_the_log E (Jwt.homeDirectory p) f
                Hname) as Hlog.
  destruct (Gateway.filename_of_param req p f Hf) as (_ & Hparam & Huser).
  destruct (FileFacts.logged_route E "delete"
              (fun r => handler (delete_file r)) req authHeader p f w
              Hauth Hverify Hf Hready)
    as (m' & Hroute & _ & _ & Helse & _ & Hdirs).
  unfold run, delete_delete in Hfs. rewrite Hroute in Hfs.
  rewrite (ServerFacts.delete_file_eq _ p f) in Hfs by assumption.
  cbv zeta in Hfs. cbn [on_disk fs] in Hfs.
  assert (m' !! filePath (Jwt.homeDirectory p) f = Some (Fs.File data))
    as Hthere by (apply (Helse _ _ Hlog), Hfile).
  unfold Fs.unlink in Hfs. rewrite Hthere in Hfs.
  cbn [snd logged on_disk fs] in Hfs.
  set (uploads := Path.join [Jwt.homeDirectory p; "uploads"%string]) in *.
  assert (Fs.is_dir (fs w2) uploads = true) as Hdir2.
  { rewrite Hfs.
    apply (UploadFacts.is_dir_preserved m'); [|exact
      (UploadFacts.is_dir_preserved (fs w) m' _ Hdirs Hdir)].
    intros q Hq. rewrite lookup_delete_ne; [exact Hq|]. congruence. }
  rewrite (ListFacts.get_files_eq E later authHeader' p' w2
             Hauth' Hverify' Hhome').
  cbv zeta. rewrite Hsame. fold uploads.
  destruct (ListFacts.readdir_dir _ _ Hdir2) as (names & Hread).
  rewrite Hread. exists names. split.
  - cbn [logged trace]. rewrite ServerFacts.responses_app. reflexivity.
  - intros Hin.
    apply (ListFacts.uploads_entries _ _ _ Hread f Hname) in Hin
      as (node & Hnode).
    rewrite Hfs, lookup_delete_eq in Hnode. discriminate Hnode.
Qed.

End Catalogue.

(* ===================================================================== *)
(** * Upload at its edges *)
(* ===================================================================== *)

Module Uploads.

Import Http Server.
Local Open Scope js_scope.

(** X20. An upload request without a file part is audited all the same, as an
    upload without a file name, and is then answered with the error page:
    the last layer reads the name of a file that is not there. *)
Theorem upload_without_file_is_logged (E : env) (req : request)
    (authHeader : string) (p : Jwt.payload) (w : world) :
  Str.provided (authorization req) = Some authHeader ->
  Jwt.verify (jwt E) (bearer authHeader) (JWT_SECRET E) (now w) = inr p ->
  multipart_file req = None ->
  params_filename req = None ->
  file_filename req = None ->
  audit_ready E (fs w) = true ->
  let w' := run (post_upload E req) w in
  responses (trace w')
  = responses (trace w)
    ++ [{| status := 500;
           content := ErrorPage (TypeError
             "Cannot read properties of undefined (reading 'filename')") |}]
  /\ audits (trace w')
     = audits (trace w) ++ [("upload"%string, None, Some (Jwt.uid p))]
  /\ audit_log E (fs w')
     = audit_log E (fs w)
       ++ Str.bytes (toISOString E (now w) +:+ " - upload by " +:+ Jwt.uid p
                       +:+ newline)
  /\ elsewhere E (fs w) (fs w').
Proof.
  intros Hauth Hverify Hpart Hnone Hfile Hready w'. subst w'.
  unfold run, post_upload.
  rewrite ServerFacts.chain_eq, ServerFacts.layer_eq,
    ServerFacts.jwtMiddleware_eq, Hauth, Hverify.
  rewrite ServerFacts.chain_eq, ServerFacts.layer_eq.
  unfold upload_single. cbn [with_user multipart_file]. rewrite Hpart.
  unfold next, ret.
  rewrite ServerFacts.chain_eq, ServerFacts.layer_eq.
  rewrite (ServerFacts.auditMiddleware_eq E "upload" _ p) by reflexivity.
  assert (filename_of (with_user req p) = None) as ->
    by (unfold filename_of; cbn; rewrite Hnone; exact Hfile).
  destruct (ServerFacts.audit_ok E "upload" None (Jwt.uid p) w Hready)
    as (m' & -> & Hlog & _ & Helse).
  rewrite ServerFacts.handler_eq. unfold upload_done.
  cbn [with_user file_filename]. rewrite Hfile. unfold throw.
  cbn [snd logged on_disk trace fs].
  rewrite !ServerFacts.responses_app, !ServerFacts.audits_app, !app_nil_r.
  split; [reflexivity|]. split; [reflexivity|]. split; [exact Hlog|exact Helse].
Qed.

(** X21. An upload whose file cannot be written is answered with the error
    page and nothing else happens: [audit] is not called, and the disk is
    as it was. *)
Theorem upload_that_cannot_be_stored (E : env) (req : request)
    (authHeader : string) (p : Jwt.payload) (part : part) (e : Fs.error)
    (w : world) :
  Str.provided (authorization req) = Some authHeader ->
  Jwt.verify (jwt E) (bearer authHeader) (JWT_SECRET E) (now w) = inr p ->
  multipart_file req = Some part ->
  Str.truthy (originalname part) = true ->
  let path :=
    Path.join [Path.join [Jwt.homeDirectory p; "uploads"%string];
               pretty (now w) +:+ "-" +:+ originalname part] in
  Fs.writeFile (fs w) path (bytes part) false = Fs.Err e ->
  run (post_upload E req) w
  = logged w [Sent {| status := 500;
                      content := ErrorPage (FsException e path) |}].
Proof.
  intros Hauth Hverify Hpart Hname path Hwrite.
  unfold run, post_upload.
  rewrite ServerFacts.chain_eq, ServerFacts.layer_eq,
    ServerFacts.jwtMiddleware_eq, Hauth, Hverify.
  rewrite ServerFacts.chain_eq, ServerFacts.layer_eq.
  rewrite (ServerFacts.upload_single_eq (with_user req p) p part)
    by (reflexivity || assumption).
  cbv zeta. fold path. rewrite Hwrite. reflexivity.
Qed.

(** X22. The name a file is stored under is the clock reading, a dash, and the
    original name; two uploads are stored under the same name only when
    both the clock reading and the original name are the same. *)
Theorem stored_names_do_not_collide (req1 req2 : request)
    (p1 p2 : Jwt.payload) (part1 part2 : part) (w1 w2 : world)
    (next1 next2 : request) :
  user req1 = Some p1 -> multipart_file req1 = Some part1 ->
  Str.truthy (originalname part1) = true ->
  user req2 = Some p2 -> multipart_file req2 = Some part2 ->
  Str.truthy (originalname part2) = true ->
  0 <= now w1 -> 0 <= now w2 ->
  fst (upload_single req1 w1) = inr (Some next1) ->
  fst (upload_single req2 w2) = inr (Some next2) ->
  file_filename next1
  = Some (pretty (now w1) +:+ "-" +:+ originalname part1)
  /\ file_filename next2
     = Some (pretty (now w2) +:+ "-" +:+ originalname part2)
  /\ (file_filename next1 = file_filename next2 ->
      now w1 = now w2 /\ originalname part1 = originalname part2).
Proof.
  intros Hu1 Hp1 Hn1 Hu2 Hp2 Hn2 Ht1 Ht2 H1 H2.
  rewrite (ServerFacts.upload_single_eq req1 p1 part1) in H1 by assumption.
  rewrite (ServerFacts.upload_single_eq req2 p2 part2) in H2 by assumption.
  cbv zeta in H1, H2.
  destruct (Fs.writeFile (fs w1) _ _ _); [|discriminate H1].
  destruct (Fs.writeFile (fs w2) _ _ _); [|discriminate H2].
  cbn [fst] in H1, H2. injection H1 as <-. injection H2 as <-.
  cbn [with_file file_filename].
  split; [reflexivity|]. split; [reflexivity|].
  intros Heq. injection Heq as Heq.
  exact (UploadFacts.stored_name_inj _ _ _ _ Ht1 Ht2 Heq).
Qed.

End Uploads.

(* ===================================================================== *)
(** * The Authorization header *)
(* ===================================================================== *)

Module Scheme.

Import Http Server.
Local Open Scope js_scope.

Lemma bearer_second (scheme token : string) :
  Str.contains " "%char scheme = false ->
  Str.contains " "%char token = false ->
  bearer (scheme +:+ " " +:+ token) = Some token
  /\ forall rest : string,
       bearer (scheme +:+ " " +:+ token +:+ " " +:+ rest) = Some token.
Proof.
  intros Hs Ht. unfold bearer. split.
  - change (scheme +:+ " " +:+ token) with (scheme +:+ String " " token).
    rewrite StrFacts.split_app, (StrFacts.split_free _ _ Hs),
      (StrFacts.split_free _ _ Ht).
    reflexivity.
  - intros rest.
    change (scheme +:+ " " +:+ token +:+ " " +:+ rest)
      with (scheme +:+ String " " (token +:+ String " " rest)).
    rewrite !StrFacts.split_app, (StrFacts.split_free _ _ Hs),
      (StrFacts.split_free _ _ Ht).
    reflexivity.
Qed.

Lemma bearer_single (header : string) :
  Str.contains " "%char header = false -> bearer header = None.
Proof.
  intros H. unfold bearer. rewrite (StrFacts.split_free _ _ H). reflexivity.
Qed.

(** X23. [jwtMiddleware] takes the second word of the [Authorization] header
    as the token and looks at nothing else: the scheme word is not
    checked, and what follows the token is ignored.  A header of one word
    is turned down as carrying no token. *)
Theorem authorization_scheme_is_not_checked (E : env) (req : request)
    (scheme token : string) (w : world) :
  Str.contains " "%char scheme = false ->
  Str.contains " "%char token = false ->
  let verified :=
    match Jwt.verify (jwt E) (Some token) (JWT_SECRET E) (now w) with
    | inr p => (inr (Some (with_user req p)), w)
    | inl e => (inr None, rejected w e)
    end in
  (authorization req = Some (scheme +:+ " " +:+ token) ->
   jwtMiddleware E req w = verified)
  /\ (forall rest : string,
        authorization req = Some (scheme +:+ " " +:+ token +:+ " " +:+ rest) ->
        jwtMiddleware E req w = verified)
  /\ (Str.provided (authorization req) = Some scheme ->
      jwtMiddleware E req w
      = (inr None, rejected w (Jwt.JsonWebTokenError "jwt must be provided"))).
Proof.
  intros Hs Ht verified.
  destruct (bearer_second scheme token Hs Ht) as [Hone Hmore].
  assert (forall tail : string,
            Str.provided (Some (scheme +:+ " " +:+ tail))
            = Some (scheme +:+ " " +:+ tail)) as Hprovided.
  { intros tail. apply StrFacts.provided_truthy, StrFacts.truthy_app_r.
    reflexivity. }
  split; [|split].
  - intros Hauth. rewrite ServerFacts.jwtMiddleware_eq, Hauth, Hprovided, Hone.
    subst verified. destruct (Jwt.verify _ _ _ _); reflexivity.
  - intros rest Hauth.
    rewrite ServerFacts.jwtMiddleware_eq, Hauth, Hprovided, Hmore.
    subst verified. destruct (Jwt.verify _ _ _ _); reflexivity.
  - intros Hauth.
    rewrite ServerFacts.jwtMiddleware_eq, Hauth, (bearer_single _ Hs).
    reflexivity.
Qed.

End Scheme.

(* ===================================================================== *)
(** * Two users side by side *)
(* ===================================================================== *)

Module Neighbours.

Import Http Server.
Local Open Scope js_scope.

(** The files of two users with different names lie at different paths. *)
Lemma namespaces_disjoint (E : env) (A B f n : string) :
  Path.name A -> Path.name B -> A <> B -> Path.name f -> Path.name n ->
  filePath (userHomeDir E A) f <> filePath (userHomeDir E B) n.
Proof.
  intros HA HB Hne Hf Hn Heq.
  destruct (PathFacts.namespace_shape (dirname E)) as (R & Hshape).
  destruct (Hshape A HA) as (HhomeA & _ & HfileA).
  destruct (Hshape B HB) as (HhomeB & _ & HfileB).
  unfold filePath, userHomeDir in Heq.
  rewrite (HfileA f Hf), (HfileB n Hn) in Heq.
  apply StrFacts.app_inv_head in Heq.
  apply (StrFacts.app_inv_head "/") in Heq.
  apply Hne.
  apply (PathFacts.prefix_upto Path.sep A B ("uploads" +:+ "/" +:+ f)
           ("uploads" +:+ "/" +:+ n));
    [apply PathFacts.name_free, HA|apply PathFacts.name_free, HB|].
  assert (String.prefix (A +:+ "/uploads" +:+ "/" +:+ f)
            (B +:+ "/uploads" +:+ "/" +:+ n) = true) as Hprefix
    by (rewrite Heq; apply UploadFacts.prefix_self).
  exact Hprefix.
Qed.

Lemma writeFile_elsewhere (m m' : gmap string Fs.node) (p : string)
    (data : list Z) (exclusive : bool) :
  Fs.writeFile m p data exclusive = Fs.Ok m' ->
  forall q : string, q <> p -> m' !! q = m !! q.
Proof.
  unfold Fs.writeFile. intros H q Hq.
  assert (m' = <[p := Fs.File data]> m) as ->.
  { destruct (m !! p) as [[old|]|].
    - destruct exclusive; [discriminate H|]. congruence.
    - discriminate H.
    - destruct (Fs.is_dir m (Fs.dirname p)); [|discriminate H]. congruence. }
  apply lookup_insert_ne. congruence.
Qed.

(** X24. With plain names, one user's delete and upload never touch
    another user's files.  For two users with different names and a
    request verified for the first: whatever a delete of a plain file
    name or an upload under an original name without a separator does,
    every path a plain name has in the second user's directory holds the
    same regular file, or none, before and after. *)
Theorem plain_names_leave_other_users_alone (E : env) (A B : string)
    (req : request) (authHeader : string) (p : Jwt.payload) (w : world) :
  Path.name A -> Path.name B -> A <> B ->
  Str.provided (authorization req) = Some authHeader ->
  Jwt.verify (jwt E) (bearer authHeader) (JWT_SECRET E) (now w) = inr p ->
  Jwt.homeDirectory p = userHomeDir E A ->
  let untouched (w' : world) :=
    forall (n : string) (data : list Z),
      Path.name n ->
      (fs w !! filePath (userHomeDir E B) n = Some (Fs.File data)
       <-> fs w' !! filePath (userHomeDir E B) n = Some (Fs.File data)) in
  (forall f : string,
     Str.provided (params_filename req) = Some f -> Path.name f ->
     untouched (run (delete_delete E req) w))
  /\ (forall part : part,
        params_filename req = None ->
        multipart_file req = Some part ->
        Str.truthy (originalname part) = true ->
        Str.contains Path.sep (originalname part) = false ->
        untouched (run (post_upload E req) w)).
Proof.
  intros HA HB Hne Hauth Hverify Hhome untouched.
  assert (forall n : string, Path.name n ->
            filePath (userHomeDir E B) n <> auditFilePath E) as Hlog
    by (intros n Hn; apply DirFacts.plain_name_misses_the_log, Hn).
  split.
  - intros f Hf Hname n data Hn.
    destruct (Gateway.audited_route E "delete"
                (fun r => handler (delete_file r)) req authHeader p f w
                Hauth Hverify Hf) as (res & m' & _ & Helse & Hroute).
    destruct (Gateway.filename_of_param req p f Hf) as (_ & Hparam & Huser).
    unfold run, delete_delete. rewrite Hroute.
    destruct res as [e|[]]; [exact (Helse _ _ (Hlog n Hn))|].
    rewrite (ServerFacts.delete_file_eq _ p f) by assumption. cbv zeta.
    cbn [on_disk fs]. unfold Fs.unlink.
    destruct (m' !! filePath (Jwt.homeDirectory p) f) as [[old|]|];
      cbn [snd logged on_disk fs]; try exact (Helse _ _ (Hlog n Hn)).
    rewrite lookup_delete_ne; [exact (Helse _ _ (Hlog n Hn))|].
    rewrite Hhome. apply namespaces_disjoint; assumption.
  - intros part Hnone Hpart Htruthy Hfree n data Hn.
    set (stored := pretty (now w) +:+ "-" +:+ originalname part).
    destruct (PrettyFacts.stored_name (now w) (originalname part) Hfree)
      as [Hstored Hdash].
    fold stored in Hstored, Hdash.
    destruct (Storage.stored_path E (Jwt.homeDirectory p) stored Hstored Hdash)
      as [Hpath _].
    destruct (Fs.writeFile (fs w)
                (Path.join [Path.join [Jwt.homeDirectory p; "uploads"%string];
                            stored]) (bytes part) false) as [m1|e] eqn:Hwrite.
    + destruct (UploadFacts.upload_stored_world E req authHeader p part w m1
                  Hauth Hverify Hnone Hpart Htruthy Hwrite)
        as (res & m2 & -> & _ & Helse & _).
      cbn [logged on_disk fs].
      rewrite <- (Helse _ data (Hlog n Hn)).
      rewrite (writeFile_elsewhere _ _ _ _ _ Hwrite); [reflexivity|].
      rewrite Hpath, Hhome. intros Heq. symmetry in Heq. revert Heq.
      apply namespaces_disjoint; assumption.
    + unfold run, post_upload.
      rewrite ServerFacts.chain_eq, ServerFacts.layer_eq,
        ServerFacts.jwtMiddleware_eq, Hauth, Hverify.
      rewrite ServerFacts.chain_eq, ServerFacts.layer_eq.
      rewrite (ServerFacts.upload_single_eq (with_user req p) p part)
        by (reflexivity || assumption).
      cbv zeta. fold stored. rewrite Hwrite. reflexivity.
Qed.

End Neighbours.

(* ===================================================================== *)
(** * What download and view serve *)
(* ===================================================================== *)

Module Served.

Import Http Server.
Local Open Scope js_scope.

(** The answers to a verified request that names a regular file, on a
    disk that lets [audit] write. *)
Section Present.

Context (E : env) (req : request) (authHeader : string) (p : Jwt.payload)
  (f : string) (data : list Z) (w : world).
Hypothesis Hauth : Str.provided (authorization req) = Some authHeader.
Hypothesis Hverify :
  Jwt.verify (jwt E) (bearer authHeader) (JWT_SECRET E) (now w) = inr p.
Hypothesis Hf : Str.provided (params_filename req) = Some f.
Hypothesis Hfile :
  fs w !! filePath (Jwt.homeDirectory p) f = Some (Fs.File data).
Hypothesis Hpath : filePath (Jwt.homeDirectory p) f <> auditFilePath E.
Hypothesis Hready : audit_ready E (fs w) = true.

Lemma present_download :
  responses (trace (run (get_download E req) w))
  = responses (trace w)
    ++ [if Str.starts_with "." (Path.basename (filePath (Jwt.homeDirectory p) f))
        then internal_error
        else {| status := 200;
                content := Attachment
                  (Path.basename (filePath (Jwt.homeDirectory p) f)) data |}].
Proof.
  destruct (Gateway.filename_of_param req p f Hf) as (_ & Hparam & Huser).
  destruct (FileFacts.logged_route E "download"
              (fun r => handler (download_file r)) req authHeader p f w
              Hauth Hverify Hf Hready) as (m' & Hroute & _ & _ & Helse & _).
  unfold run, get_download. rewrite Hroute.
  rewrite (ServerFacts.download_file_eq _ p f) by assumption. cbv zeta.
  destruct (Str.starts_with _ _).
  - cbn [snd logged on_disk trace].
    rewrite !ServerFacts.responses_app, app_nil_r. reflexivity.
  - cbn [on_disk fs]. unfold Fs.readFile.
    rewrite (proj1 (Helse _ data Hpath) Hfile).
    cbn [snd logged on_disk trace].
    rewrite !ServerFacts.responses_app, app_nil_r. reflexivity.
Qed.

Lemma present_view :
  responses (trace (run (get_view E req) w))
  = responses (trace w)
    ++ [{| status := 200;
           content := Json (JObject [("content"%string,
                                      JText (Utf8.decode data))]) |}].
Proof.
  destruct (Gateway.filename_of_param req p f Hf) as (_ & Hparam & Huser).
  destruct (FileFacts.logged_route E "view"
              (fun r => async_handler (view_file r)) req authHeader p f w
              Hauth Hverify Hf Hready) as (m' & Hroute & _ & _ & Helse & _).
  unfold run, get_view. rewrite Hroute.
  rewrite (ServerFacts.view_file_eq _ p f) by assumption. cbv zeta.
  cbn [on_disk fs]. unfold Fs.readFile.
  rewrite (proj1 (Helse _ data Hpath) Hfile).
  cbn [snd logged on_disk trace].
  rewrite !ServerFacts.responses_app, app_nil_r. reflexivity.
Qed.

Lemma present_delete :
  responses (trace (run (delete_delete E req) w))
  = responses (trace w) ++ [deleted]
  /\ fs (run (delete_delete E req) w) !! filePath (Jwt.homeDirectory p) f
     = None.
Proof.
  destruct (Gateway.filename_of_param req p f Hf) as (_ & Hparam & Huser).
  destruct (FileFacts.logged_route E "delete"
              (fun r => handler (delete_file r)) req authHeader p f w
              Hauth Hverify Hf Hready) as (m' & Hroute & _ & _ & Helse & _).
  unfold run, delete_delete. rewrite Hroute.
  rewrite (ServerFacts.delete_file_eq _ p f) by assumption. cbv zeta.
  cbn [on_disk fs]. unfold Fs.unlink.
  rewrite (proj1 (Helse _ data Hpath) Hfile).
  cbn [snd logged on_disk trace fs].
  rewrite !ServerFacts.responses_app, app_nil_r.
  split; [reflexivity|apply lookup_delete_eq].
Qed.

End Present.

(** X25. Download and view serve what is stored: for a verified request
    naming, by a plain file name, a regular file of the caller's uploads
    directory, on a disk that lets [audit] write, view answers with the
    bytes of the file decoded as UTF-8, and download answers with the
    bytes as an attachment under that name; unless the name starts with
    a dot: [res.download] does not serve such a file, and the answer is
    500 "Internal Server Error". *)
Theorem reading_serves_the_stored_file (E : env) (req : request)
    (authHeader : string) (p : Jwt.payload) (f : string) (data : list Z)
    (w : world) :
  Str.provided (authorization req) = Some authHeader ->
  Jwt.verify (jwt E) (bearer authHeader) (JWT_SECRET E) (now w) = inr p ->
  Str.provided (params_filename req) = Some f ->
  Path.name f ->
  fs w !! filePath (Jwt.homeDirectory p) f = Some (Fs.File data) ->
  audit_ready E (fs w) = true ->
  responses (trace (run (get_download E req) w))
  = responses (trace w)
    ++ [if Str.starts_with "." f then internal_error
        else {| status := 200; content := Attachment f data |}]
  /\ responses (trace (run (get_view E req) w))
     = responses (trace w)
       ++ [{| status := 200;
              content := Json (JObject [("content"%string,
                                         JText (Utf8.decode data))]) |}].
Proof.
  intros Hauth Hverify Hf Hname Hfile Hready.
  pose proof (DirFacts.plain_name_misses_the_log E (Jwt.homeDirectory p) f
                Hname) as Hpath.
  destruct (DirFacts.target_of_name (Jwt.homeDirectory p) f Hname)
    as (_ & Hbase).
  split.
  - rewrite (present_download E req authHeader p f data w) by assumption.
    rewrite Hbase. reflexivity.
  - apply (present_view E req authHeader p f data w); assumption.
Qed.

End Served.

(* ===================================================================== *)
(** * File names and the caller's namespace *)
(* ===================================================================== *)

Module Targets.

Import Http Server.
Local Open Scope js_scope.



End Targets.

(* ===================================================================== *)
(** * Uploading, then reading back *)
(* ===================================================================== *)

Module RoundTrip.

Import Http Server.
Local Open Scope js_scope.

(** A text read back from its UTF-8 form is the text; bytes come back
    from the text they decode to exactly when they are the UTF-8 form of
    some text. *)
Lemma encode_decode_iff (data : list Z) :
  Utf8.encode (Utf8.decode data) = data <-> Utf8.well_formed data.
Proof.
  split.
  - intros H. exists (Utf8.decode data).
    split; [apply Utf8Facts.decode_scalar|symmetry; exact H].
  - intros (text & Hscalar & ->).
    rewrite (Utf8Facts.decode_encode text Hscalar). reflexivity.
Qed.

(** C9, as the code has it.  An upload that the disk accepts answers with
    the stored name, the clock reading and the original name joined by a
    dash.  Downloading that name with the same storage root, on the disk
    the upload left, answers with exactly the uploaded bytes, as an
    attachment under the stored name.  Viewing it answers with those
    bytes decoded as UTF-8.  The text so returned, written as UTF-8
    again, is the uploaded bytes exactly when these are the UTF-8 form of
    some text, and view then returns that text. *)
Theorem C9_upload_then_read_back (E : env) (upload : request)
    (authHeader : string) (p : Jwt.payload) (part : part) (w : world)
    (m1 : gmap string Fs.node) :
  Str.provided (authorization upload) = Some authHeader ->
  Jwt.verify (jwt E) (bearer authHeader) (JWT_SECRET E) (now w) = inr p ->
  params_filename upload = None ->
  multipart_file upload = Some part ->
  Str.truthy (originalname part) = true ->
  Str.contains Path.sep (originalname part) = false ->
  let stored := pretty (now w) +:+ "-" +:+ originalname part in
  Fs.writeFile (fs w)
    (Path.join [Path.join [Jwt.homeDirectory p; "uploads"%string]; stored])
    (bytes part) false = Fs.Ok m1 ->
  audit_ready E m1 = true ->
  let w1 := run (post_upload E upload) w in
  responses (trace w1) = responses (trace w) ++ [uploaded stored]
  /\ (forall (read : request) (authHeader' : string) (p' : Jwt.payload)
        (w2 : world),
      Str.provided (authorization read) = Some authHeader' ->
      Jwt.verify (jwt E) (bearer authHeader') (JWT_SECRET E) (now w2) = inr p' ->
      Jwt.homeDirectory p' = Jwt.homeDirectory p ->
      params_filename read = Some stored ->
      fs w2 = fs w1 ->
      responses (trace (run (get_download E read) w2))
      = responses (trace w2)
        ++ [{| status := 200; content := Attachment stored (bytes part) |}]
      /\ responses (trace (run (get_view E read) w2))
         = responses (trace w2)
           ++ [{| status := 200;
                  content := Json (JObject
                    [("content"%string, JText (Utf8.decode (bytes part)))]) |}])
  /\ (Utf8.encode (Utf8.decode (bytes part)) = bytes part
      <-> Utf8.well_formed (bytes part))
  /\ (forall text : list Z,
        Forall Utf8.scalar text -> bytes part = Utf8.encode text ->
        Utf8.decode (bytes part) = text).
Proof.
  intros Hauth Hverify Hnone Hpart Htruthy Hfree stored Hwrite Hready w1.
  destruct (PrettyFacts.stored_name (now w) (originalname part) Hfree)
    as [Hname Hdash]. fold stored in Hname, Hdash.
  destruct (Storage.stored_path E (Jwt.homeDirectory p) stored Hname Hdash)
    as [Hpath Hlog].
  rewrite Hpath in Hwrite.
  pose proof (Storage.writeFile_stores _ _ _ _ _ Hwrite) as Hstored.
  (* the upload *)
  assert (exists m2 : gmap string Fs.node,
             w1
             = logged
                 (on_disk
                    (logged (on_disk w m1)
                       [AuditCall "upload" (Some stored) (Some (Jwt.uid p))])
                    m2)
                 [Sent (uploaded stored)]
             /\ audit_ready E m2 = true
             /\ elsewhere E m1 m2) as (m2 & Hw1 & Hready2 & Helse).
  { subst w1. unfold run, post_upload.
    rewrite ServerFacts.chain_eq, ServerFacts.layer_eq,
      ServerFacts.jwtMiddleware_eq, Hauth, Hverify.
    rewrite ServerFacts.chain_eq, ServerFacts.layer_eq.
    rewrite (ServerFacts.upload_single_eq (with_user upload p) p part)
      by (reflexivity || assumption).
    cbv zeta. fold stored. rewrite Hpath, Hwrite.
    rewrite ServerFacts.chain_eq, ServerFacts.layer_eq.
    rewrite (ServerFacts.auditMiddleware_eq E "upload" _ p) by reflexivity.
    assert (filename_of (with_file (with_user upload p) stored) = Some stored)
      as -> by (unfold filename_of; cbn; rewrite Hnone; reflexivity).
    destruct (ServerFacts.audit_ok E "upload" (Some stored) (Jwt.uid p)
                (on_disk w m1) Hready) as (m2 & -> & _ & Hready2 & Helse).
    rewrite (ServerFacts.upload_done_eq _ stored) by reflexivity.
    exists m2. cbn [snd]. auto. }
  split; [|split; [|split]].
  - rewrite Hw1. cbn [logged on_disk trace].
    rewrite !ServerFacts.responses_app. cbn [responses omap].
    rewrite app_nil_r. reflexivity.
  - intros read authHeader' p' w2 Hauth' Hverify' Hhome Hparam Hdisk.
    assert (fs w2 = m2) as Hfs by (rewrite Hdisk, Hw1; reflexivity).
    assert (Str.provided (params_filename read) = Some stored) as Hprov.
    { rewrite Hparam. apply StrFacts.provided_truthy.
      apply PathFacts.name_truthy, Hname. }
    assert (fs w2 !! filePath (Jwt.homeDirectory p') stored
            = Some (Fs.File (bytes part))) as Hfile.
    { rewrite Hfs, Hhome. apply (Helse _ _ Hlog). exact Hstored. }
    assert (filePath (Jwt.homeDirectory p') stored <> auditFilePath E)
      as Hlog' by (rewrite Hhome; exact Hlog).
    assert (audit_ready E (fs w2) = true) as Hready3
      by (rewrite Hfs; exact Hready2).
    destruct (DirFacts.target_of_name (Jwt.homeDirectory p') stored Hname)
      as (_ & Hbase).
    split.
    + rewrite (Served.present_download E read authHeader' p' stored
                 (bytes part) w2) by assumption.
      rewrite Hbase. unfold stored at 1.
      rewrite PrettyFacts.stored_name_visible. reflexivity.
    + apply (Served.present_view E read authHeader' p' stored (bytes part) w2);
        assumption.
  - apply encode_decode_iff.
  - intros text Hscalar ->. apply Utf8Facts.decode_encode, Hscalar.
Qed.

End RoundTrip.

(* ===================================================================== *)
(** * The storage root of the token *)
(* ===================================================================== *)

Module Root.

Import Http Server.
Local Open Scope js_scope.


End Root.

(* ===================================================================== *)
(** * The concrete deployment, run *)
(* ===================================================================== *)

Module Deployment.

Import Http Server Scenario.

Lemma alice_bearer_eq : alice_bearer = "Bearer " +:+ alice_token.
Proof. vm_compute. reflexivity. Qed.

Lemma alice_verified :
  Jwt.verify (jwt env) (bearer ("Bearer " +:+ alice_token)) (JWT_SECRET env)
    (now later) = inr alice_claims.
Proof. vm_compute. reflexivity. Qed.

Lemma fs_at_time (t : Z) (m : gmap string Fs.node) : fs (at_time t m) = m.
Proof. reflexivity. Qed.

Lemma seed_name : Path.name "instructions.txt".
Proof. apply PathFacts.plain_name. reflexivity. Qed.

Lemma bob_verified :
  exists p : Jwt.payload,
    Jwt.verify (jwt env) (bearer bob_bearer) (JWT_SECRET env) (t0 + 60000)
    = inr p
    /\ Jwt.homeDirectory p = "/srv/app/backend/home/bob"%string.
Proof. eexists. split; vm_compute; reflexivity. Qed.



(** C2, against the claim: a wrong password for alice is answered with
    status 500, not a client error, and the body carries the text of the
    directory-service error; for an unknown user that text is another
    one, so the answer tells which of the two was wrong. *)
Lemma C2_login_failure_echoes_detail :
  Server.authenticate env "alice" "oops"
  = LdapError "InvalidCredentialsError: Invalid Credentials"
  /\ responses (trace (run (post_login env (credentials "alice" "oops"))
                         (at_time (t0 + 60000) disk)))
     = [{| status := 500;
           content := Json (JObject
             [("success", JBool false);
              ("message", JString "Authentication failed");
              ("error",
               JString "InvalidCredentialsError: Invalid Credentials")
             ]%string) |}]
  /\ responses (trace (run (post_login env (credentials "mallory" "oops"))
                         (at_time (t0 + 60000) disk)))
     = [{| status := 500;
           content := Json (JObject
             [("success", JBool false);
              ("message", JString "Authentication failed");
              ("error",
               JString "Error: user not found or usensame attribute is wrong")
             ]%string) |}].
Proof. repeat split; vm_compute; reflexivity. Qed.

(** C2, at a wrong password for alice. *)
Lemma C2_rejected_login_witness :
  audit_ready env disk = true
  /\ responses (trace (run (post_login env (credentials "alice" "oops"))
                         (at_time (t0 + 60000) disk)))
     = responses (trace (at_time (t0 + 60000) disk))
       ++ [{| status := 500;
              content := Json (JObject
                [("success", JBool false);
                 ("message", JString "Authentication failed");
                 ("error",
                  JString "InvalidCredentialsError: Invalid Credentials")
                ]%string) |}].
Proof.
  split; [vm_compute; reflexivity|].
  apply (LoginFailure.C2_rejected_login_answer env _ "alice" "oops");
    [reflexivity|reflexivity|reflexivity|vm_compute; reflexivity].
Defined.


(** C4, against the claim: alice's token after its expiry, and her token
    with a signature that does not verify, make [jwt.verify] throw two
    different errors and are answered with the same status and the same
    message. *)
Lemma C4_expired_and_invalid_same_answer :
  Jwt.verify (jwt env) (bearer ("Bearer " +:+ alice_token)) (JWT_SECRET env)
    (t0 + 3600000)
  = inl (Jwt.TokenExpiredError 1700003600)
  /\ Jwt.verify (jwt env) (bearer ("Bearer " +:+ alice_token +:+ "0"))
       (JWT_SECRET env) (t0 + 5000)
     = inl (Jwt.JsonWebTokenError "invalid signature")
  /\ responses
       (trace (snd (jwtMiddleware env (authorized ("Bearer " +:+ alice_token))
                      (at_time (t0 + 3600000) disk))))
     = [invalid_token]
  /\ responses
       (trace (snd (jwtMiddleware env
                      (authorized ("Bearer " +:+ alice_token +:+ "0"))
                      (at_time (t0 + 5000) disk))))
     = [invalid_token].
Proof. repeat split; vm_compute; reflexivity. Qed.

(** C5, against the claim: alice lists her files; the listing succeeds
    and [audit] was not called. *)
Lemma C5_list_is_not_audited :
  responses (trace (run (get_files env (authorized alice_bearer))
                      (at_time (t0 + 5000) disk)))
  = [{| status := 200;
        content := Json (JObject [("files"%string,
          JArray [JObject [("name"%string, JString "instructions.txt")]])]) |}]
  /\ audits (trace (run (get_files env (authorized alice_bearer))
                      (at_time (t0 + 5000) disk)))
     = [].
Proof. repeat split; vm_compute; reflexivity. Qed.

(** C5, at alice deleting her seed file. *)
Lemma C5_audit_first_witness :
  Jwt.verify (jwt env) (bearer ("Bearer " +:+ alice_token)) (JWT_SECRET env)
    (t0 + 5000) = inr alice_claims
  /\ audited_first "delete" (Some "instructions.txt"%string) "alice"
       (at_time (t0 + 5000) disk)
       (run (delete_delete env
               (on_file ("Bearer " +:+ alice_token) "instructions.txt"))
          (at_time (t0 + 5000) disk)).
Proof.
  split; [vm_compute; reflexivity|].
  destruct (Gateway.C5_audit_call_precedes_answer env
              (on_file ("Bearer " +:+ alice_token) "instructions.txt")
              ("Bearer " +:+ alice_token) alice_claims "instructions.txt"
              (at_time (t0 + 5000) disk)) as (Hdelete & _);
    [reflexivity|vm_compute; reflexivity|reflexivity|exact Hdelete].
Defined.

(** C6, against the claim: with a directory where the audit log should
    be, alice's delete of her seed file is answered with the error page of
    the failed audit write, and the file is still there; on the sound
    disk the same request deletes it. *)
Lemma C6_audit_failure_blocks_delete :
  responses
    (trace (run (delete_delete env (on_file alice_bearer "instructions.txt"))
              (at_time (t0 + 5000) broken)))
  = [{| status := 500;
        content := ErrorPage (FsException Fs.EISDIR
                                "/srv/app/backend/audit/record.txt") |}]
  /\ fs (run (delete_delete env (on_file alice_bearer "instructions.txt"))
           (at_time (t0 + 5000) broken))
       !! "/srv/app/backend/home/alice/uploads/instructions.txt"%string
     = Some (Fs.File (Str.bytes instructionsContent))
  /\ responses
       (trace (run (delete_delete env (on_file alice_bearer "instructions.txt"))
                 (at_time (t0 + 5000) disk)))
     = [{| status := 200;
           content := Json (JObject [("message"%string,
                        JString "File deleted successfully")]) |}].
Proof. repeat split; vm_compute; reflexivity. Qed.

(** C6, at alice deleting her seed file on the broken disk. *)
Lemma C6_audit_failure_witness :
  Jwt.verify (jwt env) (bearer ("Bearer " +:+ alice_token)) (JWT_SECRET env)
    (t0 + 5000) = inr alice_claims
  /\ audit_ready env broken = false
  /\ refused_by_audit env (at_time (t0 + 5000) broken)
       (run (delete_delete env
               (on_file ("Bearer " +:+ alice_token) "instructions.txt"))
          (at_time (t0 + 5000) broken)).
Proof.
  split; [vm_compute; reflexivity|]. split; [vm_compute; reflexivity|].
  destruct (Gateway.C6_audit_failure_reaches_caller env
              (on_file ("Bearer " +:+ alice_token) "instructions.txt")
              ("Bearer " +:+ alice_token) alice_claims "instructions.txt"
              (at_time (t0 + 5000) broken)) as (Hdelete & _);
    [reflexivity|vm_compute; reflexivity|reflexivity|vm_compute; reflexivity
    |exact Hdelete].
Defined.





(** C9, against the claim: alice uploads the one byte 255 and views the
    stored name; the answer holds the replacement character U+FFFD, whose
    bytes are not the byte she uploaded. *)
Lemma C9_view_is_lossy :
  responses (trace after_upload)
  = [{| status := 200;
        content := Json (JObject
          [("message", JString "File uploaded successfully");
           ("filename", JString "1700000005000-x.bin")]%string) |}]
  /\ responses
       (trace (run (get_view env (on_file alice_bearer "1700000005000-x.bin"))
                 (at_time (t0 + 6000) (fs after_upload))))
     = [{| status := 200;
           content := Json (JObject
             [("content"%string, JText [65533])]) |}]
  /\ Utf8.encode [65533] = [239; 191; 189].
Proof. repeat split; vm_compute; reflexivity. Qed.

Lemma stored_pdf_written :
  Fs.writeFile disk
    "/srv/app/backend/home/alice/uploads/1700000005000-report.pdf" pdf false
  = Fs.Ok stored_pdf.
Proof.
  assert (match Fs.writeFile disk
                  "/srv/app/backend/home/alice/uploads/1700000005000-report.pdf"
                  pdf false with
          | Fs.Ok _ => true
          | Fs.Err _ => false
          end = true) as Hok by (vm_compute; reflexivity).
  unfold stored_pdf.
  destruct (Fs.writeFile disk _ pdf false); [reflexivity|discriminate].
Qed.

(** C9, at alice uploading four bytes, then downloading and viewing the
    stored name a second later. *)
Lemma C9_round_trip_witness :
  Fs.writeFile (fs later)
    (Path.join [Path.join [Jwt.homeDirectory alice_claims; "uploads"%string];
                pretty (now later) +:+ "-" +:+ "report.pdf"])
    pdf false
  = Fs.Ok stored_pdf
  /\ audit_ready env stored_pdf = true
  /\ responses
       (trace (run (post_upload env
                      (sending ("Bearer " +:+ alice_token) "report.pdf" pdf))
                 later))
     = responses (trace later)
       ++ [uploaded (pretty (now later) +:+ "-" +:+ "report.pdf")]
  /\ pretty (now later) +:+ "-" +:+ "report.pdf"
     = "1700000005000-report.pdf"%string
  /\ responses
       (trace (run (get_download env
                      (on_file ("Bearer " +:+ alice_token)
                         (pretty (now later) +:+ "-" +:+ "report.pdf")))
                 (at_time (t0 + 6000)
                    (fs (run (post_upload env
                                (sending ("Bearer " +:+ alice_token)
                                   "report.pdf" pdf))
                           later)))))
     = responses
         (trace (at_time (t0 + 6000)
                   (fs (run (post_upload env
                               (sending ("Bearer " +:+ alice_token)
                                  "report.pdf" pdf))
                          later))))
       ++ [{| status := 200;
              content := Attachment
                (pretty (now later) +:+ "-" +:+ "report.pdf") pdf |}]
  /\ responses
       (trace (run (get_view env
                      (on_file ("Bearer " +:+ alice_token)
                         (pretty (now later) +:+ "-" +:+ "report.pdf")))
                 (at_time (t0 + 6000)
                    (fs (run (post_upload env
                                (sending ("Bearer " +:+ alice_token)
                                   "report.pdf" pdf))
                           later)))))
     = responses
         (trace (at_time (t0 + 6000)
                   (fs (run (post_upload env
                               (sending ("Bearer " +:+ alice_token)
                                  "report.pdf" pdf))
                          later))))
       ++ [{| status := 200;
              content := Json (JObject
                [("content"%string, JText (Utf8.decode pdf))]) |}]
  /\ Utf8.decode pdf = [37; 80; 68; 70].
Proof.
  assert (Fs.writeFile (fs later)
            (Path.join [Path.join [Jwt.homeDirectory alice_claims;
                                   "uploads"%string];
                        pretty (now later) +:+ "-" +:+ "report.pdf"])
            pdf false
          = Fs.Ok stored_pdf) as Hwrite.
  { assert (Path.join [Path.join [Jwt.homeDirectory alice_claims;
                                  "uploads"%string];
                       pretty (now later) +:+ "-" +:+ "report.pdf"]
            = "/srv/app/backend/home/alice/uploads/1700000005000-report.pdf"%string)
      as -> by (vm_compute; reflexivity).
    exact stored_pdf_written. }
  assert (audit_ready env stored_pdf = true) as Hready
    by (vm_compute; reflexivity).
  split; [exact Hwrite|]. split; [exact Hready|].
  destruct (RoundTrip.C9_upload_then_read_back env
              (sending ("Bearer " +:+ alice_token) "report.pdf" pdf)
              ("Bearer " +:+ alice_token) alice_claims
              {| originalname := "report.pdf"; bytes := pdf |}
              later stored_pdf eq_refl alice_verified eq_refl eq_refl
              eq_refl eq_refl Hwrite Hready)
    as (Hupload & Hread & _ & _).
  split; [exact Hupload|]. split; [vm_compute; reflexivity|].
  destruct (Hread (on_file ("Bearer " +:+ alice_token)
                     (pretty (now later) +:+ "-" +:+ "report.pdf"))
              ("Bearer " +:+ alice_token) alice_claims
              (at_time (t0 + 6000)
                 (fs (run (post_upload env
                             (sending ("Bearer " +:+ alice_token)
                                "report.pdf" pdf))
                        later))))
    as (Hdownload & Hview).
  - reflexivity.
  - vm_compute. reflexivity.
  - reflexivity.
  - reflexivity.
  - apply fs_at_time.
  - split; [exact Hdownload|]. split; [exact Hview|].
    vm_compute. reflexivity.
Defined.


End Deployment.

(* ===================================================================== *)
(** * The deployment, run further *)
(* ===================================================================== *)

Module Runs.

Import Http Server Scenario Deployment.

(** X1, run: a request without a header, on every gated route. *)
Lemma unverified_request_witness :
  fst (jwtMiddleware env blank later) = inr None
  /\ run (get_files env blank) later = snd (jwtMiddleware env blank later)
  /\ run (delete_delete env blank) later = snd (jwtMiddleware env blank later).
Proof.
  split; [reflexivity|].
  destruct (Gate.unverified_request_is_only_answered env blank later eq_refl)
    as (_ & _ & _ & _ & Hfiles & Hdelete & _).
  split; [exact Hfiles|exact Hdelete].
Defined.

(** X2, run: Alice views her seed file: one answer. *)
Lemma answered_once_witness :
  answered_once later (run (get_view env alice_seed) later)
  /\ answered_once later (run (get_files env alice_plain) later).
Proof.
  destruct (Answers.gated_request_is_answered_once env alice_seed later)
    as (_ & _ & _ & _ & Hview).
  split; [apply Hview; discriminate|].
  destruct (Answers.gated_request_is_answered_once env alice_plain later)
    as (_ & Hfiles & _).
  exact Hfiles.
Defined.

(** X23, run: a token after the word ["Basic"] is taken as after ["Bearer"]. *)
Lemma authorization_scheme_witness :
  Str.contains " "%char alice_token = false
  /\ fst (jwtMiddleware env (authorized ("Basic " +:+ alice_token)) later)
     = inr (Some (with_user (authorized ("Basic " +:+ alice_token))
                    alice_claims)).
Proof.
  split; [vm_compute; reflexivity|].
  destruct (Scheme.authorization_scheme_is_not_checked env
              (authorized ("Basic " +:+ alice_token)) "Basic" alice_token later)
    as (Hone & _); [reflexivity|vm_compute; reflexivity|].
  rewrite (Hone eq_refl).
  assert (Jwt.verify (jwt env) (Some alice_token) (JWT_SECRET env) (now later)
          = inr alice_claims) as -> by (vm_compute; reflexivity).
  reflexivity.
Defined.

(** X9, run: started without a secret, the server turns alice's token down and
    does not answer her login with a token. *)
Lemma no_secret_witness :
  Str.provided (JWT_SECRET env_without_secret) = None
  /\ fst (jwtMiddleware env_without_secret alice_plain later) = inr None.
Proof.
  split; [reflexivity|].
  destruct (Login.no_secret_no_session env_without_secret eq_refl)
    as [_ Hgate].
  exact (Hgate alice_plain later).
Defined.

(** X3, run: a login without a body. *)
Lemma login_early_exit_witness :
  run (post_login env blank) later = logged later [Sent missing_credentials].
Proof.
  destruct (LoginDisk.login_early_exits env blank later) as [H _].
  apply H. left. reflexivity.
Defined.

(** X4, run: Bob's wrong password leaves alice's seed file where it is. *)
Lemma login_keeps_witness :
  fs later !! "/srv/app/backend/home/alice/uploads/instructions.txt"%string
  = Some (Fs.File (Str.bytes instructionsContent))
  /\ fs (run (post_login env (credentials "bob" "oops")) later)
     !! "/srv/app/backend/home/alice/uploads/instructions.txt"%string
     = Some (Fs.File (Str.bytes instructionsContent)).
Proof.
  assert (fs later !! "/srv/app/backend/home/alice/uploads/instructions.txt"%string
          = Some (Fs.File (Str.bytes instructionsContent))) as Hseed
    by (vm_compute; reflexivity).
  split; [exact Hseed|].
  destruct (LoginDisk.login_keeps_what_is_stored env (credentials "bob" "oops")
              later) as [(Hfiles & _) _].
  apply Hfiles; [|exact Hseed].
  intros H. vm_compute in H. discriminate H.
Defined.

(** X5, run: Alice's first login is answered with her token. *)
Lemma login_success_witness :
  responses (trace after_alice)
  = [authenticated alice "/srv/app/backend/home/alice" alice_token]
  /\ (exists uid : string,
        audits (trace after_alice) = [("login"%string, None, Some uid)]
        /\ authenticated alice "/srv/app/backend/home/alice" alice_token
           = authenticated alice (userHomeDir env uid) alice_token)
  /\ authenticated alice "/srv/app/backend/home/alice" alice_token
     = {| status := 200;
          content := Json (JObject
            [("success", JBool true);
             ("message", JString "Authenticated successfully");
             ("user",
              JObject
                [("dn", JString "uid=alice,ou=people,dc=example,dc=org");
                 ("cn", JString "Alice Example");
                 ("uid", JString "alice");
                 ("mail", JString "alice@example.org");
                 ("objectClass",
                  JArray [JString "inetOrgPerson"; JString "posixAccount"]);
                 ("homeDirectory", JString "/srv/app/backend/home/alice")]);
             ("token", JString alice_token)]%string) |}.
Proof.
  assert (responses (trace after_alice)
          = [authenticated alice "/srv/app/backend/home/alice"
               alice_token]) as Hanswer by (vm_compute; reflexivity).
  split; [exact Hanswer|]. split; [|reflexivity].
  destruct (Login.login_succeeds_only_when_accepted env
              (credentials "alice" "correct-pw") (at_time t0 installed)
              (authenticated alice "/srv/app/backend/home/alice"
                 alice_token) Hanswer eq_refl)
    as (username & password & u & uid & token & Hu & Hp & Hauth & Huid
        & Hsign & Hr & Haudits & _).
  injection Hu as <-. injection Hp as <-.
  injection Hauth as <-. injection Huid as <-.
  exists "alice"%string. split; [exact Haudits|].
  reflexivity.
Defined.

(** X6, run: Alice's first login makes her storage root. *)
Lemma first_login_witness :
  Fs.existsSync installed (userHomeDir env "alice") = false
  /\ fs after_alice !! "/srv/app/backend/home/alice/uploads"%string
     = Some Fs.Dir
  /\ fs after_alice
     !! "/srv/app/backend/home/alice/uploads/instructions.txt"%string
     = Some (Fs.File (Str.bytes instructionsContent)).
Proof.
  split; [vm_compute; reflexivity|].
  destruct (Login.first_login_provisions env
              (credentials "alice" "correct-pw") "alice" "correct-pw" alice
              "alice" (at_time t0 installed)
              (authenticated alice "/srv/app/backend/home/alice"
                 alice_token))
    as (_ & Huploads & Hseed);
    [reflexivity|reflexivity|reflexivity|reflexivity|vm_compute; reflexivity
    |vm_compute; reflexivity|reflexivity|].
  split; [exact Huploads|exact Hseed].
Defined.

(** X7, run: a wrong password while the audit log cannot be written. *)
Lemma rejected_login_unanswered_witness :
  audit_ready env broken = false
  /\ responses (trace (run (post_login env (credentials "alice" "oops"))
                         (at_time (t0 + 60000) broken)))
     = [].
Proof.
  split; [vm_compute; reflexivity|].
  destruct (Login.rejected_login_unanswered_without_audit env
              (credentials "alice" "oops") "alice" "oops"
              "InvalidCredentialsError: Invalid Credentials"
              (at_time (t0 + 60000) broken))
    as (Hnone & _);
    [reflexivity|reflexivity|reflexivity|vm_compute; reflexivity|].
  exact Hnone.
Defined.

(** X8, run: the right password while the audit log cannot be written. *)
Lemma accepted_login_refused_witness :
  audit_ready env broken = false
  /\ Fs.existsSync broken (userHomeDir env "alice") = true
  /\ responses (trace (run (post_login env (credentials "alice" "correct-pw"))
                         (at_time (t0 + 60000) broken)))
     = [internal_error].
Proof.
  split; [vm_compute; reflexivity|]. split; [vm_compute; reflexivity|].
  destruct (Login.accepted_login_refused_without_audit env
              (credentials "alice" "correct-pw") "alice" "correct-pw" alice
              "alice" "s3cret" (at_time (t0 + 60000) broken))
    as (Hanswer & _);
    [reflexivity|reflexivity|reflexivity|reflexivity|vm_compute; reflexivity
    |reflexivity|vm_compute; reflexivity|].
  exact Hanswer.
Defined.

(** X11, run: the first call of [audit] on a fresh installation. *)
Lemma audit_first_use_witness :
  Fs.existsSync installed (auditDir env) = false
  /\ audit_ready env installed = true
  /\ exists w' : world,
       audit env "login" None (Some "alice"%string) (at_time t0 installed)
       = (inr tt, w')
       /\ fs w' !! auditDir env = Some Fs.Dir.
Proof.
  split; [vm_compute; reflexivity|]. split; [vm_compute; reflexivity|].
  destruct (Files.audit_makes_its_directory env "login" None "alice"
              (at_time t0 installed))
    as (w' & Hrun & Hdir & _); [vm_compute; reflexivity..|].
  exists w'. split; [exact Hrun|exact Hdir].
Defined.

(** X12, run: Alice downloads her seed file: one more line in the log. *)
Lemma file_operation_logged_witness :
  audit_ready env disk = true
  /\ audit_log env (fs (run (get_download env alice_seed) later))
     = audit_log env (fs later)
       ++ audit_line env (now later) "download" (Jwt.uid alice_claims)
            "instructions.txt".
Proof.
  split; [vm_compute; reflexivity|].
  destruct (Files.file_operation_is_logged env alice_seed
              ("Bearer " +:+ alice_token) alice_claims "instructions.txt" later)
    as (Hdownload & _);
    [reflexivity|exact alice_verified|reflexivity|vm_compute; reflexivity|].
  exact Hdownload.
Defined.

(** X13, run: Alice deletes her seed file. *)
Lemma delete_removes_witness :
  disk !! filePath (Jwt.homeDirectory alice_claims) "instructions.txt"
  = Some (Fs.File (Str.bytes instructionsContent))
  /\ responses (trace (run (delete_delete env alice_seed) later)) = [deleted]
  /\ fs (run (delete_delete env alice_seed) later)
     !! filePath (Jwt.homeDirectory alice_claims) "instructions.txt"
     = None.
Proof.
  assert (disk !! filePath (Jwt.homeDirectory alice_claims) "instructions.txt"
          = Some (Fs.File (Str.bytes instructionsContent))) as Hseed
    by (vm_compute; reflexivity).
  split; [exact Hseed|].
  destruct (Files.delete_removes_the_file env alice_seed
              ("Bearer " +:+ alice_token) alice_claims "instructions.txt"
              (Str.bytes instructionsContent) later)
    as (Hanswer & Hgone & _).
  - reflexivity.
  - exact alice_verified.
  - reflexivity.
  - exact Hseed.
  - exact (DirFacts.plain_name_misses_the_log env _ _ seed_name).
  - vm_compute. reflexivity.
  - split; [exact Hanswer|exact Hgone].
Defined.

(** X14, run: Alice deletes the audit log. *)
Lemma delete_audit_log_witness :
  filePath (Jwt.homeDirectory alice_claims) to_the_log = auditFilePath env
  /\ responses (trace (run (delete_delete env
                              (on_file ("Bearer " +:+ alice_token) to_the_log))
                         later))
     = [deleted]
  /\ fs (run (delete_delete env
                (on_file ("Bearer " +:+ alice_token) to_the_log)) later)
     !! auditFilePath env
     = None.
Proof.
  split; [vm_compute; reflexivity|].
  destruct (Files.delete_can_remove_the_audit_log env
              (on_file ("Bearer " +:+ alice_token) to_the_log)
              ("Bearer " +:+ alice_token) alice_claims to_the_log later)
    as (Hanswer & _ & Hgone & _);
    [reflexivity|exact alice_verified|reflexivity|vm_compute; reflexivity
    |vm_compute; reflexivity|].
  split; [exact Hanswer|exact Hgone].
Defined.

(** X15, run: Alice reads a name her directory does not hold. *)
Lemma reading_absent_witness :
  disk !! filePath (Jwt.homeDirectory alice_claims) "nope.txt" = None
  /\ responses (trace (run (get_download env
                              (on_file ("Bearer " +:+ alice_token) "nope.txt"))
                         later))
     = [internal_error]
  /\ responses (trace (run (get_view env
                              (on_file ("Bearer " +:+ alice_token) "nope.txt"))
                         later))
     = [unreadable].
Proof.
  assert (disk !! filePath (Jwt.homeDirectory alice_claims) "nope.txt" = None)
    as Hnone by (vm_compute; reflexivity).
  split; [exact Hnone|].
  destruct (Files.reading_absent_file_is_server_error env
              (on_file ("Bearer " +:+ alice_token) "nope.txt")
              ("Bearer " +:+ alice_token) alice_claims "nope.txt" later)
    as (_ & _ & _ & _ & Hready).
  - reflexivity.
  - exact alice_verified.
  - reflexivity.
  - apply PathFacts.plain_name. reflexivity.
  - intros data H. vm_compute in H. discriminate H.
  - apply Hready. vm_compute. reflexivity.
Defined.

(** X17, run: Alice lists her files: the seed file is named, a name her directory
    does not hold is not. *)
Lemma listing_witness :
  Jwt.homeDirectory alice_claims = userHomeDir env (Jwt.uid alice_claims)
  /\ exists names : list string,
       responses (trace (run (get_files env alice_plain) later))
       = [listed names]
       /\ In "instructions.txt"%string names
       /\ ~ In "nope.txt"%string names.
Proof.
  split; [vm_compute; reflexivity|].
  pose proof (Listing.listing_names_what_is_stored env alice_plain
                ("Bearer " +:+ alice_token) alice_claims later
                eq_refl alice_verified eq_refl) as H.
  cbv zeta in H.
  assert (Fs.is_dir (fs later)
            (Path.join [Jwt.homeDirectory alice_claims; "uploads"%string])
          = true) as Hdir by (vm_compute; reflexivity).
  rewrite Hdir in H. destruct H as (names & Hanswer & Hnames).
  exists names. split; [exact Hanswer|]. split.
  - apply (Hnames "instructions.txt"%string seed_name).
    exists (Fs.File (Str.bytes instructionsContent)).
    vm_compute. reflexivity.
  - intros Hin.
    apply (Hnames "nope.txt"%string) in Hin as (node & Hnode).
    + vm_compute in Hnode. discriminate Hnode.
    + apply PathFacts.plain_name. reflexivity.
Defined.

(** X18, run: Alice uploads her report and lists her files a second later. *)
Lemma uploaded_file_listed_witness :
  exists names : list string,
    responses
      (trace (run (get_files env alice_plain)
                (at_time (t0 + 6000)
                   (fs (run (post_upload env alice_report) later)))))
    = [listed names]
    /\ In "1700000005000-report.pdf"%string names.
Proof.
  destruct (Catalogue.uploaded_file_is_listed env alice_report
              ("Bearer " +:+ alice_token) alice_claims report_part later
              stored_pdf)
    with (later := alice_plain) (authHeader' := "Bearer " +:+ alice_token)
         (p' := alice_claims)
         (w2 := at_time (t0 + 6000)
                  (fs (run (post_upload env alice_report) later)))
    as (names & Hanswer & Hin).
  - reflexivity.
  - exact alice_verified.
  - reflexivity.
  - reflexivity.
  - reflexivity.
  - reflexivity.
  - exact Deployment.stored_pdf_written.
  - vm_compute. reflexivity.
  - reflexivity.
  - vm_compute. reflexivity.
  - reflexivity.
  - reflexivity.
  - apply fs_at_time.
  - exists names. split; [exact Hanswer|exact Hin].
Defined.

(** X19, run: Alice deletes her seed file and lists her files a second later. *)
Lemma deleted_file_not_listed_witness :
  exists names : list string,
    responses
      (trace (run (get_files env alice_plain)
                (at_time (t0 + 6000)
                   (fs (run (delete_delete env alice_seed) later)))))
    = [listed names]
    /\ ~ In "instructions.txt"%string names.
Proof.
  destruct (Catalogue.deleted_file_is_not_listed env alice_seed
              ("Bearer " +:+ alice_token) alice_claims "instructions.txt"
              (Str.bytes instructionsContent) later)
    with (later := alice_plain) (authHeader' := "Bearer " +:+ alice_token)
         (p' := alice_claims)
         (w2 := at_time (t0 + 6000)
                  (fs (run (delete_delete env alice_seed) later)))
    as (names & Hanswer & Hout).
  - reflexivity.
  - exact alice_verified.
  - reflexivity.
  - exact seed_name.
  - vm_compute. reflexivity.
  - vm_compute. reflexivity.
  - vm_compute. reflexivity.
  - reflexivity.
  - vm_compute. reflexivity.
  - reflexivity.
  - reflexivity.
  - apply fs_at_time.
  - exists names. split; [exact Hanswer|exact Hout].
Defined.

(** X20, run: Alice posts to the upload route without a file. *)
Lemma upload_without_file_witness :
  audit_ready env disk = true
  /\ audits (trace (run (post_upload env alice_plain) later))
     = [("upload"%string, None, Some "alice"%string)]
  /\ responses (trace (run (post_upload env alice_plain) later))
     = [{| status := 500;
           content := ErrorPage (TypeError
             "Cannot read properties of undefined (reading 'filename')") |}].
Proof.
  split; [vm_compute; reflexivity|].
  destruct (Uploads.upload_without_file_is_logged env alice_plain
              ("Bearer " +:+ alice_token) alice_claims later)
    as (Hanswer & Haudits & _);
    [reflexivity|exact alice_verified|reflexivity|reflexivity|reflexivity
    |vm_compute; reflexivity|].
  split; [exact Haudits|exact Hanswer].
Defined.

(** X21, run: Alice uploads her report to a disk without her [uploads]
    directory. *)
Lemma upload_not_stored_witness :
  Fs.writeFile installed
    "/srv/app/backend/home/alice/uploads/1700000005000-report.pdf" pdf false
  = Fs.Err Fs.ENOENT
  /\ run (post_upload env alice_report) (at_time (t0 + 5000) installed)
     = logged (at_time (t0 + 5000) installed)
         [Sent {| status := 500;
                  content := ErrorPage
                    (FsException Fs.ENOENT
                       "/srv/app/backend/home/alice/uploads/1700000005000-report.pdf")
               |}].
Proof.
  assert (Fs.writeFile installed
            "/srv/app/backend/home/alice/uploads/1700000005000-report.pdf"
            pdf false = Fs.Err Fs.ENOENT) as Hwrite by (vm_compute; reflexivity).
  split; [exact Hwrite|].
  apply (Uploads.upload_that_cannot_be_stored env alice_report
           ("Bearer " +:+ alice_token) alice_claims report_part Fs.ENOENT
           (at_time (t0 + 5000) installed));
    [reflexivity|vm_compute; reflexivity|reflexivity|reflexivity|exact Hwrite].
Defined.

(** X22, run: two uploads of the same original name, one second apart. *)
Lemma stored_names_witness :
  file_filename
    (with_file (with_user alice_report alice_claims) "1700000005000-report.pdf")
  = Some (pretty (t0 + 5000) +:+ "-report.pdf")
  /\ (file_filename
        (with_file (with_user alice_report alice_claims)
           "1700000005000-report.pdf")
      = file_filename
          (with_file (with_user alice_report alice_claims)
             "1700000006000-report.pdf") ->
      t0 + 5000 = t0 + 6000 /\ "report.pdf"%string = "report.pdf"%string).
Proof.
  destruct (Uploads.stored_names_do_not_collide
              (with_user alice_report alice_claims)
              (with_user alice_report alice_claims)
              alice_claims alice_claims report_part report_part
              later (at_time (t0 + 6000) disk)
              (with_file (with_user alice_report alice_claims)
                 "1700000005000-report.pdf")
              (with_file (with_user alice_report alice_claims)
                 "1700000006000-report.pdf"))
    as (Hfirst & _ & Hsame);
    [reflexivity|reflexivity|reflexivity|reflexivity|reflexivity|reflexivity
    |vm_compute; discriminate|vm_compute; discriminate
    |vm_compute; reflexivity|vm_compute; reflexivity|].
  split; [exact Hfirst|exact Hsame].
Defined.

(** X24, run: Alice deletes her seed file; bob's is still there. *)
Lemma neighbours_witness :
  Jwt.homeDirectory alice_claims = userHomeDir env "alice"
  /\ fs (run (delete_delete env alice_seed) later)
     !! filePath (userHomeDir env "bob") "instructions.txt"
     = Some (Fs.File (Str.bytes instructionsContent)).
Proof.
  split; [vm_compute; reflexivity|].
  destruct (Neighbours.plain_names_leave_other_users_alone env "alice" "bob"
              alice_seed ("Bearer " +:+ alice_token) alice_claims later)
    as (Hdelete & _).
  - apply PathFacts.plain_name. reflexivity.
  - apply PathFacts.plain_name. reflexivity.
  - discriminate.
  - reflexivity.
  - exact alice_verified.
  - vm_compute. reflexivity.
  - apply (Hdelete "instructions.txt"%string eq_refl seed_name
             "instructions.txt"%string (Str.bytes instructionsContent)
             seed_name).
    vm_compute. reflexivity.
Defined.

(** X25, run: Alice downloads her seed file. *)
Lemma served_witness :
  responses (trace (run (get_download env alice_seed) later))
  = [{| status := 200;
        content := Attachment "instructions.txt"
                     (Str.bytes instructionsContent) |}]
  /\ responses (trace (run (get_view env alice_seed) later))
     = [{| status := 200;
           content := Json (JObject
             [("content"%string,
               JText (Utf8.decode (Str.bytes instructionsContent)))]) |}].
Proof.
  destruct (Served.reading_serves_the_stored_file env alice_seed
              ("Bearer " +:+ alice_token) alice_claims "instructions.txt"
              (Str.bytes instructionsContent) later)
    as (Hdownload & Hview).
  - reflexivity.
  - exact alice_verified.
  - reflexivity.
  - exact seed_name.
  - vm_compute. reflexivity.
  - vm_compute. reflexivity.
  - split; [exact Hdownload|exact Hview].
Defined.

End Runs.
